(** * Spike detection of sanpy/bAnalysis.py: a shallow embedding

    The development follows [src/sanpy/bAnalysis.py].  Sample indices
    ("points") are Python/numpy integers and are modelled by [Z]; the
    sampling rate [dataPointsPerMs] is the integer that pyabf gives for a
    loaded recording.  Sample values are floats and are modelled by exact
    rationals [Q] (no NaN inside a recording); the float NaN that the code
    produces itself (mean of an empty slice, default field values) is
    explicit.  Arithmetic on them is exact, but for the refractory
    threshold, a float product that is compared with a distance in
    samples: it is rounded as the floats round it ([float_mul]).
    Python slices and indices keep their
    negative-index wrap-around, and the exceptions the code can raise are
    results of an error monad.  Logging and printing are left out. *)

From Stdlib Require Import ZArith QArith Qround List Ascii String Bool Lia Lqa.
From Stdlib Require Import DecimalString.
Import ListNotations.

Open Scope Z_scope.

(** ** Python and numpy primitives *)

Inductive exn : Type :=
| IndexError
| ValueError
| TypeError
| KeyError (k : string)
| AttributeError
| UnboundLocalError.

Inductive result (A : Type) : Type :=
| Ok (a : A)
| Raise (e : exn).
Arguments Ok {A} a.
Arguments Raise {A} e.

Definition bind {A B : Type} (m : result A) (k : A -> result B) : result B :=
  match m with
  | Ok a => k a
  | Raise e => Raise e
  end.

Notation "x <- m ;; k" := (bind m (fun x => k))
  (at level 61, m at next level, right associativity).
Notation "' p <- m ;; k" := (bind m (fun x => let p := x in k))
  (at level 61, p pattern, m at next level, right associativity).

Definition len {A : Type} (l : list A) : Z := Z.of_nat (List.length l).

(** [l[start:stop]] for integer bounds: a negative bound counts from the end,
    and both bounds are clipped to the sequence. *)
Definition clip_bound (n i : Z) : Z :=
  if i <? 0 then Z.max (i + n) 0 else Z.min i n.

Definition py_slice {A : Type} (l : list A) (start stop : Z) : list A :=
  let a := clip_bound (len l) start in
  let b := clip_bound (len l) stop in
  firstn (Z.to_nat (b - a)) (skipn (Z.to_nat a) l).

(** [l[i]]: a negative index counts from the end; out of range raises. *)
Definition py_index {A : Type} (l : list A) (i : Z) : result A :=
  let j := if i <? 0 then i + len l else i in
  if j <? 0 then Raise IndexError
  else match nth_error l (Z.to_nat j) with
       | Some x => Ok x
       | None => Raise IndexError
       end.

(** [np.where(cond)[0]]: the indices at which the condition holds. *)
Fixpoint where_from {A : Type} (p : A -> bool) (i : Z) (l : list A) : list Z :=
  match l with
  | [] => []
  | x :: r => if p x then i :: where_from p (i + 1) r else where_from p (i + 1) r
  end.

Definition np_where {A : Type} (p : A -> bool) (l : list A) : list Z :=
  where_from p 0 l.

(** [np.flip] *)
Definition np_flip {A : Type} (l : list A) : list A := rev l.

(** [np.argmax] and [np.argmin]: the first index of the extremum;
    [ValueError] on an empty sequence. *)
Fixpoint arg_best (better : Q -> Q -> bool) (best : Q) (bi i : Z) (l : list Q) : Z :=
  match l with
  | [] => bi
  | x :: r => if better x best then arg_best better x i (i + 1) r
              else arg_best better best bi (i + 1) r
  end.

Definition Qgtb (x y : Q) : bool := negb (Qle_bool x y).
Definition Qltb (x y : Q) : bool := negb (Qle_bool y x).

Definition np_argmax (l : list Q) : result Z :=
  match l with
  | [] => Raise ValueError
  | x :: r => Ok (arg_best Qgtb x 0 1 r)
  end.

Definition np_argmin (l : list Q) : result Z :=
  match l with
  | [] => Raise ValueError
  | x :: r => Ok (arg_best Qltb x 0 1 r)
  end.

Definition np_max (l : list Q) : result Q :=
  match l with
  | [] => Raise ValueError
  | x :: r => Ok (fold_left (fun m y => if Qgtb y m then y else m) r x)
  end.

(** [np.mean], [np.average]: NaN (here [None]) on an empty sequence. *)
Definition Qsum (l : list Q) : Q := fold_left Qplus l 0%Q.

Definition np_mean (l : list Q) : option Q :=
  match l with
  | [] => None
  | _ => Some (Qsum l / inject_Z (len l))%Q
  end.

(** The variance under [np.std]: the comparison the code makes with a
    standard deviation is taken on squares, so no root is needed. *)
Definition np_var (l : list Q) : option Q :=
  match np_mean l with
  | None => None
  | Some m => Some (Qsum (map (fun x => (x - m) * (x - m))%Q l) / inject_Z (len l))%Q
  end.

(** Python [round] on a float: to the nearest integer, ties to even. *)
Definition py_round (q : Q) : Z :=
  let f := Qfloor q in
  let d := (q - inject_Z f)%Q in
  match Qcompare d (1 # 2) with
  | Lt => f
  | Gt => f + 1
  | Eq => if Z.even f then f else f + 1
  end.

(** [int(x)]: truncation toward zero. *)
Definition py_int (q : Q) : Z :=
  if Qle_bool 0 q then Qfloor q else Qceiling q.

(** [round(x, nd)] *)
Definition py_round_n (q : Q) (nd : nat) : Q :=
  (inject_Z (py_round (q * inject_Z (10 ^ Z.of_nat nd))) / inject_Z (10 ^ Z.of_nat nd))%Q.

(** ** Float products

    Sample values and configured times are floats and are modelled by
    the rationals they denote.  Where the code compares with a product
    of floats, the product is rounded as IEEE 754 binary64 rounds it: to
    the nearest number with a significand of 53 bits, ties to even.  The
    exponent range (overflow, subnormal numbers) is not modelled. *)

Definition float_round (q : Q) : Q :=
  if Qeq_bool q 0 then 0%Q
  else
    let a := if Qle_bool 0 q then q else (- q)%Q in
    let e0 := Z.log2 (Qnum a) - Z.log2 (Zpos (Qden a)) - 52 in
    let e := if Qle_bool (inject_Z (2 ^ 52)) (a / 2 ^ e0)%Q then e0 else e0 - 1 in
    let m := py_round (a / 2 ^ e)%Q in
    let r := (inject_Z m * 2 ^ e)%Q in
    if Qle_bool 0 q then r else (- r)%Q.

(** [x * y] on floats. *)
Definition float_mul (x y : Q) : Q := float_round (x * y)%Q.

(** ** Threshold crossings

    Both detectors start with the same four lines
    ([_spikeDetect_dvdt] 917-921, [_spikeDetect_vm] 1052-1056):
<<
    Is=np.where(signal>threshold)[0]
    Is=np.concatenate(([0],Is))
    Ds=Is[:-1]-Is[1:]+1
    spikeTimes0 = Is[np.where(Ds)[0]+1]
>> *)

Fixpoint zip_with {A B C : Type} (f : A -> B -> C) (l : list A) (m : list B) : list C :=
  match l, m with
  | a :: l', b :: m' => f a b :: zip_with f l' m'
  | _, _ => []
  end.

Definition Znonzero (z : Z) : bool := negb (z =? 0).

Definition threshold_crossings (signal : list Q) (threshold : Q) : list Z :=
  let Is := np_where (fun v => Qgtb v threshold) signal in
  let Is := 0 :: Is in
  let Ds := zip_with (fun a b => a - b + 1) (py_slice Is 0 (-1)) (py_slice Is 1 (len Is)) in
  map (fun j => nth (Z.to_nat (j + 1)) Is 0) (np_where Znonzero Ds).

(** ** Detection configuration ([getDefaultDetection]) *)

(** A nullable float of the configuration: [None], NaN, or a number. *)
Inductive optnum : Type :=
| NumNone
| NumNaN
| Num (q : Q).

Record detection : Type := {
  dvdtThreshold : optnum;
  mvThreshold : Q;
  medianFilter : Z;
  SavitzkyGolay_pnts : Z;
  SavitzkyGolay_poly : Z;
  halfHeights : list Z;
  mdp_ms : Q;
  refractory_ms : Q;
  peakWindow_ms : Q;
  dvdtPreWindow_ms : Q;
  avgWindow_ms : Q;
  dvdt_percentOfMax : Q;
  halfWidthWindow_ms : Q;
  doBackupSpikeVm : bool;
  spikeClipWidth_ms : Q;
  onlyPeaksAbove_mV : option Q;
  startSeconds : option Q;
  stopSeconds : option Q;
  cellType : string;
  sex : string;
  condition : string;
  verbose : bool
}.

Definition set_cellParams (d : detection) (refractory peakWindow halfWidthWindow clipWidth : Q)
  : detection :=
  {| dvdtThreshold := Num 100; mvThreshold := (-20)%Q;
     medianFilter := medianFilter d;
     SavitzkyGolay_pnts := SavitzkyGolay_pnts d;
     SavitzkyGolay_poly := SavitzkyGolay_poly d;
     halfHeights := halfHeights d; mdp_ms := mdp_ms d;
     refractory_ms := refractory; peakWindow_ms := peakWindow;
     dvdtPreWindow_ms := dvdtPreWindow_ms d; avgWindow_ms := avgWindow_ms d;
     dvdt_percentOfMax := dvdt_percentOfMax d;
     halfWidthWindow_ms := halfWidthWindow;
     doBackupSpikeVm := doBackupSpikeVm d;
     spikeClipWidth_ms := clipWidth;
     onlyPeaksAbove_mV := onlyPeaksAbove_mV d;
     startSeconds := startSeconds d; stopSeconds := stopSeconds d;
     cellType := cellType d; sex := sex d; condition := condition d;
     verbose := verbose d |}.

Definition getDefaultDetection (cellType : option string) : detection :=
  let theDict :=
    {| dvdtThreshold := Num 100; mvThreshold := (-20)%Q;
       medianFilter := 0; SavitzkyGolay_pnts := 5; SavitzkyGolay_poly := 2;
       halfHeights := [10; 20; 50; 80; 90];
       mdp_ms := 250%Q; refractory_ms := 170%Q; peakWindow_ms := 100%Q;
       dvdtPreWindow_ms := 10%Q; avgWindow_ms := 5%Q;
       dvdt_percentOfMax := (1 # 10)%Q; halfWidthWindow_ms := 200%Q;
       doBackupSpikeVm := true; spikeClipWidth_ms := 500%Q;
       onlyPeaksAbove_mV := Some (-20)%Q;
       startSeconds := None; stopSeconds := None;
       cellType := ""; sex := ""; condition := ""; verbose := false |} in
  match cellType with
  | None => theDict
  | Some c =>
      if String.eqb c "SA Node Params" then theDict
      else if String.eqb c "Ventricular Params" then set_cellParams theDict 200 100 300 200
      else if String.eqb c "Neuron Params" then set_cellParams theDict 7 5 4 20
      else theDict
  end.

(** ** Spike records and error annotations *)

(** A float stored in a record. *)
Inductive pyfloat : Type :=
| FNaN
| FInf
| F (q : Q).

(** The arguments of the f-strings that make the free-text detail of an
    annotation; the text itself is a float-to-string conversion and is not
    modelled. *)
Inductive detail : Type :=
| DetailFake
| DetailDvdtPercent (percentOfMax peakVal : Q)
| DetailPreMin (preMinVal : pyfloat)
| DetailFitEDD
| DetailFitEDD2
| DetailPreSpikeDvDt
| DetailCycleLength (prevPreMinPnt thisPreMinPnt : option Z)
| DetailSpikeWidth (halfHeight : Z) (tmpErrorType : option string)
                   (halfWidthWindow thisVm peakSec : Q).

Record errorDict : Type := {
  eSpike : Z;
  eSeconds : Q;
  eType : string;
  eDetails : detail
}.

Record widthDict : Type := {
  w_halfHeight : Z;
  w_risingPnt : option Z;
  w_risingVal : pyfloat;
  w_fallingPnt : option Z;
  w_fallingVal : pyfloat;
  w_widthPnts : option Z;
  w_widthMs : pyfloat
}.

Inductive value : Type :=
| VNone
| VInt (z : Z)
| VFloat (f : pyfloat)
| VStr (s : string)
| VInts (l : list Z)
| VErrors (l : list errorDict)
| VWidths (l : list widthDict).

(** An [OrderedDict]: keys in insertion order, assignment to an existing
    key keeps its place. *)
Definition dict : Type := list (string * value).

Fixpoint dict_get (d : dict) (k : string) : option value :=
  match d with
  | [] => None
  | (k', v) :: r => if String.eqb k k' then Some v else dict_get r k
  end.

Fixpoint dict_set (d : dict) (k : string) (v : value) : dict :=
  match d with
  | [] => [(k, v)]
  | (k', v') :: r => if String.eqb k k' then (k', v) :: r else (k', v') :: dict_set r k v
  end.

Definition dict_keys (d : dict) : list string := map fst d.

Definition dict_has (d : dict) (k : string) : bool :=
  existsb (String.eqb k) (dict_keys d).

(** [d[k]], raising [KeyError]. *)
Definition dict_item (d : dict) (k : string) : result value :=
  match dict_get d k with
  | Some v => Ok v
  | None => Raise (KeyError k)
  end.

(** [_getErrorDict] *)
Definition _getErrorDict (dataPointsPerMs : Z) (spikeNumber pnt : Z) (type : string)
  (detailStr : detail) : errorDict :=
  let sec := (inject_Z pnt / inject_Z dataPointsPerMs / 1000)%Q in
  let sec := py_round_n sec 4 in
  {| eSpike := spikeNumber; eSeconds := sec; eType := type; eDetails := detailStr |}.

Definition pnt2Ms_ (dataPointsPerMs : Z) (pnt : Z) : Q :=
  (inject_Z pnt / inject_Z dataPointsPerMs)%Q.

Definition pnt2Sec_ (dataPointsPerMs : Z) (pnt : Z) : Q :=
  (inject_Z pnt / inject_Z dataPointsPerMs / 1000)%Q.

Definition ms2Pnt_ (dataPointsPerMs : Z) (ms : Q) : Z :=
  py_int (ms * inject_Z dataPointsPerMs)%Q.

(** ** Refractory collapsing ([_throwOutRefractory]) *)

(** The loop over [i >= 1]: [lastGood] is the time of the last spike
    kept, a spike closer than the threshold is overwritten with 0.  The
    threshold is the float product [self.dataPointsPerMs*refractory_ms]. *)
Fixpoint refractory_marks (threshold : Q) (lastGood : Z) (rest : list Z) : list Z :=
  match rest with
  | [] => []
  | t :: r =>
      let dPoints := t - lastGood in
      if Qltb (inject_Z dPoints) threshold
      then 0 :: refractory_marks threshold lastGood r
      else t :: refractory_marks threshold t r
  end.

Definition refractory_marked (dataPointsPerMs : Z) (refractory_ms : Q) (spikeTimes0 : list Z)
  : list Z :=
  match spikeTimes0 with
  | [] => []
  | t0 :: r => t0 :: refractory_marks (float_mul (inject_Z dataPointsPerMs) refractory_ms) t0 r
  end.

(** [[errs[idx] for idx, spikeTime in enumerate(spikeTimes0) if spikeTime]] *)
Fixpoint pick_errors {E : Type} (errs : list E) (idx : Z) (marked : list Z) : result (list E) :=
  match marked with
  | [] => Ok []
  | t :: r =>
      if Znonzero t
      then e <- py_index errs idx ;;
           es <- pick_errors errs (idx + 1) r ;;
           Ok (e :: es)
      else pick_errors errs (idx + 1) r
  end.

Definition _throwOutRefractory {E : Type} (dataPointsPerMs : Z) (spikeTimes0 : list Z)
  (goodSpikeErrors : option (list E)) (refractory_ms : Q)
  : result (list Z * option (list E)) :=
  let marked := refractory_marked dataPointsPerMs refractory_ms spikeTimes0 in
  goodSpikeErrors <-
    match goodSpikeErrors with
    | None => Ok None
    | Some errs => es <- pick_errors errs 0 marked ;; Ok (Some es)
    end ;;
  let spikeTimes0 := filter Znonzero marked in
  Ok (spikeTimes0, goodSpikeErrors).

(** ** Derivative-threshold detection ([_spikeDetect_dvdt]) *)

(** Lines 930-939: keep the crossings whose raw peak in the window after
    the crossing exceeds [mvThreshold]. *)
Fixpoint peak_gate (sweepY : list Q) (peakWindow_pnts : Z) (mv : Q) (spikeTimes0 : list Z)
  : result (list Z) :=
  match spikeTimes0 with
  | [] => Ok []
  | spikeTime :: r =>
      peakVal <- np_max (py_slice sweepY spikeTime (spikeTime + peakWindow_pnts)) ;;
      good <- peak_gate sweepY peakWindow_pnts mv r ;;
      Ok (if Qgtb peakVal mv then spikeTime :: good else good)
  end.

(** The body of the loop of lines 970-1020 for one crossing: what is
    appended to [spikeTimes1] and, when something is, to
    [spikeErrorList1]. *)
Definition dvdt_backup_one (dataPointsPerMs : Z) (pct : Q) (filteredDeriv : list Q)
  (window_pnts : Z) (i spikeTime : Z) : Z * option (option errorDict) :=
  let preDerivClip := py_slice filteredDeriv (spikeTime - window_pnts) spikeTime in
  let postDerivClip := py_slice filteredDeriv spikeTime (spikeTime + window_pnts) in
  let attempt :=
    peakPnt <- np_argmax postDerivClip ;;
    let peakPnt := peakPnt + spikeTime in
    peakVal <- py_index filteredDeriv peakPnt ;;
    let percentMaxVal := (peakVal * pct)%Q in
    let preDerivClip := np_flip preDerivClip in
    let tmpWhere := np_where (fun v => Qltb v percentMaxVal) preDerivClip in
    match tmpWhere with
    | threshPnt2 :: _ =>
        let threshPnt2 := spikeTime - threshPnt2 in
        let threshPnt2 := threshPnt2 - 1 in
        Ok (threshPnt2, Some None)
    | [] =>
        let eDict := _getErrorDict dataPointsPerMs i spikeTime "dvdtPercent"
                       (DetailDvdtPercent pct peakVal) in
        Ok (spikeTime, Some (Some eDict))
    end in
  match attempt with
  | Ok r => r
  | Raise _ => (spikeTime, None)
  end.

Fixpoint dvdt_backup (dataPointsPerMs : Z) (pct : Q) (filteredDeriv : list Q)
  (window_pnts : Z) (i : Z) (spikeTimes0 : list Z)
  : list Z * list (option errorDict) :=
  match spikeTimes0 with
  | [] => ([], [])
  | spikeTime :: r =>
      let '(t, e) := dvdt_backup_one dataPointsPerMs pct filteredDeriv window_pnts i spikeTime in
      let '(ts, es) := dvdt_backup dataPointsPerMs pct filteredDeriv window_pnts (i + 1) r in
      (t :: ts, match e with Some e => e :: es | None => es end)
  end.

Definition _spikeDetect_dvdt (dataPointsPerMs : Z) (dDict : detection)
  (filteredDeriv sweepY : list Q) : result (list Z * list (option errorDict)) :=
  spikeTimes0 <-
    match dvdtThreshold dDict with
    | Num thr => Ok (threshold_crossings filteredDeriv thr)
    | NumNaN => Ok (threshold_crossings (@nil Q) 0%Q)
    | NumNone => Raise TypeError
    end ;;
  let peakWindow_pnts := py_round (inject_Z dataPointsPerMs * peakWindow_ms dDict)%Q in
  spikeTimes0 <- peak_gate sweepY peakWindow_pnts (mvThreshold dDict) spikeTimes0 ;;
  ' (spikeTimes0, ignoreSpikeErrors) <-
    _throwOutRefractory (E := unit) dataPointsPerMs spikeTimes0 None (refractory_ms dDict) ;;
  let window_pnts := py_round (dvdtPreWindow_ms dDict * inject_Z dataPointsPerMs)%Q in
  Ok (dvdt_backup dataPointsPerMs (dvdt_percentOfMax dDict) filteredDeriv window_pnts 0 spikeTimes0).

(** ** Amplitude-threshold detection ([_spikeDetect_vm]) *)

(** [a > b] on floats that may be NaN: false as soon as one is. *)
Definition nan_gtb (a b : option Q) : bool :=
  match a, b with
  | Some x, Some y => Qgtb x y
  | _, _ => false
  end.

Definition prePntUp : Z := 10.
Definition minISI_ms : Q := 75%Q.

(** Lines 1089-1102: keep upward deflections that are at least
    [minISI_pnts] after the last one kept. *)
Fixpoint upward_gate (sweepY : list Q) (minISI_pnts : Z)
  (spikeErrorList : list (option errorDict)) (tmpLastGoodSpike_pnts : option Z)
  (tmpIdx : Z) (spikeTimes0 : list Z) : result (list Z * list (option errorDict)) :=
  match spikeTimes0 with
  | [] => Ok ([], [])
  | spikeTime :: r =>
      let tmpPreClip := py_slice sweepY (spikeTime - prePntUp) spikeTime in
      let tmpPostClip := py_slice sweepY (spikeTime + 1) (spikeTime + prePntUp + 1) in
      let preAvg := np_mean tmpPreClip in
      let postAvg := np_mean tmpPostClip in
      if nan_gtb postAvg preAvg then
        let tooSoon :=
          match tmpLastGoodSpike_pnts with
          | Some last => spikeTime - last <? minISI_pnts
          | None => false
          end in
        if tooSoon
        then upward_gate sweepY minISI_pnts spikeErrorList tmpLastGoodSpike_pnts (tmpIdx + 1) r
        else
          e <- py_index spikeErrorList tmpIdx ;;
          ' (ts, es) <- upward_gate sweepY minISI_pnts spikeErrorList (Some spikeTime)
                          (tmpIdx + 1) r ;;
          Ok (spikeTime :: ts, e :: es)
      else upward_gate sweepY minISI_pnts spikeErrorList tmpLastGoodSpike_pnts (tmpIdx + 1) r
  end.

Definition _spikeDetect_vm (dataPointsPerMs : Z) (dDict : detection)
  (filteredVm sweepY : list Q) : result (list Z * list (option errorDict)) :=
  let spikeTimes0 := threshold_crossings filteredVm (mvThreshold dDict) in
  let spikeErrorList := repeat (@None errorDict) (List.length spikeTimes0) in
  let minISI_pnts := ms2Pnt_ dataPointsPerMs minISI_ms in
  ' (goodSpikeTimes, goodSpikeErrors) <-
    upward_gate sweepY minISI_pnts spikeErrorList None 0 spikeTimes0 ;;
  ' (goodSpikeTimes, goodSpikeErrors) <-
    _throwOutRefractory dataPointsPerMs goodSpikeTimes (Some goodSpikeErrors)
      (refractory_ms dDict) ;;
  match goodSpikeErrors with
  | Some es => Ok (goodSpikeTimes, es)
  | None => Ok (goodSpikeTimes, [])
  end.

(** ** The backward walk of [_backupSpikeVm]

    [myVm] is the median-filtered sweep.  The loop counter
    [backupNumPnts] runs from 0 and the loop is left at the latest when it
    reaches [maxNumPntsToBackup]; the recursion is on the number of steps
    left to that bound. *)

Definition maxNumPntsToBackup : Z := 20.
Definition moveForwardPnts : Z := 4.

(** [meanDiff < nextSD * 0.7], with [nextSD] the root of [nextVar]. *)
Definition below_sd (thisMean nextMean nextVar : option Q) : bool :=
  match thisMean, nextMean, nextVar with
  | Some a, Some b, Some v =>
      let meanDiff := (a - b)%Q in
      Qltb meanDiff 0 || Qltb (meanDiff * meanDiff) ((49 # 100) * v)
  | _, _, _ => false
  end.

Definition backup_realPnt (bin_pnts spikeTimePnts backupNumPnts : Z) : Z :=
  let backupNumPnts := backupNumPnts - 1 in
  if backupNumPnts <? moveForwardPnts
  then let realBackupPnts := backupNumPnts - 0 in
       spikeTimePnts - realBackupPnts * bin_pnts
  else let realBackupPnts := backupNumPnts - moveForwardPnts in
       spikeTimePnts - realBackupPnts * bin_pnts.

Fixpoint backup_walk (stepsLeft : nat) (myVm : list Q) (bin_pnts half_bin_pnts : Z)
  (spikeTimePnts : Z) (thisMean : option (option Q)) (atBinPnt : Z) : Z :=
  let backupNumPnts := maxNumPntsToBackup - Z.of_nat stepsLeft in
  let thisWin := py_slice myVm (atBinPnt - half_bin_pnts) (atBinPnt + half_bin_pnts) in
  let thisMean := match thisMean with
                  | None => np_mean thisWin
                  | Some m => m
                  end in
  let nextStart := atBinPnt - 1 - bin_pnts - half_bin_pnts in
  let nextStop := atBinPnt - 1 - bin_pnts + half_bin_pnts in
  let nextWin := py_slice myVm nextStart nextStop in
  let nextMean := np_mean nextWin in
  let nextVar := np_var nextWin in
  if below_sd thisMean nextMean nextVar || (backupNumPnts =? maxNumPntsToBackup)
  then backup_realPnt bin_pnts spikeTimePnts backupNumPnts
  else match stepsLeft with
       | S n => backup_walk n myVm bin_pnts half_bin_pnts spikeTimePnts
                  (Some nextMean) (atBinPnt - bin_pnts)
       | O => backup_realPnt bin_pnts spikeTimePnts backupNumPnts
       end.

(** ** The recording ([bAnalysis]) *)

Inductive recordingMode : Type :=
| IClamp
| VClamp
| ModeUnknown.

(** A 2D numpy array of shape (points, sweeps) is kept as the list of its
    columns, one per sweep. *)
Definition array2d : Type := list (list Q).

Record bAnalysis : Type := {
  _dataPointsPerMs : Z;
  _sweepList : list Z;
  _sweepX : array2d;
  _sweepY : array2d;
  _sweepC : array2d;
  _recordingMode : recordingMode;
  _path : option string;
  detectionDict : option detection;
  dateAnalyzed : option Z;
  detectionType : option string;
  _filteredVm : array2d;
  _filteredDeriv : array2d;
  spikeDict : list dict;
  spikeClips : option (list (list Q));
  spikeClips_x : option (list Q);
  spikeClips_x2 : option (list (list Q));
  dfError : option (list errorDict);
  _detectionDirty : bool
}.

Definition set_filtered (self : bAnalysis) (vm deriv : array2d) : bAnalysis :=
  {| _dataPointsPerMs := _dataPointsPerMs self; _sweepList := _sweepList self;
     _sweepX := _sweepX self; _sweepY := _sweepY self; _sweepC := _sweepC self;
     _recordingMode := _recordingMode self; _path := _path self;
     detectionDict := detectionDict self; dateAnalyzed := dateAnalyzed self;
     detectionType := detectionType self;
     _filteredVm := vm; _filteredDeriv := deriv;
     spikeDict := spikeDict self; spikeClips := spikeClips self;
     spikeClips_x := spikeClips_x self; spikeClips_x2 := spikeClips_x2 self;
     dfError := dfError self; _detectionDirty := _detectionDirty self |}.

Definition set_detectionDict (self : bAnalysis) (dDict : detection) : bAnalysis :=
  {| _dataPointsPerMs := _dataPointsPerMs self; _sweepList := _sweepList self;
     _sweepX := _sweepX self; _sweepY := _sweepY self; _sweepC := _sweepC self;
     _recordingMode := _recordingMode self; _path := _path self;
     detectionDict := Some dDict; dateAnalyzed := dateAnalyzed self;
     detectionType := detectionType self;
     _filteredVm := _filteredVm self; _filteredDeriv := _filteredDeriv self;
     spikeDict := spikeDict self; spikeClips := spikeClips self;
     spikeClips_x := spikeClips_x self; spikeClips_x2 := spikeClips_x2 self;
     dfError := dfError self; _detectionDirty := _detectionDirty self |}.

(** The header of [_spikeDetect_dvdt] and [_spikeDetect_vm]:
    [self.dateAnalyzed = now.strftime(...)], [self.detectionType = ...]. *)
Definition set_header (self : bAnalysis) (dateStr : Z) (type : string) : bAnalysis :=
  {| _dataPointsPerMs := _dataPointsPerMs self; _sweepList := _sweepList self;
     _sweepX := _sweepX self; _sweepY := _sweepY self; _sweepC := _sweepC self;
     _recordingMode := _recordingMode self; _path := _path self;
     detectionDict := detectionDict self; dateAnalyzed := Some dateStr;
     detectionType := Some type;
     _filteredVm := _filteredVm self; _filteredDeriv := _filteredDeriv self;
     spikeDict := spikeDict self; spikeClips := spikeClips self;
     spikeClips_x := spikeClips_x self; spikeClips_x2 := spikeClips_x2 self;
     dfError := dfError self; _detectionDirty := _detectionDirty self |}.

Definition set_spikeDict (self : bAnalysis) (sd : list dict) : bAnalysis :=
  {| _dataPointsPerMs := _dataPointsPerMs self; _sweepList := _sweepList self;
     _sweepX := _sweepX self; _sweepY := _sweepY self; _sweepC := _sweepC self;
     _recordingMode := _recordingMode self; _path := _path self;
     detectionDict := detectionDict self; dateAnalyzed := dateAnalyzed self;
     detectionType := detectionType self;
     _filteredVm := _filteredVm self; _filteredDeriv := _filteredDeriv self;
     spikeDict := sd; spikeClips := spikeClips self;
     spikeClips_x := spikeClips_x self; spikeClips_x2 := spikeClips_x2 self;
     dfError := dfError self; _detectionDirty := _detectionDirty self |}.

(** The end of [spikeDetect__]: clips reset, error table rebuilt, dirty flag. *)
Definition set_finished (self : bAnalysis) (errors : list errorDict) : bAnalysis :=
  {| _dataPointsPerMs := _dataPointsPerMs self; _sweepList := _sweepList self;
     _sweepX := _sweepX self; _sweepY := _sweepY self; _sweepC := _sweepC self;
     _recordingMode := _recordingMode self; _path := _path self;
     detectionDict := detectionDict self; dateAnalyzed := dateAnalyzed self;
     detectionType := detectionType self;
     _filteredVm := _filteredVm self; _filteredDeriv := _filteredDeriv self;
     spikeDict := spikeDict self; spikeClips := None;
     spikeClips_x := None; spikeClips_x2 := None;
     dfError := Some errors; _detectionDirty := true |}.

Definition set_clips (self : bAnalysis) (x : list Q) (x2 clips : list (list Q)) : bAnalysis :=
  {| _dataPointsPerMs := _dataPointsPerMs self; _sweepList := _sweepList self;
     _sweepX := _sweepX self; _sweepY := _sweepY self; _sweepC := _sweepC self;
     _recordingMode := _recordingMode self; _path := _path self;
     detectionDict := detectionDict self; dateAnalyzed := dateAnalyzed self;
     detectionType := detectionType self;
     _filteredVm := _filteredVm self; _filteredDeriv := _filteredDeriv self;
     spikeDict := spikeDict self; spikeClips := Some clips;
     spikeClips_x := Some x; spikeClips_x2 := Some x2;
     dfError := dfError self; _detectionDirty := _detectionDirty self |}.

Definition dataPointsPerMs (self : bAnalysis) : Z := _dataPointsPerMs self.
Definition sweepList (self : bAnalysis) : list Z := _sweepList self.
Definition numSweeps (self : bAnalysis) : Z := len (_sweepList self).
Definition numSpikes (self : bAnalysis) : Z := len (spikeDict self).

(** [arr[:, sweepNumber]] *)
Definition sweepX (self : bAnalysis) (sweepNumber : Z) : result (list Q) :=
  py_index (_sweepX self) sweepNumber.
Definition sweepY (self : bAnalysis) (sweepNumber : Z) : result (list Q) :=
  py_index (_sweepY self) sweepNumber.
Definition sweepC (self : bAnalysis) (sweepNumber : Z) : result (list Q) :=
  py_index (_sweepC self) sweepNumber.
Definition filteredVm (self : bAnalysis) (sweepNumber : Z) : result (list Q) :=
  py_index (_filteredVm self) sweepNumber.
Definition filteredDeriv (self : bAnalysis) (sweepNumber : Z) : result (list Q) :=
  py_index (_filteredDeriv self) sweepNumber.

(** [os.path.split(path)[1]] *)
Fixpoint has_slash (s : string) : bool :=
  match s with
  | EmptyString => false
  | String c r => Ascii.eqb c "/"%char || has_slash r
  end.

Fixpoint basename (s : string) : string :=
  match s with
  | EmptyString => EmptyString
  | String c r => if has_slash s then basename r else s
  end.

Definition getFileName (self : bAnalysis) : value :=
  match _path self with
  | None => VNone
  | Some p => VStr (basename p)
  end.

(** [str(n)] for an integer. *)
Definition py_str (z : Z) : string := NilZero.string_of_int (Z.to_int z).

(** [errorReport]: one row per error annotation, in spike order. *)
Definition spike_errors (d : dict) : result (list errorDict) :=
  v <- dict_item d "errors" ;;
  match v with
  | VErrors l => Ok l
  | _ => Raise TypeError
  end.

Fixpoint errorReport_rows (sd : list dict) : result (list errorDict) :=
  match sd with
  | [] => Ok []
  | spike :: r =>
      es <- spike_errors spike ;;
      rest <- errorReport_rows r ;;
      Ok (es ++ rest)
  end.

(** ** Building one spike record *)

Definition VNaN : value := VFloat FNaN.
Definition VF (q : Q) : value := VFloat (F q).

Definition opt_float (o : option Q) : pyfloat :=
  match o with
  | Some q => F q
  | None => FNaN
  end.

Definition value_of_optnum (n : optnum) : value :=
  match n with
  | NumNone => VNone
  | NumNaN => VNaN
  | Num q => VF q
  end.

(** [1 / x] on a numpy float: infinite at zero. *)
Definition np_recip (x : Q) : pyfloat :=
  if Qeq_bool x 0 then FInf else F (1 / x)%Q.

Fixpoint list_set {A : Type} (l : list A) (n : nat) (x : A) : list A :=
  match l, n with
  | [], _ => []
  | _ :: r, O => x :: r
  | a :: r, S n' => a :: list_set r n' x
  end.

(** [d['errors'].append(eDict)] *)
Definition dict_append_error (d : dict) (eDict : errorDict) : result dict :=
  es <- spike_errors d ;;
  Ok (dict_set d "errors" (VErrors (es ++ [eDict])%list)).

Definition spike_widths (d : dict) : result (list widthDict) :=
  v <- dict_item d "widths" ;;
  match v with
  | VWidths l => Ok l
  | _ => Raise TypeError
  end.

(** [d['widths'].append(widthDict)] *)
Definition dict_append_width (d : dict) (w : widthDict) : result dict :=
  ws <- spike_widths d ;;
  Ok (dict_set d "widths" (VWidths (ws ++ [w])%list)).

(** [d['widths'][j] = widthDict] *)
Definition dict_set_width (d : dict) (j : Z) (w : widthDict) : result dict :=
  ws <- spike_widths d ;;
  if (0 <=? j) && (j <? len ws)
  then Ok (dict_set d "widths" (VWidths (list_set ws (Z.to_nat j) w)))
  else Raise IndexError.

(** [self.spikeDict[i]['errors'].append(eDict)], where [self.spikeDict]
    is [prev] followed by the record under construction [cur]. *)
Definition append_error_at (prev : list dict) (cur : dict) (i : Z) (eDict : errorDict)
  : result (list dict * dict) :=
  let sd := (prev ++ [cur])%list in
  d <- py_index sd i ;;
  d <- dict_append_error d eDict ;;
  let j := if i <? 0 then i + len sd else i in
  let sd := list_set sd (Z.to_nat j) d in
  Ok (removelast sd, last sd cur).

Definition default_widthDict (halfHeight : Z) : widthDict :=
  {| w_halfHeight := halfHeight; w_risingPnt := None; w_risingVal := FNaN;
     w_fallingPnt := None; w_fallingVal := FNaN;
     w_widthPnts := None; w_widthMs := FNaN |}.

Definition width_key (halfHeight : Z) : string := ("widths_" ++ py_str halfHeight)%string.

Definition item (k : string) (v : value) : string * value := (k, v).

(** Lines 1216-1258: the record as it is when appended to
    [self.spikeDict]. *)
Definition spike_header (analysisVersion interfaceVersion : string) (file : value)
  (dataPointsPerMs : Z) (dDict : detection) (detectionType : string)
  (sweepNumber i numSpikes : Z) (tmpError : option errorDict)
  (dacCommand thresholdVal thresholdVal_dvdt : Q) (spikeTime peakPnt : Z) (peakVal : Q)
  : dict :=
  [ item "include" (VInt 1);
    item "analysisVersion" (VStr analysisVersion);
    item "interfaceVersion" (VStr interfaceVersion);
    item "file" (file);
    item "detectionType" (VStr detectionType);
    item "cellType" (VStr (cellType dDict));
    item "sex" (VStr (sex dDict));
    item "condition" (VStr (condition dDict));
    item "sweep" (VInt sweepNumber);
    item "sweepSpikeNumber" (VInt i);
    item "spikeNumber" (VInt numSpikes);
    item "errors" (VErrors match tmpError with Some e => [e] | None => [] end);
    item "dvdtThreshold" (value_of_optnum (dvdtThreshold dDict));
    item "mvThreshold" (VF (mvThreshold dDict));
    item "medianFilter" (VInt (medianFilter dDict));
    item "halfHeights" (VInts (halfHeights dDict));
    item "dacCommand" (VF dacCommand);
    item "thresholdPnt" (VInt spikeTime);
    item "thresholdVal" (VF thresholdVal);
    item "thresholdVal_dvdt" (VF thresholdVal_dvdt);
    item "thresholdSec" (VF (inject_Z spikeTime / inject_Z dataPointsPerMs / 1000)%Q);
    item "peakPnt" (VInt peakPnt);
    item "peakVal" (VF peakVal);
    item "peakSec" (VF (inject_Z peakPnt / inject_Z dataPointsPerMs / 1000)%Q);
    item "peakHeight" (VF (peakVal - thresholdVal)%Q) ].

(** Lines 1305-1318 for one half height. *)
Definition default_width (d : dict) (halfHeight : Z) : result dict :=
  let d := dict_set d (width_key halfHeight) VNaN in
  dict_append_width d (default_widthDict halfHeight).

Fixpoint default_widths (d : dict) (hs : list Z) : result dict :=
  match hs with
  | [] => Ok d
  | halfHeight :: r => d <- default_width d halfHeight ;; default_widths d r
  end.

(** Lines 1268-1318: the default of every computed field. *)
Definition spike_defaults (d : dict) (hs : list Z) : result dict :=
  let d := dict_set d "preMinPnt" VNone in
  let d := dict_set d "preMinVal" VNaN in
  let d := dict_set d "preLinearFitPnt0" VNone in
  let d := dict_set d "preLinearFitPnt1" VNone in
  let d := dict_set d "earlyDiastolicDuration_ms" VNaN in
  let d := dict_set d "preLinearFitVal0" VNaN in
  let d := dict_set d "preLinearFitVal1" VNaN in
  let d := dict_set d "earlyDiastolicDurationRate" VNaN in
  let d := dict_set d "lateDiastolicDuration" VNaN in
  let d := dict_set d "preSpike_dvdt_max_pnt" VNone in
  let d := dict_set d "preSpike_dvdt_max_val" VNaN in
  let d := dict_set d "preSpike_dvdt_max_val2" VNaN in
  let d := dict_set d "postSpike_dvdt_min_pnt" VNone in
  let d := dict_set d "postSpike_dvdt_min_val" VNaN in
  let d := dict_set d "postSpike_dvdt_min_val2" VNaN in
  let d := dict_set d "isi_pnts" VNaN in
  let d := dict_set d "isi_ms" VNaN in
  let d := dict_set d "spikeFreq_hz" VNaN in
  let d := dict_set d "cycleLength_pnts" VNaN in
  let d := dict_set d "cycleLength_ms" VNaN in
  let d := dict_set d "diastolicDuration_ms" VNaN in
  let d := dict_set d "widths" (VWidths []) in
  default_widths d hs.

(** The outcome of [np.polyfit(x, y, 1)] under
    [warnings.filterwarnings('error')]: the slope and intercept, or one of
    the exceptions the code tells apart. *)
Inductive fit_outcome : Type :=
| FitOk (mLinear bLinear : Q)
| FitTypeError
| FitRankWarning
| FitOtherError.

Definition startLinearFit : Q := 1 # 10.
Definition stopLinearFit : Q := 1 # 2.

(** Lines 1330-1411, the block of [i > 0]: diastolic minimum and early
    diastolic fit.  Returns the record and the local [preMinPnt]. *)
Definition pre_spike_block (polyfit : list Q -> list Q -> fit_outcome)
  (dataPointsPerMs : Z) (dDict : detection) (avgWindow_pnts : Z)
  (sweepX filteredVm : list Q) (i spikeTime : Z) (cur : dict) : result (dict * Z) :=
  let mdp_pnts := py_int (mdp_ms dDict * inject_Z dataPointsPerMs)%Q in
  let startPnt := spikeTime - mdp_pnts in
  let startPnt := if startPnt <? 0 then 0 else startPnt in
  let preRange := py_slice filteredVm startPnt spikeTime in
  preMinPnt <- np_argmin preRange ;;
  let preMinPnt := preMinPnt + startPnt in
  let avgRange := py_slice filteredVm (preMinPnt - avgWindow_pnts) (preMinPnt + avgWindow_pnts) in
  let preMinVal := np_mean avgRange in
  let preRange := np_flip (py_slice filteredVm preMinPnt spikeTime) in
  let found :=
    match preMinVal with
    | Some v =>
        match np_where (fun y => Qltb y v) preRange with
        | preMinPnt2 :: _ => Some (spikeTime - preMinPnt2, v)
        | [] => None
        end
    | None => None
    end in
  ' (cur, preMinPnt) <-
    match found with
    | Some (preMinPnt, v) =>
        let cur := dict_set cur "preMinPnt" (VInt preMinPnt) in
        let cur := dict_set cur "preMinVal" (VF v) in
        Ok (cur, preMinPnt)
    | None =>
        let eDict := _getErrorDict dataPointsPerMs i spikeTime "preMin"
                       (DetailPreMin (opt_float preMinVal)) in
        cur <- dict_append_error cur eDict ;;
        Ok (cur, preMinPnt)
    end ;;
  let timeInterval_pnts := spikeTime - preMinPnt in
  let preLinearFitPnt0 := preMinPnt + Qfloor (inject_Z timeInterval_pnts * startLinearFit)%Q in
  let preLinearFitPnt1 := preMinPnt + Qfloor (inject_Z timeInterval_pnts * stopLinearFit)%Q in
  preLinearFitVal0 <- py_index filteredVm preLinearFitPnt0 ;;
  preLinearFitVal1 <- py_index filteredVm preLinearFitPnt1 ;;
  let cur := dict_set cur "preLinearFitPnt0" (VInt preLinearFitPnt0) in
  let cur := dict_set cur "preLinearFitPnt1" (VInt preLinearFitPnt1) in
  let cur := dict_set cur "earlyDiastolicDuration_ms"
               (VF (pnt2Ms_ dataPointsPerMs (preLinearFitPnt1 - preLinearFitPnt0))) in
  let cur := dict_set cur "preLinearFitVal0" (VF preLinearFitVal0) in
  let cur := dict_set cur "preLinearFitVal1" (VF preLinearFitVal1) in
  let xFit := py_slice sweepX preLinearFitPnt0 preLinearFitPnt1 in
  let yFit := py_slice filteredVm preLinearFitPnt0 preLinearFitPnt1 in
  cur <-
    match polyfit xFit yFit with
    | FitOk mLinear bLinear => Ok (dict_set cur "earlyDiastolicDurationRate" (VF mLinear))
    | FitTypeError =>
        let cur := dict_set cur "earlyDiastolicDurationRate" VNaN in
        dict_append_error cur (_getErrorDict dataPointsPerMs i spikeTime "fitEDD" DetailFitEDD)
    | FitRankWarning =>
        let cur := dict_set cur "earlyDiastolicDurationRate" VNaN in
        dict_append_error cur (_getErrorDict dataPointsPerMs i spikeTime "fitEDD2" DetailFitEDD2)
    | FitOtherError => Ok cur
    end ;;
  Ok (cur, preMinPnt).

(** Lines 1419-1435: the derivative maximum between onset and peak. *)
Definition preSpike_dvdt_block (dataPointsPerMs : Z) (filteredVm filteredDeriv : list Q)
  (i spikeTime peakPnt : Z) (cur : dict) : result dict :=
  let preRange := py_slice filteredDeriv spikeTime (peakPnt + 1) in
  match np_argmax preRange with
  | Ok preSpike_dvdt_max_pnt =>
      let preSpike_dvdt_max_pnt := preSpike_dvdt_max_pnt + spikeTime in
      let cur := dict_set cur "preSpike_dvdt_max_pnt" (VInt preSpike_dvdt_max_pnt) in
      v <- py_index filteredVm preSpike_dvdt_max_pnt ;;
      let cur := dict_set cur "preSpike_dvdt_max_val" (VF v) in
      v2 <- py_index filteredDeriv preSpike_dvdt_max_pnt ;;
      Ok (dict_set cur "preSpike_dvdt_max_val2" (VF v2))
  | Raise _ =>
      dict_append_error cur
        (_getErrorDict dataPointsPerMs i spikeTime "preSpikeDvDt" DetailPreSpikeDvDt)
  end.

Definition postSpike_ms : Q := 10%Q.

(** Lines 1472-1483: the derivative minimum in the 10 ms after the peak. *)
Definition postSpike_dvdt_block (dataPointsPerMs : Z) (filteredVm filteredDeriv : list Q)
  (peakPnt : Z) (cur : dict) : result dict :=
  let postSpike_pnts := py_round (inject_Z dataPointsPerMs * postSpike_ms)%Q in
  let postRange := py_slice filteredDeriv peakPnt (peakPnt + postSpike_pnts) in
  postSpike_dvdt_min_pnt <- np_argmin postRange ;;
  let postSpike_dvdt_min_pnt := postSpike_dvdt_min_pnt + peakPnt in
  let cur := dict_set cur "postSpike_dvdt_min_pnt" (VInt postSpike_dvdt_min_pnt) in
  v <- py_index filteredVm postSpike_dvdt_min_pnt ;;
  let cur := dict_set cur "postSpike_dvdt_min_val" (VF v) in
  v2 <- py_index filteredDeriv postSpike_dvdt_min_pnt ;;
  Ok (dict_set cur "postSpike_dvdt_min_val2" (VF v2)).

Definition as_int (v : value) : result Z :=
  match v with
  | VInt z => Ok z
  | _ => Raise TypeError
  end.

Definition as_optint (v : value) : option Z :=
  match v with
  | VInt z => Some z
  | _ => None
  end.

(** Lines 1513-1538: diastolic duration, inter-spike interval,
    instantaneous frequency and cycle length.  [preMinPnt] is the local
    variable of the [i > 0] block, unbound for the first spike. *)
Definition isi_block (dataPointsPerMs : Z) (prev : list dict) (i spikeTime : Z)
  (preMinPnt : option Z) (cur : dict) : result dict :=
  cur <-
    (if i >? 0
     then match preMinPnt with
          | Some p => Ok (dict_set cur "diastolicDuration_ms"
                            (VF (pnt2Ms_ dataPointsPerMs (spikeTime - p))))
          | None => Raise UnboundLocalError
          end
     else Ok cur) ;;
  let cur := dict_set cur "cycleLength_ms" VNaN in
  if i >? 0 then
    let iIdx := len prev in
    this <- dict_item cur "thresholdPnt" ;;
    this <- as_int this ;;
    prevSpike <- py_index (prev ++ [cur])%list (iIdx - 1) ;;
    before <- dict_item prevSpike "thresholdPnt" ;;
    before <- as_int before ;;
    let isiPnts := this - before in
    let isi_ms := pnt2Ms_ dataPointsPerMs isiPnts in
    let cur := dict_set cur "isi_pnts" (VInt isiPnts) in
    let cur := dict_set cur "isi_ms" (VF isi_ms) in
    let cur := dict_set cur "spikeFreq_hz" (VFloat (np_recip (isi_ms / 1000)%Q)) in
    prevPreMinPnt <- dict_item prevSpike "preMinPnt" ;;
    thisPreMinPnt <- dict_item cur "preMinPnt" ;;
    match as_optint prevPreMinPnt, as_optint thisPreMinPnt with
    | Some a, Some b =>
        let cycleLength_pnts := b - a in
        let cur := dict_set cur "cycleLength_pnts" (VInt cycleLength_pnts) in
        Ok (dict_set cur "cycleLength_ms" (VF (pnt2Ms_ dataPointsPerMs cycleLength_pnts)))
    | a, b =>
        dict_append_error cur
          (_getErrorDict dataPointsPerMs i spikeTime "cycleLength" (DetailCycleLength a b))
    end
  else Ok cur.

(** The [try] of lines 1598-1651 for one half height: the error type
    left in [tmpErrorType], and the width record with the local [widthMs]
    when no [IndexError] was raised. *)
Definition half_width_try (dataPointsPerMs : Z) (filteredVm : list Q)
  (hwWindowPnts peakPnt thresholdPnt : Z) (thisVm : Q) (halfHeight : Z)
  (tmpErrorType : option string) : option string * option (widthDict * Q) :=
  let postRange := py_slice filteredVm peakPnt (peakPnt + hwWindowPnts) in
  match np_where (fun v => Qltb v thisVm) postRange with
  | [] => (Some "falling point"%string, None)
  | fallingPnt :: _ =>
      let fallingPnt := fallingPnt + peakPnt in
      match py_index filteredVm fallingPnt with
      | Raise _ => (tmpErrorType, None)
      | Ok fallingVal =>
          let preRange := py_slice filteredVm thresholdPnt peakPnt in
          match np_where (fun v => Qgtb v fallingVal) preRange with
          | [] => (Some "rising point"%string, None)
          | risingPnt :: _ =>
              let risingPnt := risingPnt + thresholdPnt in
              match py_index filteredVm risingPnt with
              | Raise _ => (tmpErrorType, None)
              | Ok risingVal =>
                  let widthPnts := fallingPnt - risingPnt in
                  let widthPnts2 := fallingPnt - thresholdPnt in
                  let tmpRisingPnt := thresholdPnt in
                  let widthMs := (inject_Z widthPnts / inject_Z dataPointsPerMs)%Q in
                  (tmpErrorType,
                   Some ({| w_halfHeight := halfHeight;
                            w_risingPnt := Some tmpRisingPnt;
                            w_risingVal := F risingVal;
                            w_fallingPnt := Some fallingPnt;
                            w_fallingVal := F fallingVal;
                            w_widthPnts := Some widthPnts2;
                            w_widthMs := F (inject_Z widthPnts / inject_Z dataPointsPerMs)%Q |},
                         widthMs))
              end
          end
      end
  end.

(** Lines 1577-1676: the loop over the configured half heights. *)
Fixpoint half_widths (dataPointsPerMs : Z) (dDict : detection) (filteredVm : list Q)
  (hwWindowPnts i spikeTime peakPnt : Z) (thresholdVal peakVal tmpPeakSec : Q)
  (tmpErrorType : option string) (j : Z) (hs : list Z) (prev : list dict) (cur : dict)
  : result (list dict * dict) :=
  match hs with
  | [] => Ok (prev, cur)
  | halfHeight :: r =>
      let tmpThreshVm2 := thresholdVal in
      let thisVm := (tmpThreshVm2 + (peakVal - tmpThreshVm2) * (inject_Z halfHeight * (1 # 100)))%Q in
      let '(tmpErrorType, outcome) :=
        half_width_try dataPointsPerMs filteredVm hwWindowPnts peakPnt spikeTime thisVm
          halfHeight tmpErrorType in
      ' (prev, cur, widthDict, widthMs) <-
        match outcome with
        | Some (widthDict, widthMs) => Ok (prev, cur, widthDict, F widthMs)
        | None =>
            let eDict := _getErrorDict dataPointsPerMs i spikeTime "spikeWidth"
                           (DetailSpikeWidth halfHeight tmpErrorType
                              (halfWidthWindow_ms dDict) (py_round_n thisVm 2)
                              (py_round_n tmpPeakSec 2)) in
            ' (prev, cur) <- append_error_at prev cur i eDict ;;
            Ok (prev, cur, default_widthDict halfHeight, FNaN)
        end ;;
      let cur := dict_set cur (width_key halfHeight) (VFloat widthMs) in
      cur <- dict_set_width cur j widthDict ;;
      half_widths dataPointsPerMs dDict filteredVm hwWindowPnts i spikeTime peakPnt
        thresholdVal peakVal tmpPeakSec tmpErrorType (j + 1) r prev cur
  end.

(** Lines 1190-1202: the second peak gate, [onlyPeaksAbove_mV]. *)
Fixpoint peaks_above (filteredVm : list Q) (peakWindow_pnts : Z) (floor : Q)
  (spikeErrorList : list (option errorDict)) (i : Z) (spikeTimes : list Z)
  : result (list Z * list (option errorDict)) :=
  match spikeTimes with
  | [] => Ok ([], [])
  | spikeTime :: r =>
      peakPnt <- np_argmax (py_slice filteredVm spikeTime (spikeTime + peakWindow_pnts)) ;;
      peakVal <- np_max (py_slice filteredVm spikeTime (spikeTime + peakWindow_pnts)) ;;
      if Qgtb peakVal floor then
        e <- py_index spikeErrorList i ;;
        ' (ts, es) <- peaks_above filteredVm peakWindow_pnts floor spikeErrorList (i + 1) r ;;
        Ok (spikeTime :: ts, e :: es)
      else peaks_above filteredVm peakWindow_pnts floor spikeErrorList (i + 1) r
  end.

(** ** Filtering, per-sweep detection and the detection run

    scipy's filters and numpy's [polyfit] are libraries outside the
    repository: they are parameters of the development, as are the two
    version strings of the [sanpy] package. *)

Fixpoint mapM {A B : Type} (f : A -> result B) (l : list A) : result (list B) :=
  match l with
  | [] => Ok []
  | a :: r => b <- f a ;; bs <- mapM f r ;; Ok (b :: bs)
  end.

(** [np.diff] along the time axis. *)
Definition np_diff (l : list Q) : list Q :=
  zip_with (fun a b => (b - a)%Q) l (tl l).

Section Detection.

Variable medfilt : list Q -> Z -> result (list Q).
Variable savgol_filter : list Q -> Z -> Z -> result (list Q).
Variable polyfit : list Q -> list Q -> fit_outcome.
Variables analysisVersion interfaceVersion : string.

(** [_getDerivative(dDict=None)] *)
Definition _getDerivative (self : bAnalysis) (dDict : option detection) : result bAnalysis :=
  let dDict := match dDict with
               | None => getDefaultDetection None
               | Some d => d
               end in
  let medianFilter := medianFilter dDict in
  let SavitzkyGolay_pnts := SavitzkyGolay_pnts dDict in
  let SavitzkyGolay_poly := SavitzkyGolay_poly dDict in
  let medianFilter := if (medianFilter >? 0) && (medianFilter mod 2 =? 0)
                      then medianFilter + 1 else medianFilter in
  vm <-
    (if medianFilter >? 0 then mapM (fun col => medfilt col medianFilter) (_sweepY self)
     else if SavitzkyGolay_pnts >? 0
          then mapM (fun col => savgol_filter col SavitzkyGolay_pnts SavitzkyGolay_poly)
                 (_sweepY self)
          else Ok (_sweepY self)) ;;
  let deriv := map np_diff vm in
  let medianFilter := if (medianFilter >? 0) && (medianFilter mod 2 =? 0)
                      then medianFilter + 1 else medianFilter in
  deriv <-
    (if medianFilter >? 0 then mapM (fun col => medfilt col medianFilter) deriv
     else if SavitzkyGolay_pnts >? 0
          then mapM (fun col => savgol_filter col SavitzkyGolay_pnts SavitzkyGolay_poly) deriv
          else Ok deriv) ;;
  let deriv := map (map (fun v => v * inject_Z (dataPointsPerMs self))%Q) deriv in
  if len deriv =? numSweeps self
  then Ok (set_filtered self vm (map (cons 0%Q) deriv))
  else Raise ValueError.

(** [_getBaselineSubtract]: [_getFilteredRecording] hands the bound method
    [self.sweepY] to scipy, and line 666 calls [.copy()] on the bound
    method [self.filteredVm]; the call cannot return. *)
Definition _getBaselineSubtract (self : bAnalysis) (dDict : option detection)
  : result bAnalysis :=
  Raise AttributeError.

Definition rebuildFiltered (self : bAnalysis) : result bAnalysis :=
  match _recordingMode self with
  | IClamp => _getDerivative self None
  | VClamp => _getBaselineSubtract self None
  | ModeUnknown => Ok self
  end.

(** [_backupSpikeVm]: the [medianFilter] argument is overwritten by 5. *)
Definition _backupSpikeVm (dataPointsPerMs : Z) (spikeTimes : list Z) (sweepY : list Q)
  (medianFilter : Z) : result (list Z) :=
  let medianFilter := 5 in
  myVm <- (if medianFilter >? 0 then medfilt sweepY medianFilter else Ok sweepY) ;;
  let bin_ms := 1 in
  let bin_pnts := bin_ms * dataPointsPerMs in
  let half_bin_pnts := bin_pnts / 2 in
  Ok (map (fun spikeTimePnts =>
             backup_walk (Z.to_nat maxNumPntsToBackup) myVm bin_pnts half_bin_pnts
               spikeTimePnts None spikeTimePnts) spikeTimes).

(** Lines 1209-1676: one iteration of the loop over the spikes of a sweep.
    [prev] is [self.spikeDict] before the iteration; the result is
    [self.spikeDict] after it. *)
Definition analyze_spike (file : value) (dataPointsPerMs : Z) (dDict : detection)
  (detectionType : string) (sweepNumber : Z)
  (sweepX filteredVm filteredDeriv sweepC : list Q)
  (spikeErrorList : list (option errorDict)) (peakWindow_pnts avgWindow_pnts : Z)
  (prev : list dict) (i spikeTime : Z) : result (list dict) :=
  peakPnt <- np_argmax (py_slice filteredVm spikeTime (spikeTime + peakWindow_pnts)) ;;
  let peakPnt := peakPnt + spikeTime in
  peakVal <- np_max (py_slice filteredVm spikeTime (spikeTime + peakWindow_pnts)) ;;
  tmpError <- py_index spikeErrorList i ;;
  dacCommand <- py_index sweepC spikeTime ;;
  thresholdVal <- py_index filteredVm spikeTime ;;
  thresholdVal_dvdt <- py_index filteredDeriv spikeTime ;;
  let cur := spike_header analysisVersion interfaceVersion file dataPointsPerMs dDict
               detectionType sweepNumber i (len prev) tmpError
               dacCommand thresholdVal thresholdVal_dvdt spikeTime peakPnt peakVal in
  cur <- spike_defaults cur (halfHeights dDict) ;;
  ' (cur, preMinPnt) <-
    (if i =? 0 then Ok (cur, None)
     else ' (cur, p) <- pre_spike_block polyfit dataPointsPerMs dDict avgWindow_pnts
                          sweepX filteredVm i spikeTime cur ;;
          Ok (cur, Some p)) ;;
  cur <- preSpike_dvdt_block dataPointsPerMs filteredVm filteredDeriv i spikeTime peakPnt cur ;;
  cur <- postSpike_dvdt_block dataPointsPerMs filteredVm filteredDeriv peakPnt cur ;;
  cur <- isi_block dataPointsPerMs prev i spikeTime preMinPnt cur ;;
  let hwWindowPnts := py_round (halfWidthWindow_ms dDict * inject_Z dataPointsPerMs)%Q in
  let tmpPeakSec := (inject_Z peakPnt / inject_Z dataPointsPerMs / 1000)%Q in
  ' (prev, cur) <-
    half_widths dataPointsPerMs dDict filteredVm hwWindowPnts i spikeTime peakPnt
      thresholdVal peakVal tmpPeakSec None 0 (halfHeights dDict) prev cur ;;
  Ok (prev ++ [cur])%list.

Fixpoint analyze_spikes (file : value) (dataPointsPerMs : Z) (dDict : detection)
  (detectionType : string) (sweepNumber : Z)
  (sweepX filteredVm filteredDeriv sweepC : list Q)
  (spikeErrorList : list (option errorDict)) (peakWindow_pnts avgWindow_pnts : Z)
  (sd : list dict) (i : Z) (spikeTimes : list Z) : result (list dict) :=
  match spikeTimes with
  | [] => Ok sd
  | spikeTime :: r =>
      sd <- analyze_spike file dataPointsPerMs dDict detectionType sweepNumber
              sweepX filteredVm filteredDeriv sweepC spikeErrorList
              peakWindow_pnts avgWindow_pnts sd i spikeTime ;;
      analyze_spikes file dataPointsPerMs dDict detectionType sweepNumber
        sweepX filteredVm filteredDeriv sweepC spikeErrorList
        peakWindow_pnts avgWindow_pnts sd (i + 1) r
  end.

(** The wall clock: [clock n] is its [n]-th reading ([time.time()],
    [datetime.datetime.now()]), [tick] counts the readings made so far.
    [dateStr] has a resolution of one second. *)
Definition dateStr (now : Q) : Z := Qfloor now.

(** [spikeDetect__(sweepNumber, dDict)] *)
Definition spikeDetect__ (clock : nat -> Q) (tick : nat) (self : bAnalysis)
  (sweepNumber : Z) (dDict : option detection) : result (nat * bAnalysis) :=
  let startTime := clock tick in
  let tick := S tick in
  let dDict := match dDict with
               | Some d => d
               | None => match detectionDict self with
                         | Some d => d
                         | None => getDefaultDetection None
                         end
               end in
  let self := set_detectionDict self dDict in
  self <- rebuildFiltered self ;;
  let now := clock tick in
  let tick := S tick in
  ' (self, detectionType, spikeTimes, spikeErrorList) <-
    match dvdtThreshold dDict with
    | NumNone | NumNaN =>
        let self := set_header self (dateStr now) "mvThreshold" in
        vm <- filteredVm self sweepNumber ;;
        y <- sweepY self sweepNumber ;;
        ' (spikeTimes, spikeErrorList) <- _spikeDetect_vm (dataPointsPerMs self) dDict vm y ;;
        spikeTimes <-
          (if doBackupSpikeVm dDict
           then y <- sweepY self sweepNumber ;;
                _backupSpikeVm (dataPointsPerMs self) spikeTimes y (medianFilter dDict)
           else Ok spikeTimes) ;;
        Ok (self, "mv"%string, spikeTimes, spikeErrorList)
    | Num _ =>
        let self := set_header self (dateStr now) "dVdtThreshold" in
        deriv <- filteredDeriv self sweepNumber ;;
        y <- sweepY self sweepNumber ;;
        ' (spikeTimes, spikeErrorList) <- _spikeDetect_dvdt (dataPointsPerMs self) dDict deriv y ;;
        Ok (self, "dvdt"%string, spikeTimes, spikeErrorList)
    end ;;
  sweepX <- sweepX self sweepNumber ;;
  filteredVm <- filteredVm self sweepNumber ;;
  filteredDeriv <- filteredDeriv self sweepNumber ;;
  sweepC <- sweepC self sweepNumber ;;
  let peakWindow_pnts := py_round (inject_Z (dataPointsPerMs self) * peakWindow_ms dDict)%Q in
  ' (spikeTimes, spikeErrorList) <-
    match onlyPeaksAbove_mV dDict with
    | Some floor => peaks_above filteredVm peakWindow_pnts floor spikeErrorList 0 spikeTimes
    | None => Ok (spikeTimes, spikeErrorList)
    end ;;
  let avgWindow_pnts := Qfloor (avgWindow_ms dDict * inject_Z (dataPointsPerMs self) / 2)%Q in
  sd <- analyze_spikes (getFileName self) (dataPointsPerMs self) dDict detectionType
          sweepNumber sweepX filteredVm filteredDeriv sweepC spikeErrorList
          peakWindow_pnts avgWindow_pnts (spikeDict self) 0 spikeTimes ;;
  let self := set_spikeDict self sd in
  errors <- errorReport_rows (spikeDict self) ;;
  let self := set_finished self errors in
  let stopTime := clock tick in
  let tick := S tick in
  Ok (tick, self).

Fixpoint spikeDetect_sweeps (clock : nat -> Q) (tick : nat) (self : bAnalysis)
  (sweeps : list Z) (dDict : option detection) : result (nat * bAnalysis) :=
  match sweeps with
  | [] => Ok (tick, self)
  | sweepNumber :: r =>
      ' (tick, self) <- spikeDetect__ clock tick self sweepNumber dDict ;;
      spikeDetect_sweeps clock tick self r dDict
  end.

(** [spikeDetect(dDict)] *)
Definition spikeDetect (clock : nat -> Q) (tick : nat) (self : bAnalysis)
  (dDict : option detection) : result (nat * bAnalysis) :=
  let startTime := clock tick in
  let tick := S tick in
  let self := set_spikeDict self [] in
  ' (tick, self) <- spikeDetect_sweeps clock tick self (sweepList self) dDict ;;
  let stopTime := clock tick in
  let tick := S tick in
  Ok (tick, self).

End Detection.

(** ** Read access to the spike records ([getStat]) *)

(** The [sweepNumber] argument of the accessors: [None], ['All'] or a
    sweep index. *)
Inductive sweepArg : Type :=
| SweepNone
| SweepAll
| SweepNum (n : Z).

Inductive statResult : Type :=
| StatOne (x : list value)
| StatPair (x y : list value).

(** [clean]: [None] becomes NaN. *)
Definition clean (val : value) : value :=
  match val with
  | VNone => VFloat FNaN
  | _ => val
  end.

(** [sweepNumber == 'All'] *)
Definition is_All (sweepNumber : sweepArg) : bool :=
  match sweepNumber with
  | SweepAll => true
  | _ => false
  end.

(** [spike['sweep'] == sweepNumber] *)
Definition sweep_eq (v : value) (sweepNumber : sweepArg) : bool :=
  match sweepNumber, v with
  | SweepNone, VNone => true
  | SweepNum n, VInt z => z =? n
  | SweepNum n, VFloat (F q) => Qeq_bool q (inject_Z n)
  | SweepAll, VStr s => String.eqb s "All"
  | _, _ => false
  end.

(** [sweepNumber=='All' or spike['sweep']==sweepNumber] *)
Definition in_sweep (sweepNumber : sweepArg) (spike : dict) : result bool :=
  if is_All sweepNumber then Ok true
  else v <- dict_item spike "sweep" ;; Ok (sweep_eq v sweepNumber).

(** [[clean(spike[statName]) for spike in self.spikeDict if ...]] *)
Fixpoint stat_values (statName : string) (sweepNumber : sweepArg) (sd : list dict)
  : result (list value) :=
  match sd with
  | [] => Ok []
  | spike :: r =>
      keep <- in_sweep sweepNumber spike ;;
      if keep then
        v <- dict_item spike statName ;;
        rest <- stat_values statName sweepNumber r ;;
        Ok (clean v :: rest)
      else stat_values statName sweepNumber r
  end.

Definition getStat (self : bAnalysis) (statName1 : string) (statName2 : option string)
  (sweepNumber : sweepArg) : result statResult :=
  let error :=
    match spikeDict self with
    | [] => true
    | spike0 :: _ =>
        if negb (dict_has spike0 statName1) then true
        else match statName2 with
             | Some s2 => negb (dict_has spike0 s2)
             | None => false
             end
    end in
  (* lines 572-573: [sweepNumber=='All'] is evaluated and dropped *)
  let sweepNumber :=
    match sweepNumber with
    | SweepNone => let _ := is_All sweepNumber in sweepNumber
    | _ => sweepNumber
    end in
  x <- (if error then Ok [] else stat_values statName1 sweepNumber (spikeDict self)) ;;
  match statName2 with
  | Some s2 =>
      y <- (if error then Ok [] else stat_values s2 sweepNumber (spikeDict self)) ;;
      Ok (StatPair x y)
  | None => Ok (StatOne x)
  end.

(** The single list [getStat] returns when no second name is given. *)
Definition getStat1 (self : bAnalysis) (statName : string) (sweepNumber : sweepArg)
  : result (list value) :=
  r <- getStat self statName None sweepNumber ;;
  match r with
  | StatOne x => Ok x
  | StatPair x _ => Ok x
  end.

Definition getSpikeTimes (self : bAnalysis) (sweepNumber : sweepArg) : result (list value) :=
  getStat1 self "thresholdPnt" sweepNumber.

(** [np.nanmean] of a list of statistics: the mean of the numbers that
    are not NaN, NaN when there is none. *)
Fixpoint finite_values (x : list value) : result (list Q * bool) :=
  match x with
  | [] => Ok ([], false)
  | v :: r =>
      ' (qs, inf) <- finite_values r ;;
      match v with
      | VInt z => Ok (inject_Z z :: qs, inf)
      | VFloat (F q) => Ok (q :: qs, inf)
      | VFloat FNaN => Ok (qs, inf)
      | VFloat FInf => Ok (qs, true)
      | _ => Raise TypeError
      end
  end.

Definition np_nanmean (x : list value) : result pyfloat :=
  ' (qs, inf) <- finite_values x ;;
  Ok (if inf : bool then FInf else opt_float (np_mean qs)).

(** [getStatMean]: [None] unless [getStat] gave more than one value. *)
Definition getStatMean (self : bAnalysis) (statName : string) (sweepNumber : sweepArg)
  : result (option pyfloat) :=
  x <- getStat1 self statName sweepNumber ;;
  if len x >? 1 then m <- np_nanmean x ;; Ok (Some m) else Ok None.

(** ** Spike clips ([_makeSpikeClips]) *)

(** [range(n)] as floats *)
Definition py_range (n : Z) : list Z :=
  map Z.of_nat (seq 0 (Z.to_nat n)).

(** [self.sweepY(sweepNumber)] as the clip builder indexes it: the whole
    array for [None] and ['All'], one column otherwise. *)
Inductive sweepData : Type :=
| Data1D (col : list Q)
| Data2D (cols : array2d).

Definition sweepY_of (self : bAnalysis) (sweepNumber : sweepArg) : result sweepData :=
  match sweepNumber with
  | SweepNum n => col <- sweepY self n ;; Ok (Data1D col)
  | _ => Ok (Data2D (_sweepY self))
  end.

(** [sweepY[a:b]] or [sweepY[a:b, sweep]] *)
Definition clip_slice (data : sweepData) (a b sweep : Z) : result (list Q) :=
  match data with
  | Data1D col => Ok (py_slice col a b)
  | Data2D cols => col <- py_index cols sweep ;; Ok (py_slice col a b)
  end.

(** The loop of lines 1808-1824. *)
Fixpoint clip_loop (data : sweepData) (sweepNum : list value) (halfClipWidth_pnts : Z)
  (numPointsInClip : Z) (idx : Z) (theseTime_pnts : list value) : result (list (list Q)) :=
  match theseTime_pnts with
  | [] => Ok []
  | spikeTime :: r =>
      sweep <- py_index sweepNum idx ;;
      spikeTime <- as_int spikeTime ;;
      sweep <- match data with
               | Data1D _ => Ok 0
               | Data2D _ => as_int sweep
               end ;;
      currentClip <- clip_slice data (spikeTime - halfClipWidth_pnts)
                       (spikeTime + halfClipWidth_pnts) sweep ;;
      rest <- clip_loop data sweepNum halfClipWidth_pnts numPointsInClip (idx + 1) r ;;
      Ok (if len currentClip =? numPointsInClip then currentClip :: rest else rest)
  end.

Definition _makeSpikeClips (self : bAnalysis) (clipWidth_ms : option Q)
  (theseTime_sec : option (list Q)) (sweepNumber : sweepArg)
  : result (bAnalysis * (list (list Q) * list (list Q))) :=
  clipWidth_ms <-
    match clipWidth_ms with
    | Some w => Ok w
    | None => match detectionDict self with
              | Some d => Ok (spikeClipWidth_ms d)
              | None => Raise TypeError
              end
    end ;;
  let sweepNumber := match sweepNumber with
                     | SweepNone => SweepAll
                     | _ => sweepNumber
                     end in
  theseTime_pnts <-
    match theseTime_sec with
    | None => getSpikeTimes self sweepNumber
    | Some secs =>
        let theseTime_ms := map (fun x => x * 1000)%Q secs in
        let pnts := map (fun x => x * inject_Z (dataPointsPerMs self))%Q theseTime_ms in
        Ok (map (fun x => VInt (py_round x)) pnts)
    end ;;
  let clipWidth_pnts := py_round (clipWidth_ms * inject_Z (dataPointsPerMs self))%Q in
  let clipWidth_pnts := if clipWidth_pnts mod 2 =? 0 then clipWidth_pnts
                        else clipWidth_pnts + 1 in
  let halfClipWidth_pnts := clipWidth_pnts / 2 in
  let x := map (fun x => (inject_Z (x - halfClipWidth_pnts)
                          / inject_Z (dataPointsPerMs self))%Q) (py_range clipWidth_pnts) in
  let numPointsInClip := len x in
  data <- sweepY_of self sweepNumber ;;
  sweepNum <- getStat1 self "sweep" sweepNumber ;;
  clips <- clip_loop data sweepNum halfClipWidth_pnts numPointsInClip 0 theseTime_pnts ;;
  let x2 := map (fun _ => x) clips in
  Ok (set_clips self x x2 clips, (x2, clips)).

(** ** More read access to an analyzed recording *)

(** [getSpikeSeconds]: the [sweepNumber] argument is not handed on to
    [getStat]. *)
Definition getSpikeSeconds (self : bAnalysis) (sweepNumber : sweepArg) : result (list value) :=
  getStat1 self "thresholdSec" SweepNone.

(** [[spike for spike in self.spikeDict if sweepNumber=='All' or
    spike['sweep']==sweepNumber]] *)
Fixpoint spikes_in_sweep (sweepNumber : sweepArg) (sd : list dict) : result (list dict) :=
  match sd with
  | [] => Ok []
  | spike :: r =>
      keep <- in_sweep sweepNumber spike ;;
      rest <- spikes_in_sweep sweepNumber r ;;
      Ok (if keep : bool then spike :: rest else rest)
  end.

Definition getSpikeDictionaries (self : bAnalysis) (sweepNumber : sweepArg)
  : result (list dict) :=
  let sweepNumber := match sweepNumber with
                     | SweepNone => SweepAll
                     | _ => sweepNumber
                     end in
  spikes_in_sweep sweepNumber (spikeDict self).

(** [recordingDur]: [self._sweepX[-1,0]], the last point of the first
    sweep. *)
Definition recordingDur (self : bAnalysis) : result Q :=
  col <- py_index (_sweepX self) 0 ;;
  py_index col (-1).

(** [numErrors]: ['N/A'] before any detection. *)
Definition numErrors (self : bAnalysis) : value :=
  match dfError self with
  | None => VStr "N/A"
  | Some e => VInt (len e)
  end.

(** [errorReport]: the rows, and the read of [self.detectionDict['verbose']]. *)
Definition errorReport (self : bAnalysis) : result (list errorDict) :=
  rows <- errorReport_rows (spikeDict self) ;;
  match detectionDict self with
  | Some _ => Ok rows
  | None => Raise TypeError
  end.

Definition api_getSpikeInfo (self : bAnalysis) (spikeNum : option Z) : result (list dict) :=
  match spikeNum with
  | Some n => d <- py_index (spikeDict self) n ;; Ok [d]
  | None => Ok (spikeDict self)
  end.

Definition api_getSpikeStat (self : bAnalysis) (stat : string) : result (list value) :=
  getStat1 self stat SweepNone.

(** ** Clips in a time window ([getSpikeClips]) *)

(** [pnt2Sec_] on a value that [getStat] returned. *)
Definition pnt2Sec_value (dataPointsPerMs : Z) (pnt : value) : result pyfloat :=
  match pnt with
  | VInt z => Ok (F (pnt2Sec_ dataPointsPerMs z))
  | VFloat (F q) => Ok (F (q / inject_Z dataPointsPerMs / 1000)%Q)
  | VFloat f => Ok f
  | _ => Raise TypeError
  end.

(** [spikeTime>=theMin and spikeTime<=theMax] *)
Definition in_window (spikeTime : pyfloat) (theMin theMax : Q) : bool :=
  match spikeTime with
  | F q => Qle_bool theMin q && Qle_bool q theMax
  | _ => false
  end.

(** The loop of lines 1863-1870 over [self.spikeClips]: the clips in the
    window, their x axes, and the clips that enter the mean. *)
Fixpoint window_clips (dataPointsPerMs : Z) (spikeTimes : list value)
  (spikeClips_x2 : list (list Q)) (len_x : Z) (theMin theMax : Q) (idx : Z)
  (clips : list (list Q)) : result (list (list Q) * list (list Q) * list (list Q)) :=
  match clips with
  | [] => Ok ([], [], [])
  | clip :: r =>
      spikeTime <- py_index spikeTimes idx ;;
      spikeTime <- pnt2Sec_value dataPointsPerMs spikeTime ;;
      if in_window spikeTime theMin theMax then
        x <- py_index spikeClips_x2 idx ;;
        ' (theseClips, theseClips_x, tmpMeanClips) <-
          window_clips dataPointsPerMs spikeTimes spikeClips_x2 len_x theMin theMax
            (idx + 1) r ;;
        Ok (clip :: theseClips, x :: theseClips_x,
            if len_x =? len clip then clip :: tmpMeanClips else tmpMeanClips)
      else window_clips dataPointsPerMs spikeTimes spikeClips_x2 len_x theMin theMax
             (idx + 1) r
  end.

(** [np.mean(tmpMeanClips, axis=0)] of clips of one length; the empty
    list when there is no clip. *)
Definition mean_axis0 (rows : list (list Q)) : list Q :=
  match rows with
  | [] => []
  | r0 :: _ =>
      map (fun j => (Qsum (map (fun r => nth j r 0%Q) rows) / inject_Z (len rows))%Q)
        (seq 0 (List.length r0))
  end.

(** [getSpikeClips(theMin, theMax, spikeClipWidth_ms, sweepNumber)]:
    [None] without spikes, else the three lists. *)
Definition getSpikeClips (self : bAnalysis) (theMin theMax : option Q)
  (clipWidth_ms : option Q) (sweepNumber : sweepArg)
  : result (bAnalysis * option (list (list Q) * list (list Q) * list Q)) :=
  if numSpikes self =? 0 then Ok (self, None)
  else
    ' (theMin, theMax) <-
      match theMin, theMax with
      | Some a, Some b => Ok (a, b)
      | _, _ => dur <- recordingDur self ;; Ok (0%Q, dur)
      end ;;
    ' (self, _) <- _makeSpikeClips self clipWidth_ms None sweepNumber ;;
    spikeTimes <- getSpikeTimes self sweepNumber ;;
    match spikeClips self, spikeClips_x self, spikeClips_x2 self with
    | Some clips, Some x, Some x2 =>
        ' (theseClips, theseClips_x, tmpMeanClips) <-
          window_clips (dataPointsPerMs self) spikeTimes x2 (len x) theMin theMax 0 clips ;;
        Ok (self, Some (theseClips, theseClips_x, mean_axis0 tmpMeanClips))
    | _, _, _ => Raise TypeError
    end.

(** * Specification predicates *)

(** ** Run starts *)

(** A sample index [k] of [signal] is suprathreshold. *)
Definition supra_at {A : Type} (p : A -> bool) (i : Z) (l : list A) (k : Z) : Prop :=
  i <= k /\ exists v, nth_error l (Z.to_nat (k - i)) = Some v /\ p v = true.

Definition supra (signal : list Q) (threshold : Q) (k : Z) : Prop :=
  supra_at (fun v => Qgtb v threshold) 0 signal k.

(** The run starts of an index list, read off pair by pair:
    an index starts a run when it is not the successor of the one before. *)
Fixpoint starts (prev : Z) (Is : list Z) : list Z :=
  match Is with
  | [] => []
  | x :: r => if Znonzero (prev - x + 1) then x :: starts x r else starts x r
  end.


(** ** Refractory period *)

(** Every pair of neighbours of a list is related by [P]. *)
Fixpoint neighbours (P : Z -> Z -> Prop) (l : list Z) : Prop :=
  match l with
  | a :: (b :: _) as r => P a b /\ neighbours P r
  | _ => True
  end.

(** The refractory invariant as the specification writes it:
    [(onset[i] - onset[i-1]) / dataPointsPerMs >= refractory_ms]. *)
Definition refractory_clean (dataPointsPerMs : Z) (refractory_ms : Q) (onsets : list Z) : Prop :=
  neighbours (fun a b => (refractory_ms <= inject_Z (b - a) / inject_Z dataPointsPerMs)%Q) onsets.

(** A derivative trace with two crossings of 9, six samples apart, the
    second one preceded by a slow rise. *)
Definition slow_rise_config : detection :=
  {| dvdtThreshold := Num 9; mvThreshold := 0%Q; medianFilter := 0;
     SavitzkyGolay_pnts := 5; SavitzkyGolay_poly := 2; halfHeights := [50];
     mdp_ms := 3%Q; refractory_ms := 6%Q; peakWindow_ms := 3%Q;
     dvdtPreWindow_ms := 3%Q; avgWindow_ms := 2%Q;
     dvdt_percentOfMax := (1 # 2)%Q; halfWidthWindow_ms := 5%Q;
     doBackupSpikeVm := false; spikeClipWidth_ms := 4%Q;
     onlyPeaksAbove_mV := None; startSeconds := None; stopSeconds := None;
     cellType := ""; sex := ""; condition := ""; verbose := false |}.

Definition slow_rise_deriv : list Q :=
  [0; 0; 0; 0; 10; 0; 0; 0; 6; 6; 10; 0; 0; 0]%Q.

Definition slow_rise_vm : list Q :=
  [1; 1; 1; 1; 1; 1; 1; 1; 1; 1; 1; 1; 1; 1]%Q.

(** ** Spike records read by the accessors *)

(** The record of a detected spike carries the index of its sweep. *)
Definition sweep_is_int (spike : dict) : Prop :=
  exists n, dict_get spike "sweep" = Some (VInt n).

(** What [getStat] returns when it has nothing to report. *)
Definition empty_stat (statName2 : option string) : statResult :=
  match statName2 with
  | Some _ => StatPair [] []
  | None => StatOne []
  end.

(** An analyzed recording of sixteen samples at one sample per ms, with
    two spikes at samples 1 and 8. *)
Definition two_spikes : list dict :=
  [ [item "sweep" (VInt 0); item "sweepSpikeNumber" (VInt 0);
     item "errors" (VErrors []); item "thresholdPnt" (VInt 1); item "preMinPnt" VNone];
    [item "sweep" (VInt 0); item "sweepSpikeNumber" (VInt 1);
     item "errors" (VErrors []); item "thresholdPnt" (VInt 8); item "preMinPnt" (VInt 6)] ].

Definition two_spike_recording : bAnalysis :=
  {| _dataPointsPerMs := 1; _sweepList := [0];
     _sweepX := [map (fun z => inject_Z z / 1000)%Q (py_range 16)];
     _sweepY := [[0; 10; 20; 10; 2; 2; 1; 6; 12; 22; 30; 12; 0; 0; 0; 0]%Q];
     _sweepC := [map (fun _ => 0%Q) (py_range 16)];
     _recordingMode := IClamp; _path := Some "cell.abf"%string;
     detectionDict := Some slow_rise_config;
     dateAnalyzed := Some 0; detectionType := Some "dVdtThreshold"%string;
     _filteredVm := []; _filteredDeriv := [];
     spikeDict := two_spikes;
     spikeClips := None; spikeClips_x := None; spikeClips_x2 := None;
     dfError := Some []; _detectionDirty := true |}.

(** ** Spike clips *)

(** The slice [sweepY[onset - half : onset + half]] of every spike, in
    order, whatever its length. *)
Fixpoint spike_slices (data : sweepData) (sweepNum : list value) (halfClipWidth_pnts : Z)
  (idx : Z) (theseTime_pnts : list value) : result (list (list Q)) :=
  match theseTime_pnts with
  | [] => Ok []
  | spikeTime :: r =>
      sweep <- py_index sweepNum idx ;;
      spikeTime <- as_int spikeTime ;;
      sweep <- match data with
               | Data1D _ => Ok 0
               | Data2D _ => as_int sweep
               end ;;
      currentClip <- clip_slice data (spikeTime - halfClipWidth_pnts)
                       (spikeTime + halfClipWidth_pnts) sweep ;;
      rest <- spike_slices data sweepNum halfClipWidth_pnts (idx + 1) r ;;
      Ok (currentClip :: rest)
  end.

(** The clip width in samples, forced even. *)
Definition clipWidth_pnts (dataPointsPerMs : Z) (clipWidth_ms : Q) : Z :=
  let w := py_round (clipWidth_ms * inject_Z dataPointsPerMs)%Q in
  if w mod 2 =? 0 then w else w + 1.

(** The expected length of a clip: [len(range(clipWidth_pnts))]. *)
Definition numPointsInClip (dataPointsPerMs : Z) (clipWidth_ms : Q) : Z :=
  Z.max 0 (clipWidth_pnts dataPointsPerMs clipWidth_ms).

(** The slices that clip building cuts for the spikes of [self], one per
    spike, before any is dropped: [signal[onset - half : onset + half]]. *)
Definition all_spike_slices (self : bAnalysis) (clipWidth_ms : option Q)
  (theseTime_sec : option (list Q)) (sweepNumber : sweepArg) : result (list (list Q)) :=
  w <- match clipWidth_ms with
       | Some w => Ok w
       | None => match detectionDict self with
                 | Some d => Ok (spikeClipWidth_ms d)
                 | None => Raise TypeError
                 end
       end ;;
  let sweepNumber := match sweepNumber with
                     | SweepNone => SweepAll
                     | _ => sweepNumber
                     end in
  theseTime_pnts <-
    match theseTime_sec with
    | None => getSpikeTimes self sweepNumber
    | Some secs =>
        Ok (map (fun x => VInt (py_round (x * 1000 * inject_Z (dataPointsPerMs self))%Q)) secs)
    end ;;
  data <- sweepY_of self sweepNumber ;;
  sweepNum <- getStat1 self "sweep" sweepNumber ;;
  spike_slices data sweepNum (clipWidth_pnts (dataPointsPerMs self) w / 2) 0 theseTime_pnts.

(** The clip width a call uses: the argument, else the configured one. *)
Definition clip_width_of (self : bAnalysis) (clipWidth_ms : option Q) : Q :=
  match clipWidth_ms with
  | Some w => w
  | None => match detectionDict self with
            | Some d => spikeClipWidth_ms d
            | None => 0%Q
            end
  end.

(** ** Half-height widths *)

(** A filtered sweep with one spike: onset at sample 3, peak 20 at
    sample 5, back below a fifth of the height at sample 7. *)
Definition one_spike_vm : list Q :=
  [0; 0; 0; 0; 10; 20; 10; 2; 2; 2; 2; 2; 2; 2; 2; 2]%Q.

(** The width the specification describes: falling point minus onset, in
    ms. *)
Definition width_from_onset (dataPointsPerMs : Z) (fallingPnt onset : Z) : Q :=
  (inject_Z (fallingPnt - onset) / inject_Z dataPointsPerMs)%Q.

(** ** Filtered arrays *)

Definition filtered_arrays (self : bAnalysis) : array2d * array2d :=
  (_filteredVm self, _filteredDeriv self).

Definition result_map {A B : Type} (f : A -> B) (r : result A) : result B :=
  match r with
  | Ok a => Ok (f a)
  | Raise e => Raise e
  end.

(** Two configurations that differ in the filter they select. *)
Definition median3_config : detection :=
  {| dvdtThreshold := Num 9; mvThreshold := 0%Q; medianFilter := 3;
     SavitzkyGolay_pnts := 5; SavitzkyGolay_poly := 2; halfHeights := [50];
     mdp_ms := 3%Q; refractory_ms := 6%Q; peakWindow_ms := 3%Q;
     dvdtPreWindow_ms := 3%Q; avgWindow_ms := 2%Q;
     dvdt_percentOfMax := (1 # 2)%Q; halfWidthWindow_ms := 5%Q;
     doBackupSpikeVm := false; spikeClipWidth_ms := 4%Q;
     onlyPeaksAbove_mV := None; startSeconds := None; stopSeconds := None;
     cellType := ""; sex := ""; condition := ""; verbose := false |}.

(** The record of the spike of [one_spike_vm] as it stands before the
    width loop: header and defaults for the height fraction 20. *)
Definition one_spike_record : result dict :=
  spike_defaults
    (spike_header "1" "1" VNone 1 slow_rise_config "dvdt" 0 0 0 None 0 0 0 3 5 20)
    [20].

(** ** First spike of a sweep *)

(** The record of the first spike of its sweep: intra-sweep index 0. *)
Definition first_in_sweep (spike : dict) : Prop :=
  dict_get spike "sweepSpikeNumber" = Some (VInt 0).

(** Null diastolic minimum, inter-spike interval, frequency and cycle
    length. *)
Definition first_spike_nulls (spike : dict) : Prop :=
  dict_get spike "preMinPnt" = Some VNone /\
  dict_get spike "preMinVal" = Some (VFloat FNaN) /\
  dict_get spike "isi_pnts" = Some (VFloat FNaN) /\
  dict_get spike "isi_ms" = Some (VFloat FNaN) /\
  dict_get spike "spikeFreq_hz" = Some (VFloat FNaN) /\
  dict_get spike "cycleLength_ms" = Some (VFloat FNaN).

(** Two records that differ at most in their error annotations. *)
Definition same_but_errors (d d' : dict) : Prop :=
  forall k, k <> "errors"%string -> dict_get d' k = dict_get d k.

(** A key that the width loop does not write. *)
Definition plain_key (k : string) : Prop :=
  k <> "errors"%string /\ k <> "widths"%string /\ forall h, k <> width_key h.

(** The keys of the header that no later block writes, and the fields
    that stay null for the first spike of a sweep. *)
Definition header_keys : list string := ["sweepSpikeNumber"; "sweep"]%string.

Definition null_keys : list string :=
  ["preMinPnt"; "preMinVal"; "isi_pnts"; "isi_ms"; "spikeFreq_hz";
   "cycleLength_ms"]%string.

(** What holds of every record a detection run leaves. *)
Definition detected_record (spike : dict) : Prop :=
  sweep_is_int spike /\ (first_in_sweep spike -> first_spike_nulls spike).

(** ** Determinism *)

(** The recording without the wall-clock stamp of its last analysis. *)
Definition forget_date (self : bAnalysis) : bAnalysis :=
  {| _dataPointsPerMs := _dataPointsPerMs self; _sweepList := _sweepList self;
     _sweepX := _sweepX self; _sweepY := _sweepY self; _sweepC := _sweepC self;
     _recordingMode := _recordingMode self; _path := _path self;
     detectionDict := detectionDict self; dateAnalyzed := None;
     detectionType := detectionType self;
     _filteredVm := _filteredVm self; _filteredDeriv := _filteredDeriv self;
     spikeDict := spikeDict self; spikeClips := spikeClips self;
     spikeClips_x := spikeClips_x self; spikeClips_x2 := spikeClips_x2 self;
     dfError := dfError self; _detectionDirty := _detectionDirty self |}.

(** What a run computes: the recording it leaves, without the date, or
    the exception it raises. *)
Definition computed (r : result (nat * bAnalysis)) : result bAnalysis :=
  result_map (fun ts => forget_date (snd ts)) r.

(** The spike records a run returns. *)
Definition spike_records (r : result (nat * bAnalysis)) : result (list dict) :=
  result_map (fun ts => spikeDict (snd ts)) r.

(** Two recordings with the same input: sampling rate, sweeps, raw
    arrays, recording mode and file.  Everything a run caches may
    differ; the filtered arrays count as input only in the mode in which
    [rebuildFiltered] leaves them as they are. *)
Definition same_input (s1 s2 : bAnalysis) : Prop :=
  _dataPointsPerMs s1 = _dataPointsPerMs s2 /\
  _sweepList s1 = _sweepList s2 /\
  _sweepX s1 = _sweepX s2 /\
  _sweepY s1 = _sweepY s2 /\
  _sweepC s1 = _sweepC s2 /\
  _recordingMode s1 = _recordingMode s2 /\
  _path s1 = _path s2 /\
  (_recordingMode s1 = ModeUnknown -> filtered_arrays s1 = filtered_arrays s2).

(** ** Stand-ins for the libraries, used to run examples

    A filter that returns its input, and the least-squares line through
    the points, with the two failures [polyfit] has at degree 1. *)
Definition no_medfilt (x : list Q) (kernel_size : Z) : result (list Q) := Ok x.

Definition no_savgol (x : list Q) (window_length polyorder : Z) : result (list Q) := Ok x.

Definition line_fit (x y : list Q) : fit_outcome :=
  match x with
  | [] => FitTypeError
  | _ =>
      let n := inject_Z (len x) in
      let sx := Qsum x in
      let sy := Qsum y in
      let sxx := Qsum (map (fun a => a * a)%Q x) in
      let sxy := Qsum (zip_with Qmult x y) in
      let den := (n * sxx - sx * sx)%Q in
      if Qeq_bool den 0 then FitRankWarning
      else let m := ((n * sxy - sx * sy) / den)%Q in
           FitOk m ((sy - m * sx) / n)%Q
  end.

(** A current-clamp recording of sixteen samples with two spikes, not
    analyzed yet, and the run of the detector on it. *)
Definition fresh_recording : bAnalysis :=
  {| _dataPointsPerMs := 1; _sweepList := [0];
     _sweepX := [map (fun z => inject_Z z / 1000)%Q (py_range 16)];
     _sweepY := [[0; 0; 0; 0; 10; 20; 10; 2; 6; 12; 22; 30; 12; 0; 0; 0]%Q];
     _sweepC := [map (fun _ => 0%Q) (py_range 16)];
     _recordingMode := IClamp; _path := Some "cell.abf"%string;
     detectionDict := None; dateAnalyzed := None; detectionType := None;
     _filteredVm := []; _filteredDeriv := [];
     spikeDict := []; spikeClips := None; spikeClips_x := None; spikeClips_x2 := None;
     dfError := None; _detectionDirty := false |}.

Definition example_clock (n : nat) : Q := inject_Z (Z.of_nat n).

Definition example_run : result (nat * bAnalysis) :=
  spikeDetect no_medfilt no_savgol line_fit "1" "1" example_clock 0 fresh_recording
    (Some slow_rise_config).

Definition analyzed_recording : nat * bAnalysis :=
  match example_run with
  | Ok r => r
  | Raise _ => (O, fresh_recording)
  end.

(** A second wall clock, and a second run, on the recording the first
    run left. *)
Definition later_clock (n : nat) : Q := (inject_Z (Z.of_nat n) + 86400)%Q.

Definition second_run : result (nat * bAnalysis) :=
  spikeDetect no_medfilt no_savgol line_fit "1" "1" later_clock 7 (snd analyzed_recording)
    (Some slow_rise_config).

(** ** Order-preserving selections *)

(** [k] is [l] with some elements left out. *)
Inductive subsequence {A : Type} : list A -> list A -> Prop :=
| subsequence_nil : subsequence [] []
| subsequence_keep (x : A) (k l : list A) : subsequence k l -> subsequence (x :: k) (x :: l)
| subsequence_drop (x : A) (k l : list A) : subsequence k l -> subsequence k (x :: l).

(** Strictly increasing. *)
Definition increasing (l : list Z) : Prop := neighbours Z.lt l.

(** ** Configurations with other windows *)

(** [d] with another peak window and another backward derivative window. *)
Definition with_windows (d : detection) (peakWindow dvdtPreWindow : Q) : detection :=
  {| dvdtThreshold := dvdtThreshold d; mvThreshold := mvThreshold d;
     medianFilter := medianFilter d;
     SavitzkyGolay_pnts := SavitzkyGolay_pnts d;
     SavitzkyGolay_poly := SavitzkyGolay_poly d;
     halfHeights := halfHeights d; mdp_ms := mdp_ms d;
     refractory_ms := refractory_ms d; peakWindow_ms := peakWindow;
     dvdtPreWindow_ms := dvdtPreWindow; avgWindow_ms := avgWindow_ms d;
     dvdt_percentOfMax := dvdt_percentOfMax d;
     halfWidthWindow_ms := halfWidthWindow_ms d;
     doBackupSpikeVm := doBackupSpikeVm d;
     spikeClipWidth_ms := spikeClipWidth_ms d;
     onlyPeaksAbove_mV := onlyPeaksAbove_mV d;
     startSeconds := startSeconds d; stopSeconds := stopSeconds d;
     cellType := cellType d; sex := sex d; condition := condition d;
     verbose := verbose d |}.

(** A recording of one flat sweep: the derivative never crosses a
    positive threshold. *)
Definition quiet_recording : bAnalysis :=
  {| _dataPointsPerMs := 1; _sweepList := [0];
     _sweepX := [map (fun z => inject_Z z / 1000)%Q (py_range 16)];
     _sweepY := [map (fun _ => 0%Q) (py_range 16)];
     _sweepC := [map (fun _ => 0%Q) (py_range 16)];
     _recordingMode := IClamp; _path := Some "quiet.abf"%string;
     detectionDict := None; dateAnalyzed := None; detectionType := None;
     _filteredVm := []; _filteredDeriv := [];
     spikeDict := []; spikeClips := None; spikeClips_x := None; spikeClips_x2 := None;
     dfError := None; _detectionDirty := false |}.

(** The detection of sweep 0 of [quiet_recording] with a backward
    derivative window of no sample. *)
Definition quiet_run : result (nat * bAnalysis) :=
  spikeDetect__ no_medfilt no_savgol line_fit "1" "1" example_clock 0 quiet_recording 0
    (Some (with_windows slow_rise_config 3 0)).

Definition quiet_analyzed : nat * bAnalysis :=
  match quiet_run with
  | Ok r => r
  | Raise _ => (O, quiet_recording)
  end.

(** ** The identity of a spike record *)

(** The fields of the header that give a spike its number, its onset and
    its peak. *)
Definition onset_keys : list string :=
  ["spikeNumber"; "thresholdPnt"; "thresholdVal"; "peakPnt"; "peakVal"; "peakHeight"]%string.

(** The records of [sd] carry the numbers [n], [n + 1], ... in their
    order. *)
Fixpoint numbered_from (n : Z) (sd : list dict) : Prop :=
  match sd with
  | [] => True
  | spike :: r =>
      dict_get spike "spikeNumber" = Some (VInt n) /\ numbered_from (n + 1) r
  end.

(** The record of [one_spike_record]. *)
Definition one_spike_dict : dict :=
  match one_spike_record with
  | Ok d => d
  | Raise _ => []
  end.

(** ** Amplitude detection of a sweep with two spikes *)

(** Amplitude mode (no derivative threshold), a refractory period of
    80 ms and no back-up of the onsets. *)
Definition amplitude_config : detection :=
  {| dvdtThreshold := NumNone; mvThreshold := 0%Q; medianFilter := 0;
     SavitzkyGolay_pnts := 5; SavitzkyGolay_poly := 2; halfHeights := [50];
     mdp_ms := 20%Q; refractory_ms := 80%Q; peakWindow_ms := 5%Q;
     dvdtPreWindow_ms := 3%Q; avgWindow_ms := 2%Q;
     dvdt_percentOfMax := (1 # 2)%Q; halfWidthWindow_ms := 5%Q;
     doBackupSpikeVm := false; spikeClipWidth_ms := 4%Q;
     onlyPeaksAbove_mV := Some 0%Q;
     startSeconds := None; stopSeconds := None;
     cellType := ""; sex := ""; condition := ""; verbose := false |}.

(** One sample per ms; a resting potential of -10 and two spikes, at
    samples 50 and 150. *)
Definition amplitude_sweep : list Q :=
  map (fun i => if (i =? 50) || (i =? 52) || (i =? 150) || (i =? 152) then 5%Q
                else if (i =? 51) || (i =? 151) then 20%Q
                else (-10)%Q)
    (py_range 240).

Definition amplitude_recording : bAnalysis :=
  {| _dataPointsPerMs := 1; _sweepList := [0];
     _sweepX := [map (fun z => inject_Z z / 1000)%Q (py_range 240)];
     _sweepY := [amplitude_sweep];
     _sweepC := [map (fun _ => 0%Q) (py_range 240)];
     _recordingMode := IClamp; _path := Some "cell.abf"%string;
     detectionDict := None; dateAnalyzed := None; detectionType := None;
     _filteredVm := []; _filteredDeriv := [];
     spikeDict := []; spikeClips := None; spikeClips_x := None; spikeClips_x2 := None;
     dfError := None; _detectionDirty := false |}.

Definition amplitude_run : result (nat * bAnalysis) :=
  spikeDetect__ no_medfilt no_savgol line_fit "1" "1" example_clock 0 amplitude_recording 0
    (Some amplitude_config).

Definition amplitude_analyzed : nat * bAnalysis :=
  match amplitude_run with
  | Ok r => r
  | Raise _ => (O, amplitude_recording)
  end.

(** ** The median filter of the amplitude back-up

    [scipy.signal.medfilt(x, kernel_size)] as its documentation defines
    it: the median of the window around each sample, the input padded
    with zeros, an even kernel size refused. *)

Fixpoint insert_sorted (x : Q) (l : list Q) : list Q :=
  match l with
  | [] => [x]
  | y :: r => if Qle_bool x y then x :: l else y :: insert_sorted x r
  end.

Definition sort_Q (l : list Q) : list Q := fold_right insert_sorted [] l.

Definition zero_padded (x : list Q) (j : Z) : Q :=
  if (0 <=? j) && (j <? len x) then nth (Z.to_nat j) x 0%Q else 0%Q.

Definition median_filter (x : list Q) (kernel_size : Z) : result (list Q) :=
  if kernel_size mod 2 =? 0 then Raise ValueError
  else
    let h := kernel_size / 2 in
    Ok (map (fun i =>
               nth (Z.to_nat h)
                 (sort_Q (map (fun d => zero_padded x (i - h + d)) (py_range kernel_size)))
                 0%Q)
          (py_range (len x))).

(** Amplitude mode at two samples per ms with the back-up of the onsets:
    a resting potential of -10, a plateau of -1 shortly before the first
    spike, and two spikes whose crossings, at samples 100 and 260, are
    exactly the refractory period of 80 ms apart. *)
Definition walk_config : detection :=
  {| dvdtThreshold := NumNone; mvThreshold := 0%Q; medianFilter := 0;
     SavitzkyGolay_pnts := 5; SavitzkyGolay_poly := 2; halfHeights := [50];
     mdp_ms := 20%Q; refractory_ms := 80%Q; peakWindow_ms := 5%Q;
     dvdtPreWindow_ms := 3%Q; avgWindow_ms := 2%Q;
     dvdt_percentOfMax := (1 # 2)%Q; halfWidthWindow_ms := 5%Q;
     doBackupSpikeVm := true; spikeClipWidth_ms := 4%Q;
     onlyPeaksAbove_mV := Some 0%Q;
     startSeconds := None; stopSeconds := None;
     cellType := ""; sex := ""; condition := ""; verbose := false |}.

Definition walk_sweep : list Q :=
  map (fun i => if (90 <=? i) && (i <? 97) then (-1)%Q
                else if ((100 <=? i) && (i <? 111)) || ((260 <=? i) && (i <? 271)) then 10%Q
                else (-10)%Q)
    (py_range 320).

(** ** A spike of a later sweep whose width search fails

    The collection holds one record; the record under construction is
    the first spike ([i = 0]) of the next sweep, and with a window of
    one sample no falling point is found. *)
Definition later_sweep_widths : result (list dict * dict) :=
  half_widths 1 slow_rise_config one_spike_vm 1 0 3 5 0 20 (5 # 1000) None 0 [20]
    [one_spike_dict] one_spike_dict.

Definition later_sweep_records : list dict * dict :=
  match later_sweep_widths with
  | Ok r => r
  | Raise _ => ([], [])
  end.

(** [amplitude_recording] with its filtered arrays rebuilt. *)
Definition amplitude_filtered : bAnalysis :=
  match rebuildFiltered no_medfilt no_savgol amplitude_recording with
  | Ok self => self
  | Raise _ => amplitude_recording
  end.

(** * Properties *)

(** ** Dictionaries *)

Lemma dict_get_set_same (d : dict) : forall k v,
  dict_get (dict_set d k v) k = Some v.
Proof.
  induction d as [|[k0 v0] r IH]; intros k v; cbn [dict_set dict_get].
  - rewrite String.eqb_refl. reflexivity.
  - destruct (String.eqb k k0) eqn:E; cbn [dict_get]; rewrite E;
      [reflexivity | apply IH].
Qed.

Lemma dict_get_set_other (d : dict) : forall k k' v,
  k <> k' -> dict_get (dict_set d k v) k' = dict_get d k'.
Proof.
  induction d as [|[k0 v0] r IH]; intros k k' v Hne; cbn [dict_set dict_get].
  - destruct (String.eqb k' k) eqn:E; [apply String.eqb_eq in E; congruence | reflexivity].
  - destruct (String.eqb k k0) eqn:E; cbn [dict_get].
    + apply String.eqb_eq in E. subst k0.
      destruct (String.eqb k' k) eqn:E';
        [apply String.eqb_eq in E'; congruence | reflexivity].
    + destruct (String.eqb k' k0); [reflexivity|]. apply IH. exact Hne.
Qed.

Lemma bind_Ok {A B : Type} (m : result A) (k : A -> result B) (b : B) :
  bind m k = Ok b -> exists a, m = Ok a /\ k a = Ok b.
Proof.
  destruct m as [a|e]; [|discriminate]. intro H. exists a. split; [reflexivity | exact H].
Qed.

(** ** Threshold crossings *)

Lemma supra_at_cons {A : Type} (p : A -> bool) i x r k :
  supra_at p i (x :: r) k <-> (k = i /\ p x = true) \/ supra_at p (i + 1) r k.
Proof.
  unfold supra_at. split.
  - intros [Hik [v [Hn Hp]]].
    destruct (Z.eq_dec k i) as [->|Hne].
    + left. replace (i - i) with 0 in Hn by lia. simpl in Hn. inversion Hn; subst. auto.
    + right. split; [lia|]. exists v. split; auto.
      replace (Z.to_nat (k - i)) with (S (Z.to_nat (k - (i + 1)))) in Hn by lia.
      exact Hn.
  - intros [[-> Hp] | [Hik [v [Hn Hp]]]].
    + split; [lia|]. exists x. replace (i - i) with 0 by lia. auto.
    + split; [lia|]. exists v. split; auto.
      replace (Z.to_nat (k - i)) with (S (Z.to_nat (k - (i + 1)))) by lia.
      exact Hn.
Qed.

Lemma supra_at_nil {A : Type} (p : A -> bool) i k : ~ supra_at p i [] k.
Proof.
  intros [_ [v [Hn _]]]. destruct (Z.to_nat (k - i)); discriminate.
Qed.

Lemma supra_at_ge {A : Type} (p : A -> bool) i l k : supra_at p i l k -> i <= k.
Proof. intros [H _]. exact H. Qed.

Lemma Znonzero_true z : Znonzero z = true <-> z <> 0.
Proof.
  unfold Znonzero. rewrite negb_true_iff, Z.eqb_neq. tauto.
Qed.

Lemma starts_where {A : Type} (p : A -> bool) (l : list A) : forall i prev k,
  prev <= i ->
  (In k (starts prev (where_from p i l)) <->
   supra_at p i l k /\ ~ supra_at p i l (k - 1) /\ k <> prev + 1).
Proof.
  induction l as [|x r IH]; intros i prev k Hle.
  - simpl. split; [tauto|]. intros [H _]. exact (supra_at_nil _ _ _ H).
  - simpl. rewrite !supra_at_cons. destruct (p x) eqn:Hp.
    + simpl. assert (Hin : In k (if Znonzero (prev - i + 1)
                                then i :: starts i (where_from p (i + 1) r)
                                else starts i (where_from p (i + 1) r)) <->
                           (k = i /\ i <> prev + 1) \/
                           In k (starts i (where_from p (i + 1) r))).
      { destruct (Znonzero (prev - i + 1)) eqn:Hz.
        - apply Znonzero_true in Hz. simpl. split.
          + intros [->|H]; [left; split; [reflexivity|lia] | right; exact H].
          + intros [[-> _]|H]; [left; reflexivity | right; exact H].
        - assert (prev - i + 1 = 0).
          { destruct (Z.eq_dec (prev - i + 1) 0) as [e|n]; [exact e|].
            apply Znonzero_true in n. congruence. }
          split; [intro H0; right; exact H0|].
          intros [[_ Hc]|H0]; [lia | exact H0]. }
      rewrite Hin. rewrite (IH (i + 1) i k) by lia. split.
      * intros [[-> Hne] | [Hs [Hns Hk]]].
        -- split; [left; auto|]. split; [|lia].
           intros [[Hc _] | Hc]; [lia|]. apply supra_at_ge in Hc. lia.
        -- pose proof (supra_at_ge _ _ _ _ Hs). split; [right; exact Hs|].
           split; [|lia]. intros [[Hc _] | Hc]; [lia | exact (Hns Hc)].
      * intros [[[-> _] | Hs] [Hns Hk]].
        -- left. split; [reflexivity | lia].
        -- right. split; [exact Hs|]. split.
           ++ intro Hc. apply Hns. right. exact Hc.
           ++ intro Hc. apply Hns. left. split; [lia | reflexivity].
    + rewrite (IH (i + 1) prev k) by lia. split.
      * intros [Hs [Hns Hk]]. split; [right; exact Hs|]. split; [|exact Hk].
        intros [[_ Hc] | Hc]; [discriminate | exact (Hns Hc)].
      * intros [[[_ Hc] | Hs] [Hns Hk]]; [discriminate|].
        split; [exact Hs|]. split; [|exact Hk]. intro Hc. apply Hns. right. exact Hc.
Qed.

Lemma zip_with_removelast {A C : Type} (f : A -> A -> C) (l : list A) : forall a,
  zip_with f (removelast (a :: l)) l = zip_with f (a :: l) l.
Proof.
  induction l as [|x r IH]; intro a; [reflexivity|].
  change (removelast (a :: x :: r)) with (a :: removelast (x :: r)).
  simpl zip_with. f_equal. apply IH.
Qed.

Lemma len_cons {A : Type} (a : A) l : len (a :: l) = len l + 1.
Proof. unfold len. simpl List.length. lia. Qed.

Lemma len_nonneg {A : Type} (l : list A) : 0 <= len l.
Proof. unfold len. lia. Qed.

Lemma py_slice_all_but_last {A : Type} (a : A) (l : list A) :
  py_slice (a :: l) 0 (-1) = removelast (a :: l).
Proof.
  unfold py_slice, clip_bound. rewrite len_cons. pose proof (len_nonneg l).
  change (0 <? 0) with false. change (-1 <? 0) with true. cbv iota.
  rewrite Z.min_l by lia. rewrite Z.max_l by lia.
  replace (-1 + (len l + 1) - 0) with (len l) by lia.
  unfold len. rewrite Nat2Z.id. simpl skipn.
  clear H. revert a. induction l as [|x r IH]; intro a; [reflexivity|].
  change (removelast (a :: x :: r)) with (a :: removelast (x :: r)).
  simpl. f_equal. apply IH.
Qed.

Lemma py_slice_tail {A : Type} (a : A) (l : list A) :
  py_slice (a :: l) 1 (len (a :: l)) = l.
Proof.
  unfold py_slice, clip_bound. rewrite len_cons. pose proof (len_nonneg l).
  change (1 <? 0) with false. cbv iota.
  destruct (len l + 1 <? 0) eqn:E; [apply Z.ltb_lt in E; lia|].
  rewrite Z.min_id. rewrite (Z.min_l 1) by lia.
  replace (len l + 1 - 1) with (len l) by lia.
  unfold len. rewrite Nat2Z.id. simpl. apply firstn_all.
Qed.

Lemma starts_fancy (l : list Z) : forall a pre,
  map (fun j => nth (Z.to_nat (j + 1)) (pre ++ a :: l)%list 0)
      (where_from Znonzero (len pre) (zip_with (fun a b => a - b + 1) (a :: l) l))
  = starts a l.
Proof.
  induction l as [|x r IH]; intros a pre; [reflexivity|].
  change (zip_with (fun a b => a - b + 1) (a :: x :: r) (x :: r))
    with ((a - x + 1) :: zip_with (fun a b => a - b + 1) (x :: r) r).
  cbn [where_from starts].
  assert (Hnth : nth (Z.to_nat (len pre + 1)) (pre ++ a :: x :: r)%list 0 = x).
  { unfold len. replace (Z.to_nat (Z.of_nat (List.length pre) + 1)) with (List.length pre + 1)%nat by lia.
    rewrite app_nth2 by lia. replace (List.length pre + 1 - List.length pre)%nat with 1%nat by lia.
    reflexivity. }
  assert (Hrec : map (fun j => nth (Z.to_nat (j + 1)) (pre ++ a :: x :: r)%list 0)
                   (where_from Znonzero (len pre + 1) (zip_with (fun a b => a - b + 1) (x :: r) r))
                 = starts x r).
  { specialize (IH x (pre ++ [a])%list). rewrite <- app_assoc in IH. simpl in IH.
    replace (len (pre ++ [a])%list) with (len pre + 1) in IH; [exact IH|].
    unfold len. rewrite length_app. simpl. lia. }
  destruct (Znonzero (a - x + 1)).
  - rewrite map_cons, Hrec. f_equal. exact Hnth.
  - exact Hrec.
Qed.

Lemma threshold_crossings_starts (signal : list Q) (threshold : Q) :
  threshold_crossings signal threshold
  = starts 0 (np_where (fun v => Qgtb v threshold) signal).
Proof.
  unfold threshold_crossings.
  set (Is := np_where (fun v => Qgtb v threshold) signal).
  rewrite py_slice_all_but_last, py_slice_tail, zip_with_removelast.
  exact (starts_fancy Is 0 []).
Qed.

(** C10: in both detection modes the candidate crossings are the first
    samples of the suprathreshold runs, except that a run whose first
    sample is index 1 yields none: [k] is a candidate exactly when it is
    suprathreshold and either [k = 0], or [k >= 2] and [k - 1] is not
    suprathreshold. *)
Theorem threshold_crossings_run_start (signal : list Q) (threshold : Q) (k : Z) :
  In k (threshold_crossings signal threshold) <->
  supra signal threshold k /\ (k = 0 \/ (2 <= k /\ ~ supra signal threshold (k - 1))).
Proof.
  rewrite threshold_crossings_starts. unfold np_where, supra.
  rewrite starts_where by lia. split.
  - intros [Hs [Hns Hk]]. split; [exact Hs|].
    pose proof (supra_at_ge _ _ _ _ Hs).
    destruct (Z.eq_dec k 0); [left; assumption | right; split; [lia | exact Hns]].
  - intros [Hs [-> | [Hk Hns]]].
    + split; [exact Hs|]. split; [|lia]. intro Hc. apply supra_at_ge in Hc. lia.
    + split; [exact Hs|]. split; [exact Hns | lia].
Qed.

(** ** Refractory collapsing *)

Lemma Qltb_false (x y : Q) : Qltb x y = false <-> (y <= x)%Q.
Proof.
  unfold Qltb. rewrite negb_false_iff. apply Qle_bool_iff.
Qed.

Lemma Qltb_true (x y : Q) : Qltb x y = true <-> (x < y)%Q.
Proof.
  unfold Qltb. rewrite negb_true_iff. split.
  - intro H. apply Qnot_le_lt. intro Hc. apply Qle_bool_iff in Hc. congruence.
  - intro H. destruct (Qle_bool y x) eqn:E; [|reflexivity].
    apply Qle_bool_iff in E. exfalso. exact (Qlt_not_le _ _ H E).
Qed.

Lemma Qgtb_true (x y : Q) : Qgtb x y = true <-> (y < x)%Q.
Proof. exact (Qltb_true y x). Qed.

Lemma gap_add (thr : Q) (a b c : Z) :
  (0 <= thr)%Q -> (thr <= inject_Z (b - a))%Q -> (thr <= inject_Z (c - b))%Q ->
  (thr <= inject_Z (c - a))%Q.
Proof.
  intros H0 H1 H2.
  replace (c - a) with ((c - b) + (b - a)) by lia.
  rewrite inject_Z_plus. lra.
Qed.

(** After the marking loop and the removal of the zeros, every spike kept
    is at least the threshold after [lastGood], and so is each from its
    predecessor. *)
Lemma refractory_marks_gaps (thr : Q) (rest : list Z) : forall lastGood,
  (0 <= thr)%Q ->
  let kept := filter Znonzero (refractory_marks thr lastGood rest) in
  Forall (fun x => (thr <= inject_Z (x - lastGood))%Q) kept /\
  neighbours (fun a b => (thr <= inject_Z (b - a))%Q) kept.
Proof.
  induction rest as [|t r IH]; intros lastGood Hthr; [simpl; auto|].
  cbn [refractory_marks].
  destruct (Qltb (inject_Z (t - lastGood)) thr) eqn:Hlt.
  - cbn [filter Znonzero]. change (negb (0 =? 0)) with false. cbv iota.
    exact (IH lastGood Hthr).
  - apply Qltb_false in Hlt. destruct (IH t Hthr) as [Hall Hnb].
    assert (Hall' : Forall (fun x => (thr <= inject_Z (x - lastGood))%Q)
                      (filter Znonzero (refractory_marks thr t r))).
    { eapply Forall_impl; [|exact Hall]. intros x Hx. cbv beta in Hx.
      exact (gap_add thr lastGood t x Hthr Hlt Hx). }
    cbn [filter]. destruct (Znonzero t).
    + split; [constructor; assumption|].
      destruct (filter Znonzero (refractory_marks thr t r)) as [|b k] eqn:Hk;
        [exact I|].
      split; [inversion Hall; assumption | exact Hnb].
    + split; assumption.
Qed.

Lemma refractory_marked_gaps (dataPointsPerMs : Z) (refractory_ms : Q) (spikeTimes0 : list Z) :
  (0 <= float_mul (inject_Z dataPointsPerMs) refractory_ms)%Q ->
  neighbours (fun a b => (float_mul (inject_Z dataPointsPerMs) refractory_ms
                          <= inject_Z (b - a))%Q)
    (filter Znonzero (refractory_marked dataPointsPerMs refractory_ms spikeTimes0)).
Proof.
  intro Hthr. destruct spikeTimes0 as [|t0 r]; [exact I|].
  cbn [refractory_marked filter].
  destruct (refractory_marks_gaps _ r t0 Hthr) as [Hall Hnb].
  destruct (Znonzero t0); [|exact Hnb].
  destruct (filter Znonzero (refractory_marks _ t0 r)) as [|b k]; [exact I|].
  split; [inversion Hall; assumption | exact Hnb].
Qed.

Lemma neighbours_impl (P R : Z -> Z -> Prop) (l : list Z) :
  (forall a b, P a b -> R a b) -> neighbours P l -> neighbours R l.
Proof.
  intro H. induction l as [|a [|b k] IH]; simpl; auto.
  intros [Hab Hk]. split; [exact (H _ _ Hab) | exact (IH Hk)].
Qed.

(** What [_throwOutRefractory] keeps, with or without an error list. *)
Lemma throwOutRefractory_kept {E : Type} (dataPointsPerMs : Z) (refractory_ms : Q)
  (spikeTimes0 : list Z) (goodSpikeErrors : option (list E)) (kept : list Z)
  (errors : option (list E)) :
  _throwOutRefractory dataPointsPerMs spikeTimes0 goodSpikeErrors refractory_ms
    = Ok (kept, errors) ->
  kept = filter Znonzero (refractory_marked dataPointsPerMs refractory_ms spikeTimes0).
Proof.
  unfold _throwOutRefractory. intro Hrun.
  destruct goodSpikeErrors as [errs|]; cbn [bind] in Hrun.
  - destruct (pick_errors errs 0 _); cbn [bind] in Hrun; [|discriminate].
    inversion Hrun; reflexivity.
  - inversion Hrun; reflexivity.
Qed.

(** From the comparison the code makes, gap against product, to the
    quotient of the invariant, when the float product is not below the
    exact one. *)
Lemma gaps_refractory_clean (dataPointsPerMs : Z) (refractory_ms : Q) (onsets : list Z) :
  0 < dataPointsPerMs ->
  (inject_Z dataPointsPerMs * refractory_ms
   <= float_mul (inject_Z dataPointsPerMs) refractory_ms)%Q ->
  neighbours (fun a b => (float_mul (inject_Z dataPointsPerMs) refractory_ms
                          <= inject_Z (b - a))%Q) onsets ->
  refractory_clean dataPointsPerMs refractory_ms onsets.
Proof.
  intros Hd Hexact H.
  assert (Hdq : (0 < inject_Z dataPointsPerMs)%Q).
  { replace 0%Q with (inject_Z 0) by reflexivity. rewrite <- Zlt_Qlt. exact Hd. }
  unfold refractory_clean. eapply neighbours_impl; [|exact H].
  intros a b Hab. cbv beta in Hab. apply Qle_shift_div_l; [exact Hdq|].
  rewrite Qmult_comm. eapply Qle_trans; [exact Hexact | exact Hab].
Qed.

Lemma exact_product_nonneg (dataPointsPerMs : Z) (refractory_ms : Q) :
  0 < dataPointsPerMs -> (0 <= refractory_ms)%Q ->
  (inject_Z dataPointsPerMs * refractory_ms
   <= float_mul (inject_Z dataPointsPerMs) refractory_ms)%Q ->
  (0 <= float_mul (inject_Z dataPointsPerMs) refractory_ms)%Q.
Proof.
  intros Hd Hr Hexact. eapply Qle_trans; [|exact Hexact].
  apply Qmult_le_0_compat; [|exact Hr].
  replace 0%Q with (inject_Z 0) by reflexivity. rewrite <- Zle_Qle. lia.
Qed.

(** The same on a whole run: the two spikes that the detector returns for
    [fresh_recording], with a refractory period of 6 ms, have their onsets
    at samples 3 and 8. *)
Lemma example_run_onsets_too_close :
  result_map (fun ts => getStat1 (snd ts) "thresholdPnt" SweepAll) example_run
  = Ok (Ok [VInt 3; VInt 8]) /\
  ~ refractory_clean 1 (refractory_ms slow_rise_config) [3; 8].
Proof.
  split; [vm_compute; reflexivity|].
  unfold refractory_clean. cbn [neighbours slow_rise_config refractory_ms].
  intros [H _]. vm_compute in H. apply H. reflexivity.
Qed.

(** ** The accessor [getStat] *)

Lemma stat_values_no_sweep (statName : string) (sd : list dict) :
  Forall sweep_is_int sd -> stat_values statName SweepNone sd = Ok [].
Proof.
  induction 1 as [|spike r [n Hn] _ IH]; [reflexivity|].
  cbn [stat_values]. unfold in_sweep, dict_item. cbn [is_All]. rewrite Hn.
  cbn [bind sweep_eq]. exact IH.
Qed.

(** C3: with the default [sweepNumber=None] the accessor returns an empty
    list, and an empty pair when a second name is given: the
    normalisation to ['All'] is a comparison, so no spike passes the
    sweep filter. *)
Theorem getStat_default_sweep_empty (self : bAnalysis) (statName1 : string)
  (statName2 : option string) :
  Forall sweep_is_int (spikeDict self) ->
  getStat self statName1 statName2 SweepNone = Ok (empty_stat statName2).
Proof.
  intro Hsweep. unfold getStat.
  set (error := match spikeDict self with [] => true | _ => _ end).
  cbv zeta.
  destruct error; destruct statName2 as [s2|]; cbn [bind empty_stat];
    rewrite ?stat_values_no_sweep by exact Hsweep; reflexivity.
Qed.

Lemma getStat_default_sweep_empty_witness :
  getStat two_spike_recording "thresholdPnt" (Some "preMinPnt"%string) SweepNone
  = Ok (StatPair [] []).
Proof.
  apply (getStat_default_sweep_empty two_spike_recording "thresholdPnt"
           (Some "preMinPnt"%string)).
  repeat constructor; eexists; reflexivity.
Defined.

(** So the mean of a statistic, asked with the default sweep, is [None]. *)
Lemma getStatMean_default_sweep_None (self : bAnalysis) (statName : string) :
  Forall sweep_is_int (spikeDict self) ->
  getStatMean self statName SweepNone = Ok None.
Proof.
  intro Hsweep. unfold getStatMean, getStat1, getStat.
  set (error := match spikeDict self with [] => true | _ => _ end).
  cbv zeta. destruct error; cbn [bind];
    rewrite ?stat_values_no_sweep by exact Hsweep; reflexivity.
Qed.

(** With ['All'] or the index of the sweep the same call has values. *)
Lemma getStat_explicit_sweep_values :
  getStat two_spike_recording "thresholdPnt" (Some "preMinPnt"%string) SweepAll
  = Ok (StatPair [VInt 1; VInt 8] [VFloat FNaN; VInt 6]) /\
  getStat two_spike_recording "thresholdPnt" None (SweepNum 0)
  = Ok (StatOne [VInt 1; VInt 8]).
Proof. split; reflexivity. Qed.

(** C4 fails as stated: a name that no record has gives an empty list,
    returned normally; nothing is raised. *)
Lemma getStat_unknown_name_returns :
  dict_has (hd [] (spikeDict two_spike_recording)) "noSuchStat" = false /\
  getStat two_spike_recording "noSuchStat" None (SweepNum 0) = Ok (StatOne []) /\
  getStat two_spike_recording "thresholdPnt" (Some "noSuchStat"%string) SweepAll
  = Ok (StatPair [] []).
Proof. repeat split; reflexivity. Qed.

(** C4, as amended: when [statName1], or a given [statName2], is not a key
    of the first spike record, [getStat] returns normally with an empty
    list, or an empty pair when [statName2] is given. *)
Theorem getStat_unknown_name_empty (self : bAnalysis) (statName1 : string)
  (statName2 : option string) (sweepNumber : sweepArg) (spike0 : dict) (rest : list dict) :
  spikeDict self = spike0 :: rest ->
  dict_has spike0 statName1 = false \/
  (exists s2, statName2 = Some s2 /\ dict_has spike0 s2 = false) ->
  getStat self statName1 statName2 sweepNumber = Ok (empty_stat statName2).
Proof.
  intros Hsd Hunknown. unfold getStat. rewrite Hsd.
  assert (Herr : (if negb (dict_has spike0 statName1) then true
                  else match statName2 with
                       | Some s2 => negb (dict_has spike0 s2)
                       | None => false
                       end) = true).
  { destruct Hunknown as [H1 | [s2 [-> H2]]].
    - rewrite H1. reflexivity.
    - rewrite H2. destruct (dict_has spike0 statName1); reflexivity. }
  rewrite Herr. destruct statName2; reflexivity.
Qed.

Lemma getStat_unknown_name_empty_witness :
  getStat two_spike_recording "thresholdPnt" (Some "noSuchStat"%string) SweepAll
  = Ok (StatPair [] []).
Proof.
  apply (getStat_unknown_name_empty two_spike_recording "thresholdPnt"
           (Some "noSuchStat"%string) SweepAll
           (hd [] two_spikes) (tl two_spikes)).
  - reflexivity.
  - right. exists "noSuchStat"%string. split; reflexivity.
Defined.

(** ** Spike clips *)

Lemma clip_loop_filter (data : sweepData) (sweepNum : list value) (half n : Z)
  (times : list value) : forall idx,
  clip_loop data sweepNum half n idx times
  = (slices <- spike_slices data sweepNum half idx times ;;
     Ok (filter (fun c => len c =? n) slices)).
Proof.
  induction times as [|t r IH]; intro idx; [reflexivity|].
  cbn [clip_loop spike_slices].
  destruct (py_index sweepNum idx) as [sweep|e]; [|reflexivity]. cbn [bind].
  destruct (as_int t) as [spikeTime|e]; [|reflexivity]. cbn [bind].
  destruct (match data with Data1D _ => Ok 0 | Data2D _ => as_int sweep end)
    as [sw|e]; [|reflexivity]. cbn [bind].
  destruct (clip_slice data (spikeTime - half) (spikeTime + half) sw) as [clip|e];
    [|reflexivity]. cbn [bind].
  rewrite IH.
  destruct (spike_slices data sweepNum half (idx + 1) r) as [rest|e]; [|reflexivity].
  cbn [bind filter]. destruct (len clip =? n); reflexivity.
Qed.

Lemma len_py_range (n : Z) : len (py_range n) = Z.max 0 n.
Proof.
  unfold len, py_range. rewrite length_map, length_seq. lia.
Qed.

Lemma len_map {A B : Type} (f : A -> B) (l : list A) : len (map f l) = len l.
Proof. unfold len. rewrite length_map. reflexivity. Qed.

(** C9: clip building returns exactly the slices whose length is the
    expected clip length, in spike order; every other spike's clip is
    left out, none is padded, and the spike records, with their error
    annotations, and the error table are unchanged. *)
Theorem makeSpikeClips_drops_truncated (self self' : bAnalysis) (clipWidth_ms : option Q)
  (theseTime_sec : option (list Q)) (sweepNumber : sweepArg)
  (x2 clips : list (list Q)) :
  _makeSpikeClips self clipWidth_ms theseTime_sec sweepNumber = Ok (self', (x2, clips)) ->
  let n := numPointsInClip (dataPointsPerMs self) (clip_width_of self clipWidth_ms) in
  (exists slices,
      all_spike_slices self clipWidth_ms theseTime_sec sweepNumber = Ok slices /\
      clips = filter (fun c => len c =? n) slices) /\
  Forall (fun c => len c = n) clips /\
  len x2 = len clips /\
  spikeDict self' = spikeDict self /\
  dfError self' = dfError self.
Proof.
  intros Hrun n. unfold _makeSpikeClips in Hrun.
  assert (Hw : forall w,
             match clipWidth_ms with
             | Some w => Ok w
             | None => match detectionDict self with
                       | Some d => Ok (spikeClipWidth_ms d)
                       | None => Raise TypeError
                       end
             end = Ok w -> clip_width_of self clipWidth_ms = w).
  { intros w H. unfold clip_width_of. destruct clipWidth_ms as [w0|].
    - inversion H; reflexivity.
    - destruct (detectionDict self); inversion H; reflexivity. }
  unfold all_spike_slices.
  destruct (match clipWidth_ms with Some w => Ok w | None => _ end) as [w|e] eqn:Ew;
    [|discriminate]. cbn [bind] in Hrun |- *.
  pose proof (Hw w eq_refl) as Ew'. subst n. rewrite Ew'. clear Hw Ew Ew'.
  set (sw := match sweepNumber with SweepNone => SweepAll | _ => sweepNumber end) in *.
  assert (Htimes :
            match theseTime_sec with
            | None => getSpikeTimes self sw
            | Some secs =>
                Ok (map (fun x => VInt (py_round x))
                      (map (fun x => (x * inject_Z (dataPointsPerMs self))%Q)
                         (map (fun x => (x * 1000)%Q) secs)))
            end
            = match theseTime_sec with
              | None => getSpikeTimes self sw
              | Some secs =>
                  Ok (map (fun x => VInt (py_round (x * 1000 * inject_Z (dataPointsPerMs self))%Q))
                        secs)
              end).
  { destruct theseTime_sec; [|reflexivity]. rewrite !map_map. reflexivity. }
  rewrite Htimes in Hrun. clear Htimes.
  destruct (match theseTime_sec with None => _ | Some _ => _ end) as [times|e];
    [|discriminate]. cbn [bind] in Hrun |- *.
  destruct (sweepY_of self sw) as [data|e]; [|discriminate]. cbn [bind] in Hrun |- *.
  destruct (getStat1 self "sweep" sw) as [sweepNum|e]; [|discriminate].
  cbn [bind] in Hrun |- *.
  rewrite clip_loop_filter in Hrun.
  fold (clipWidth_pnts (dataPointsPerMs self) w) in Hrun.
  destruct (spike_slices data sweepNum (clipWidth_pnts (dataPointsPerMs self) w / 2) 0 times)
    as [slices|e]; [|discriminate].
  cbn [bind] in Hrun. rewrite len_map, len_py_range in Hrun.
  fold (numPointsInClip (dataPointsPerMs self) w) in Hrun.
  inversion Hrun; subst; clear Hrun.
  split; [exists slices; split; reflexivity|].
  split.
  { apply Forall_forall. intros c Hc. apply filter_In in Hc. destruct Hc as [_ Hc].
    apply Z.eqb_eq. exact Hc. }
  split; [apply len_map|].
  split; reflexivity.
Qed.

(** In [two_spike_recording] a clip of 4 ms around the spike at sample 1
    reaches before the recording and is left out; the clip of the spike
    at sample 8 is kept. *)
Lemma makeSpikeClips_drops_truncated_witness :
  (exists slices,
      all_spike_slices two_spike_recording None None SweepNone = Ok slices /\
      [[1; 6; 12; 22]%Q] = filter (fun c => len c =? 4) slices) /\
  Forall (fun c => len c = 4) [[1; 6; 12; 22]%Q] /\
  len [[-2; -1; 0; 1]%Q] = len [[1; 6; 12; 22]%Q] /\
  spikeDict (set_clips two_spike_recording [-2; -1; 0; 1]%Q [[-2; -1; 0; 1]%Q]
               [[1; 6; 12; 22]%Q]) = spikeDict two_spike_recording /\
  dfError (set_clips two_spike_recording [-2; -1; 0; 1]%Q [[-2; -1; 0; 1]%Q]
             [[1; 6; 12; 22]%Q]) = dfError two_spike_recording.
Proof.
  apply (makeSpikeClips_drops_truncated two_spike_recording
           (set_clips two_spike_recording [-2; -1; 0; 1]%Q [[-2; -1; 0; 1]%Q]
              [[1; 6; 12; 22]%Q])
           None None SweepNone [[-2; -1; 0; 1]%Q] [[1; 6; 12; 22]%Q]).
  vm_compute. reflexivity.
Defined.

(** ** Percent-of-max backup of the derivative detector *)

Lemma where_from_none {A : Type} (p : A -> bool) (l : list A) : forall i,
  Forall (fun v => p v = false) l -> where_from p i l = [].
Proof.
  induction l as [|x r IH]; intros i H; [reflexivity|].
  inversion H; subst. cbn [where_from]. rewrite H2. apply IH. assumption.
Qed.

Lemma where_from_first {A : Type} (p : A -> bool) (above : list A) (v : A) (rest : list A) :
  forall i,
  Forall (fun u => p u = false) above -> p v = true ->
  exists more, where_from p i (above ++ v :: rest)%list = (i + len above) :: more.
Proof.
  induction above as [|x r IH]; intros i Habove Hv.
  - cbn [app where_from]. rewrite Hv. eexists. f_equal. unfold len. simpl. lia.
  - inversion Habove; subst. cbn [app where_from]. rewrite H1.
    destruct (IH (i + 1) H2 Hv) as [more Hmore]. exists more. rewrite Hmore.
    f_equal. rewrite len_cons. lia.
Qed.

Lemma not_below_false (level : Q) (l : list Q) :
  Forall (fun v => ~ (v < level)%Q) l -> Forall (fun v => Qltb v level = false) l.
Proof.
  apply Forall_impl. intros v H. apply Qltb_false. apply Qnot_lt_le. exact H.
Qed.

(** The sample at offset [k] of the reversed window [fd[s-w:s]] is the
    sample [s - 1 - k] of the trace. *)
Lemma reversed_window_sample (fd : list Q) (s w : Z) (above : list Q) (v : Q) (rest : list Q) :
  0 <= s <= len fd ->
  rev (py_slice fd (s - w) s) = (above ++ v :: rest)%list ->
  nth_error fd (Z.to_nat (s - 1 - len above)) = Some v.
Proof.
  intros Hs Hrev. unfold py_slice in Hrev.
  set (a := clip_bound (len fd) (s - w)) in *.
  assert (Hb : clip_bound (len fd) s = s).
  { unfold clip_bound. destruct (s <? 0) eqn:E; [apply Z.ltb_lt in E; lia|]. lia. }
  rewrite Hb in Hrev.
  assert (Ha : 0 <= a).
  { unfold a, clip_bound. pose proof (len_nonneg fd).
    destruct (s - w <? 0) eqn:E; [lia|]. apply Z.ltb_ge in E. lia. }
  apply (f_equal (@rev Q)) in Hrev. rewrite rev_involutive, rev_app_distr in Hrev.
  cbn [rev] in Hrev. rewrite <- app_assoc in Hrev. cbn [app] in Hrev.
  assert (Hlen : List.length (firstn (Z.to_nat (s - a)) (skipn (Z.to_nat a) fd))
                 = (List.length (rev rest) + S (List.length (rev above)))%nat).
  { rewrite Hrev, length_app. reflexivity. }
  rewrite length_firstn, length_skipn, !length_rev in Hlen.
  unfold len in *.
  assert (Hidx : Z.to_nat (s - 1 - Z.of_nat (List.length above))
                 = (Z.to_nat a + List.length (rev rest))%nat).
  { rewrite length_rev. lia. }
  rewrite Hidx. rewrite <- nth_error_skipn.
  assert (Hn : nth_error (firstn (Z.to_nat (s - a)) (skipn (Z.to_nat a) fd))
                 (List.length (rev rest)) = Some v).
  { rewrite Hrev. rewrite nth_error_app2 by lia. rewrite Nat.sub_diag. reflexivity. }
  rewrite nth_error_firstn in Hn.
  destruct (Nat.ltb (List.length (rev rest)) (Z.to_nat (s - a))); [exact Hn | discriminate].
Qed.

(** C8, as amended: for a crossing [s] whose forward window is not empty,
    with [level] the configured fraction of the peak derivative found in
    it: when no sample of the backward window is below [level], the
    crossing is kept and a ["dvdtPercent"] annotation is appended; when
    one is, the first such sample met walking backward from the crossing
    is itself the refined onset, and [None] is appended. *)
Theorem dvdt_backup_one_refines (dataPointsPerMs : Z) (pct : Q) (fd : list Q)
  (window_pnts i s peakPnt : Z) (peakVal : Q) :
  0 <= s <= len fd ->
  np_argmax (py_slice fd s (s + window_pnts)) = Ok peakPnt ->
  py_index fd (peakPnt + s) = Ok peakVal ->
  let level := (peakVal * pct)%Q in
  let walked := rev (py_slice fd (s - window_pnts) s) in
  (Forall (fun v => ~ (v < level)%Q) walked ->
   dvdt_backup_one dataPointsPerMs pct fd window_pnts i s
   = (s, Some (Some (_getErrorDict dataPointsPerMs i s "dvdtPercent"
                       (DetailDvdtPercent pct peakVal))))) /\
  (forall above v rest,
     walked = (above ++ v :: rest)%list ->
     Forall (fun u => ~ (u < level)%Q) above ->
     (v < level)%Q ->
     dvdt_backup_one dataPointsPerMs pct fd window_pnts i s
     = (s - 1 - len above, Some None) /\
     nth_error fd (Z.to_nat (s - 1 - len above)) = Some v).
Proof.
  intros Hs Hmax Hpeak level walked. unfold dvdt_backup_one.
  rewrite Hmax. cbn [bind]. rewrite Hpeak. cbn [bind].
  fold level. unfold np_flip. fold walked. unfold np_where. split.
  - intro Hnone. rewrite where_from_none by (apply not_below_false; exact Hnone).
    reflexivity.
  - intros above v rest Hwalk Habove Hv. split.
    + destruct (where_from_first (fun u => Qltb u level) above v rest 0
                  (not_below_false _ _ Habove) (proj2 (Qltb_true _ _) Hv))
        as [more Hmore].
      rewrite Hwalk, Hmore. f_equal. lia.
    + exact (reversed_window_sample fd s window_pnts above v rest Hs Hwalk).
Qed.

Lemma dvdt_backup_one_refines_witness :
  dvdt_backup_one 1 (1 # 2) slow_rise_deriv 3 1 10 = (7, Some None) /\
  nth_error slow_rise_deriv 7 = Some 0%Q.
Proof.
  refine (proj2 (dvdt_backup_one_refines 1 (1 # 2) slow_rise_deriv 3 1 10 0 10%Q
                   _ _ _) [6; 6]%Q 0%Q [] _ _ _).
  - vm_compute. split; discriminate.
  - reflexivity.
  - reflexivity.
  - reflexivity.
  - repeat constructor; vm_compute; discriminate.
  - reflexivity.
Defined.

(** C8 fails as stated.  Walking backward from the crossing at sample 10
    of [slow_rise_deriv], samples 9 and 8 are not below half the peak
    derivative and sample 7 is: the refined onset is sample 7 itself, not
    sample 6.  And with a window of no sample nothing is found, yet no
    annotation is appended. *)
Lemma dvdt_backup_onset_not_one_before :
  nth_error slow_rise_deriv 9 = Some 6%Q /\
  nth_error slow_rise_deriv 8 = Some 6%Q /\
  nth_error slow_rise_deriv 7 = Some 0%Q /\
  np_max (py_slice slow_rise_deriv 10 13) = Ok 10%Q /\
  dvdt_backup_one 1 (1 # 2) slow_rise_deriv 3 1 10 = (7, Some None) /\
  fst (dvdt_backup_one 1 (1 # 2) slow_rise_deriv 3 1 10) <> 7 - 1 /\
  dvdt_backup_one 1 (1 # 2) slow_rise_deriv 0 1 10 = (10, None).
Proof.
  repeat split; try reflexivity. vm_compute. discriminate.
Qed.

(** ** Half-height widths *)

(** What the [try] block records when both searches succeed: the width
    in points is counted from the onset, the width in ms from the rising
    point that was found. *)
Lemma half_width_try_records (dataPointsPerMs : Z) (filteredVm : list Q)
  (hwWindowPnts peakPnt thresholdPnt : Z) (thisVm : Q) (halfHeight : Z)
  (tmpErrorType t : option string) (w : widthDict) (widthMs : Q) :
  half_width_try dataPointsPerMs filteredVm hwWindowPnts peakPnt thresholdPnt thisVm
    halfHeight tmpErrorType = (t, Some (w, widthMs)) ->
  exists fallingPnt fallingVal risingOffset more,
    w_fallingPnt w = Some fallingPnt /\
    w_risingPnt w = Some thresholdPnt /\
    w_widthPnts w = Some (fallingPnt - thresholdPnt) /\
    py_index filteredVm fallingPnt = Ok fallingVal /\
    np_where (fun v => Qgtb v fallingVal) (py_slice filteredVm thresholdPnt peakPnt)
      = risingOffset :: more /\
    widthMs = (inject_Z (fallingPnt - (risingOffset + thresholdPnt))
               / inject_Z dataPointsPerMs)%Q /\
    w_widthMs w = F widthMs.
Proof.
  unfold half_width_try. intro H.
  destruct (np_where (fun v => Qltb v thisVm) _) as [|f0 fs]; [discriminate|].
  destruct (py_index filteredVm (f0 + peakPnt)) as [fallingVal|e] eqn:Ef; [|discriminate].
  destruct (np_where (fun v => Qgtb v fallingVal) _) as [|r0 rs] eqn:Er; [discriminate|].
  destruct (py_index filteredVm (r0 + thresholdPnt)) as [risingVal|e]; [|discriminate].
  inversion H; subst; clear H. cbn.
  exists (f0 + peakPnt), fallingVal, r0, rs. repeat split; assumption.
Qed.

(** C6 at a spike whose rising point is after the onset: onset 3, peak
    at 5, falling point 7 for the height fraction 20, rising point 4.
    The record holds the onset as rising point and a width of
    [7 - 3 = 4] points, but [widthMs], and the flattened [widths_20], are
    [(7 - 4) / 1 = 3], not [(7 - 3) / 1 = 4]. *)
Theorem widthMs_counts_from_rising_point :
  half_width_try 1 one_spike_vm 5 5 3 4 20 None
  = (None,
     Some ({| w_halfHeight := 20;
              w_risingPnt := Some 3; w_risingVal := F 10;
              w_fallingPnt := Some 7; w_fallingVal := F 2;
              w_widthPnts := Some 4; w_widthMs := F 3 |}, 3%Q)) /\
  result_map (fun pc => dict_get (snd pc) "widths_20")
    (cur <- one_spike_record ;;
     half_widths 1 slow_rise_config one_spike_vm 5 0 3 5 0 20 (5 # 1000) None 0 [20] [] cur)
  = Ok (Some (VFloat (F 3))) /\
  width_from_onset 1 7 3 = 4%Q /\
  ~ (3 == width_from_onset 1 7 3)%Q.
Proof.
  split; [vm_compute; reflexivity|].
  split; [vm_compute; reflexivity|].
  split; [reflexivity|]. vm_compute. discriminate.
Qed.

(** ** Filtered arrays *)

(** In current-clamp mode the amplitude is always smoothed with the
    default Savitzky-Golay filter, 5 points and order 2. *)
Lemma rebuildFiltered_default_filter
  (medfilt : list Q -> Z -> result (list Q))
  (savgol_filter : list Q -> Z -> Z -> result (list Q))
  (self self' : bAnalysis) :
  _recordingMode self = IClamp ->
  rebuildFiltered medfilt savgol_filter self = Ok self' ->
  mapM (fun col => savgol_filter col 5 2) (_sweepY self) = Ok (_filteredVm self').
Proof.
  intros Hmode Hrun. unfold rebuildFiltered in Hrun. rewrite Hmode in Hrun.
  unfold _getDerivative in Hrun. cbn [getDefaultDetection medianFilter SavitzkyGolay_pnts
    SavitzkyGolay_poly Z.gtb Z.compare andb] in Hrun.
  apply bind_Ok in Hrun. destruct Hrun as [vm [Hvm Hrun]]. rewrite Hvm.
  apply bind_Ok in Hrun. destruct Hrun as [deriv [_ Hrun]].
  destruct (len _ =? numSweeps self); [|discriminate].
  inversion Hrun; subst. reflexivity.
Qed.

(** C7 on the code: [spikeDetect__] stores the configuration of the run
    and calls [rebuildFiltered], which takes no configuration and filters
    with the defaults.  The filtered arrays it caches are the same
    whatever configuration the run was given. *)
Theorem rebuildFiltered_ignores_config
  (medfilt : list Q -> Z -> result (list Q))
  (savgol_filter : list Q -> Z -> Z -> result (list Q))
  (self : bAnalysis) (dDict1 dDict2 : detection) :
  result_map filtered_arrays
    (rebuildFiltered medfilt savgol_filter (set_detectionDict self dDict1))
  = result_map filtered_arrays
      (rebuildFiltered medfilt savgol_filter (set_detectionDict self dDict2)).
Proof.
  unfold rebuildFiltered. cbn [set_detectionDict _recordingMode].
  destruct (_recordingMode self); [|reflexivity|reflexivity].
  unfold _getDerivative, dataPointsPerMs, numSweeps.
  cbn [set_detectionDict _sweepY _dataPointsPerMs _sweepList].
  destruct (if _ >? 0 then _ else _) as [vm|e]; [|reflexivity]. cbn [bind].
  destruct (if _ >? 0 then _ else _) as [deriv|e]; [|reflexivity]. cbn [bind].
  destruct (len _ =? len (_sweepList self)); reflexivity.
Qed.

(** Handed a configuration, [_getDerivative] does follow it: with
    [median3_config] the amplitude goes through the median filter of
    width 3. *)
Lemma getDerivative_follows_given_config
  (medfilt : list Q -> Z -> result (list Q))
  (savgol_filter : list Q -> Z -> Z -> result (list Q))
  (self self' : bAnalysis) :
  _getDerivative medfilt savgol_filter self (Some median3_config) = Ok self' ->
  mapM (fun col => medfilt col 3) (_sweepY self) = Ok (_filteredVm self').
Proof.
  intro Hrun. unfold _getDerivative in Hrun.
  cbn [median3_config medianFilter SavitzkyGolay_pnts SavitzkyGolay_poly
       Z.gtb Z.compare andb Z.modulo Z.div_eucl Z.pos_div_eucl Z.eqb Z.ltb Z.leb
       Z.add Z.mul Z.sub Z.opp Z.pos_sub Z.succ_double Z.pred_double Z.double
       Pos.add Pos.mul Pos.succ Pos.compare Pos.compare_cont fst snd] in Hrun.
  apply bind_Ok in Hrun. destruct Hrun as [vm [Hvm Hrun]]. rewrite Hvm.
  apply bind_Ok in Hrun. destruct Hrun as [deriv [_ Hrun]].
  destruct (len _ =? numSweeps self); [|discriminate].
  inversion Hrun; subst. reflexivity.
Qed.

(** ** Spike records: which block writes which field *)

Ltac other_key := solve [discriminate | unfold width_key; cbn [String.append]; discriminate].

Lemma dict_append_error_frame (d d' : dict) (e : errorDict) :
  dict_append_error d e = Ok d' -> same_but_errors d d'.
Proof.
  unfold dict_append_error. intros H k Hk.
  apply bind_Ok in H. destruct H as [es [_ H]]. inversion H; subst.
  apply dict_get_set_other. congruence.
Qed.

Lemma same_but_errors_refl (d : dict) : same_but_errors d d.
Proof. intros k _. reflexivity. Qed.

Lemma same_but_errors_trans (a b c : dict) :
  same_but_errors a b -> same_but_errors b c -> same_but_errors a c.
Proof. intros H1 H2 k Hk. rewrite (H2 k Hk). exact (H1 k Hk). Qed.

Lemma dict_set_frame (d : dict) (k0 : string) (v : value) :
  k0 <> "errors"%string -> forall k, k <> k0 -> dict_get (dict_set d k0 v) k = dict_get d k.
Proof. intros _ k Hk. apply dict_get_set_other. congruence. Qed.

Lemma dict_append_width_frame (d d' : dict) (w : widthDict) (k : string) :
  dict_append_width d w = Ok d' -> k <> "widths"%string -> dict_get d' k = dict_get d k.
Proof.
  unfold dict_append_width. intros H Hk.
  apply bind_Ok in H. destruct H as [ws [_ H]]. inversion H; subst.
  apply dict_get_set_other. congruence.
Qed.

Lemma dict_set_width_frame (d d' : dict) (j : Z) (w : widthDict) (k : string) :
  dict_set_width d j w = Ok d' -> k <> "widths"%string -> dict_get d' k = dict_get d k.
Proof.
  unfold dict_set_width. intros H Hk.
  apply bind_Ok in H. destruct H as [ws [_ H]].
  destruct ((0 <=? j) && (j <? len ws)); [|discriminate]. inversion H; subst.
  apply dict_get_set_other. congruence.
Qed.

Lemma default_widths_frame (hs : list Z) : forall (d d' : dict) (k : string),
  default_widths d hs = Ok d' -> plain_key k -> dict_get d' k = dict_get d k.
Proof.
  induction hs as [|h r IH]; intros d d' k H Hk.
  - inversion H; reflexivity.
  - cbn [default_widths] in H. apply bind_Ok in H. destruct H as [d1 [H1 H]].
    rewrite (IH _ _ _ H Hk). unfold default_width in H1.
    destruct Hk as [_ [Hw Hh]].
    rewrite (dict_append_width_frame _ _ _ _ H1 Hw).
    apply dict_get_set_other. intro Hc. exact (Hh h (eq_sym Hc)).
Qed.

Lemma plain_sweepSpikeNumber : plain_key "sweepSpikeNumber".
Proof. repeat split; discriminate. Qed.
Lemma plain_sweep : plain_key "sweep".
Proof. repeat split; discriminate. Qed.
Lemma plain_preMinPnt : plain_key "preMinPnt".
Proof. repeat split; discriminate. Qed.
Lemma plain_preMinVal : plain_key "preMinVal".
Proof. repeat split; discriminate. Qed.
Lemma plain_isi_pnts : plain_key "isi_pnts".
Proof. repeat split; discriminate. Qed.
Lemma plain_isi_ms : plain_key "isi_ms".
Proof. repeat split; discriminate. Qed.
Lemma plain_spikeFreq_hz : plain_key "spikeFreq_hz".
Proof. repeat split; discriminate. Qed.
Lemma plain_cycleLength_ms : plain_key "cycleLength_ms".
Proof. repeat split; discriminate. Qed.

(** The defaults: the header fields are kept and the fields of the claim
    are null. *)
Lemma spike_defaults_fields (d d' : dict) (hs : list Z) :
  spike_defaults d hs = Ok d' ->
  dict_get d' "sweepSpikeNumber" = dict_get d "sweepSpikeNumber" /\
  dict_get d' "sweep" = dict_get d "sweep" /\
  first_spike_nulls d'.
Proof.
  unfold spike_defaults. intro H.
  pose proof (fun k Hk => default_widths_frame hs _ _ k H Hk) as Hf.
  unfold first_spike_nulls.
  rewrite (Hf _ plain_sweepSpikeNumber), (Hf _ plain_sweep), (Hf _ plain_preMinPnt),
    (Hf _ plain_preMinVal), (Hf _ plain_isi_pnts), (Hf _ plain_isi_ms),
    (Hf _ plain_spikeFreq_hz), (Hf _ plain_cycleLength_ms).
  repeat split;
    repeat first [ rewrite dict_get_set_same; reflexivity
                 | rewrite dict_get_set_other by discriminate
                 | reflexivity ].
Qed.

Lemma list_set_Forall2 {A : Type} (R : A -> A -> Prop) (l : list A) :
  (forall x, R x x) ->
  forall n d d', nth_error l n = Some d -> R d d' -> Forall2 R l (list_set l n d').
Proof.
  intro Hrefl. induction l as [|a r IH]; intros n d d' Hn HR.
  - destruct n; discriminate.
  - destruct n as [|n]; cbn [list_set].
    + inversion Hn; subst. constructor; [exact HR|].
      clear - Hrefl. induction r; constructor; auto.
    + constructor; [apply Hrefl | exact (IH n d d' Hn HR)].
Qed.

Lemma py_index_nth {A : Type} (l : list A) (i : Z) (d : A) :
  py_index l i = Ok d ->
  nth_error l (Z.to_nat (if i <? 0 then i + len l else i)) = Some d.
Proof.
  unfold py_index. set (j := if i <? 0 then i + len l else i).
  destruct (j <? 0); [discriminate|].
  destruct (nth_error l (Z.to_nat j)); [|discriminate].
  intro H; inversion H; reflexivity.
Qed.

Lemma append_error_at_frame (prev : list dict) (cur : dict) (i : Z) (e : errorDict)
  (prev' : list dict) (cur' : dict) :
  append_error_at prev cur i e = Ok (prev', cur') ->
  Forall2 same_but_errors prev prev' /\ same_but_errors cur cur'.
Proof.
  unfold append_error_at. intro H.
  apply bind_Ok in H. destruct H as [d [Hd H]].
  apply bind_Ok in H. destruct H as [d' [Hd' H]].
  apply py_index_nth in Hd. apply dict_append_error_frame in Hd'.
  pose proof (list_set_Forall2 same_but_errors _ same_but_errors_refl _ _ _ Hd Hd') as HF.
  set (sd' := list_set _ _ d') in *.
  apply Forall2_app_inv_l in HF. destruct HF as [p' [c' [Hp [Hc Hsd]]]].
  inversion Hc as [|x y l l' Hxy Hnil]; subst. inversion Hnil; subst.
  rewrite Hsd in H. rewrite removelast_last, last_last in H.
  inversion H; subst. split; assumption.
Qed.

Ltac each_key Hk :=
  cbn [In header_keys null_keys app] in Hk;
  repeat (destruct Hk as [<- | Hk]); [.. | contradiction].

Ltac frame_sets :=
  repeat first [ rewrite dict_get_set_other by discriminate | reflexivity ].

Lemma preSpike_dvdt_block_frame (dataPointsPerMs : Z) (vm fd : list Q)
  (i s peakPnt : Z) (cur cur' : dict) (k : string) :
  preSpike_dvdt_block dataPointsPerMs vm fd i s peakPnt cur = Ok cur' ->
  In k (header_keys ++ null_keys)%list -> dict_get cur' k = dict_get cur k.
Proof.
  unfold preSpike_dvdt_block. intros H Hk.
  destruct (np_argmax _) as [p|e].
  - apply bind_Ok in H. destruct H as [v [_ H]].
    apply bind_Ok in H. destruct H as [v2 [_ H]]. inversion H; subst.
    each_key Hk; frame_sets.
  - apply dict_append_error_frame in H. apply H. each_key Hk; discriminate.
Qed.

Lemma postSpike_dvdt_block_frame (dataPointsPerMs : Z) (vm fd : list Q)
  (peakPnt : Z) (cur cur' : dict) (k : string) :
  postSpike_dvdt_block dataPointsPerMs vm fd peakPnt cur = Ok cur' ->
  In k (header_keys ++ null_keys)%list -> dict_get cur' k = dict_get cur k.
Proof.
  unfold postSpike_dvdt_block. intros H Hk.
  apply bind_Ok in H. destruct H as [p [_ H]].
  apply bind_Ok in H. destruct H as [v [_ H]].
  apply bind_Ok in H. destruct H as [v2 [_ H]]. inversion H; subst.
  each_key Hk; frame_sets.
Qed.

Lemma pre_spike_block_frame (polyfit : list Q -> list Q -> fit_outcome)
  (dataPointsPerMs : Z) (dDict : detection) (avgWindow_pnts : Z)
  (sweepX vm : list Q) (i s : Z) (cur cur' : dict) (p : Z) (k : string) :
  pre_spike_block polyfit dataPointsPerMs dDict avgWindow_pnts sweepX vm i s cur
    = Ok (cur', p) ->
  In k header_keys -> dict_get cur' k = dict_get cur k.
Proof.
  unfold pre_spike_block. intros H Hk.
  apply bind_Ok in H. destruct H as [m [_ H]].
  apply bind_Ok in H. destruct H as [[c1 p1] [H1 H]].
  assert (Hc1 : dict_get c1 k = dict_get cur k).
  { destruct (match np_mean _ with Some _ => _ | None => _ end) as [[pm v]|].
    - inversion H1; subst. each_key Hk; frame_sets.
    - apply bind_Ok in H1. destruct H1 as [c [Hc H1]]. inversion H1; subst.
      apply dict_append_error_frame in Hc. apply Hc. each_key Hk; discriminate. }
  cbv zeta in H.
  apply bind_Ok in H. destruct H as [v0 [_ H]].
  apply bind_Ok in H. destruct H as [v1 [_ H]].
  apply bind_Ok in H. destruct H as [c2 [H2 H]]. inversion H; subst.
  rewrite <- Hc1.
  destruct (polyfit _ _).
  - inversion H2; subst. each_key Hk; frame_sets.
  - apply dict_append_error_frame in H2. rewrite H2 by (each_key Hk; discriminate).
    each_key Hk; frame_sets.
  - apply dict_append_error_frame in H2. rewrite H2 by (each_key Hk; discriminate).
    each_key Hk; frame_sets.
  - inversion H2; subst. each_key Hk; frame_sets.
Qed.

Lemma isi_block_first (dataPointsPerMs : Z) (prev : list dict) (s : Z)
  (preMinPnt : option Z) (cur : dict) :
  isi_block dataPointsPerMs prev 0 s preMinPnt cur
  = Ok (dict_set cur "cycleLength_ms" VNaN).
Proof. reflexivity. Qed.

Lemma isi_block_frame (dataPointsPerMs : Z) (prev : list dict) (i s : Z)
  (preMinPnt : option Z) (cur cur' : dict) (k : string) :
  isi_block dataPointsPerMs prev i s preMinPnt cur = Ok cur' ->
  In k header_keys -> dict_get cur' k = dict_get cur k.
Proof.
  unfold isi_block. intros H Hk.
  apply bind_Ok in H. destruct H as [c1 [H1 H]].
  assert (Hc1 : dict_get c1 k = dict_get cur k).
  { destruct (i >? 0); [|inversion H1; reflexivity].
    destruct preMinPnt; [|discriminate]. inversion H1; subst.
    each_key Hk; frame_sets. }
  rewrite <- Hc1. cbv zeta in H.
  destruct (i >? 0); [|inversion H; subst; each_key Hk; frame_sets].
  repeat (apply bind_Ok in H; destruct H as [? [_ H]]).
  destruct (as_optint _) as [a|]; [destruct (as_optint _) as [b|]|].
  - inversion H; subst. each_key Hk; frame_sets.
  - apply dict_append_error_frame in H. rewrite H by (each_key Hk; discriminate).
    each_key Hk; frame_sets.
  - apply dict_append_error_frame in H. rewrite H by (each_key Hk; discriminate).
    each_key Hk; frame_sets.
Qed.

Lemma half_widths_frame (dataPointsPerMs : Z) (dDict : detection) (vm : list Q)
  (hw i s peakPnt : Z) (thresholdVal peakVal tmpPeakSec : Q) (hs : list Z) :
  forall (t : option string) (j : Z) (prev : list dict) (cur : dict)
         (prev' : list dict) (cur' : dict),
  half_widths dataPointsPerMs dDict vm hw i s peakPnt thresholdVal peakVal tmpPeakSec
    t j hs prev cur = Ok (prev', cur') ->
  Forall2 same_but_errors prev prev' /\
  forall k, plain_key k -> dict_get cur' k = dict_get cur k.
Proof.
  induction hs as [|h r IH]; intros t j prev cur prev' cur' H.
  - inversion H; subst. split; [|reflexivity].
    clear. induction prev'; constructor; auto using same_but_errors_refl.
  - cbn [half_widths] in H. cbv zeta in H.
    destruct (half_width_try _ _ _ _ _ _ _ _) as [t' outcome].
    apply bind_Ok in H. destruct H as [[[[p1 c1] w] ms] [H1 H]].
    assert (Hstep : Forall2 same_but_errors prev p1 /\ same_but_errors cur c1).
    { destruct outcome as [[w0 ms0]|].
      - inversion H1; subst. split; [|apply same_but_errors_refl].
        clear. induction p1; constructor; auto using same_but_errors_refl.
      - apply bind_Ok in H1. destruct H1 as [[p2 c2] [H2 H1]]. inversion H1; subst.
        exact (append_error_at_frame _ _ _ _ _ _ H2). }
    cbv zeta in H. apply bind_Ok in H. destruct H as [c3 [H3 H]].
    destruct (IH _ _ _ _ _ _ H) as [Hprev Hcur]. destruct Hstep as [Hp1 Hc1]. split.
    + clear - Hp1 Hprev. revert prev' Hprev. induction Hp1; intros prev' Hprev.
      * exact Hprev.
      * inversion Hprev; subst. constructor;
          [eapply same_but_errors_trans; eassumption | apply IHHp1; assumption].
    + intros k Hk. rewrite (Hcur k Hk). destruct Hk as [He [Hw Hh]].
      rewrite (dict_set_width_frame _ _ _ _ _ H3 Hw).
      rewrite dict_get_set_other by (intro Hc; exact (Hh h (eq_sym Hc))).
      exact (Hc1 k He).
Qed.

(** ** The first spike of every sweep *)

Ltac bind_step H x Hx :=
  apply bind_Ok in H; destruct H as [x [Hx H]]; cbv beta zeta in H.

Lemma header_sweepSpikeNumber aV iV file dpms dDict type sweepNumber i n tmpError
  dac thr thr_dvdt s peakPnt peakVal :
  dict_get (spike_header aV iV file dpms dDict type sweepNumber i n tmpError
              dac thr thr_dvdt s peakPnt peakVal) "sweepSpikeNumber" = Some (VInt i) /\
  dict_get (spike_header aV iV file dpms dDict type sweepNumber i n tmpError
              dac thr thr_dvdt s peakPnt peakVal) "sweep" = Some (VInt sweepNumber).
Proof. split; reflexivity. Qed.

Lemma Forall2_same_but_errors_refl (l : list dict) : Forall2 same_but_errors l l.
Proof. induction l; constructor; auto using same_but_errors_refl. Qed.

(** One iteration of the spike loop appends one record, with the
    intra-sweep index [i] and the sweep number; the records before it
    change at most in their annotations; for [i = 0] the diastolic
    minimum, the interval, the frequency and the cycle length are null. *)
Lemma analyze_spike_record (polyfit : list Q -> list Q -> fit_outcome)
  (aV iV : string) (file : value) (dpms : Z) (dDict : detection) (type : string)
  (sweepNumber : Z) (sweepX vm fd sweepC : list Q)
  (errs : list (option errorDict)) (pw aw : Z) (prev : list dict) (i s : Z)
  (sd : list dict) :
  analyze_spike polyfit aV iV file dpms dDict type sweepNumber sweepX vm fd sweepC
    errs pw aw prev i s = Ok sd ->
  exists prev' cur',
    sd = (prev' ++ [cur'])%list /\
    Forall2 same_but_errors prev prev' /\
    dict_get cur' "sweepSpikeNumber" = Some (VInt i) /\
    dict_get cur' "sweep" = Some (VInt sweepNumber) /\
    (i = 0 -> first_spike_nulls cur').
Proof.
  unfold analyze_spike. intro H.
  bind_step H peakPnt HpeakPnt. bind_step H peakVal HpeakVal.
  bind_step H tmpError HtmpError. bind_step H dac Hdac.
  bind_step H thr Hthr. bind_step H thr_dvdt Hthr_dvdt.
  bind_step H cur1 Hcur1.
  apply spike_defaults_fields in Hcur1. destruct Hcur1 as [Hn1 [Hs1 Hnull1]].
  destruct (header_sweepSpikeNumber aV iV file dpms dDict type sweepNumber i (len prev)
              tmpError dac thr thr_dvdt s (peakPnt + s) peakVal) as [Hhn Hhs].
  rewrite Hhn in Hn1. rewrite Hhs in Hs1.
  bind_step H cp2 Hcp2. destruct cp2 as [cur2 preMinPnt].
  bind_step H cur3 Hcur3. bind_step H cur4 Hcur4. bind_step H cur5 Hcur5.
  bind_step H pc Hpc. destruct pc as [prev' cur']. inversion H; subst sd; clear H.
  destruct (half_widths_frame _ _ _ _ _ _ _ _ _ _ _ _ _ _ _ _ _ Hpc) as [Hprev Hplain].
  pose proof (fun k Hk => preSpike_dvdt_block_frame _ _ _ _ _ _ _ _ k Hcur3 Hk) as F3.
  pose proof (fun k Hk => postSpike_dvdt_block_frame _ _ _ _ _ _ k Hcur4 Hk) as F4.
  exists prev', cur'. split; [reflexivity|]. split; [exact Hprev|].
  assert (Hhead : forall k, In k header_keys ->
                    dict_get cur5 k = dict_get cur1 k).
  { intros k Hk.
    rewrite (isi_block_frame _ _ _ _ _ _ _ k Hcur5 Hk).
    rewrite (F4 k) by (apply in_or_app; left; exact Hk).
    rewrite (F3 k) by (apply in_or_app; left; exact Hk).
    destruct (i =? 0).
    - inversion Hcp2; reflexivity.
    - bind_step Hcp2 cp Hcp. destruct cp as [c p]. inversion Hcp2; subst.
      exact (pre_spike_block_frame _ _ _ _ _ _ _ _ _ _ _ k Hcp Hk). }
  split; [rewrite (Hplain _ plain_sweepSpikeNumber), Hhead by (cbn; auto); exact Hn1|].
  split; [rewrite (Hplain _ plain_sweep), Hhead by (cbn; auto); exact Hs1|].
  intro Hi. subst i. change (0 =? 0) with true in Hcp2. cbv iota in Hcp2.
  inversion Hcp2; subst cur2 preMinPnt; clear Hcp2.
  rewrite isi_block_first in Hcur5. inversion Hcur5; subst cur5; clear Hcur5.
  destruct Hnull1 as [N1 [N2 [N3 [N4 [N5 N6]]]]].
  unfold first_spike_nulls.
  rewrite (Hplain _ plain_preMinPnt), (Hplain _ plain_preMinVal),
    (Hplain _ plain_isi_pnts), (Hplain _ plain_isi_ms),
    (Hplain _ plain_spikeFreq_hz), (Hplain _ plain_cycleLength_ms).
  rewrite dict_get_set_same.
  rewrite !dict_get_set_other by discriminate.
  rewrite !F4, !F3 by (cbn; auto 10).
  repeat split; assumption.
Qed.

Lemma detected_record_same_but_errors (d d' : dict) :
  same_but_errors d d' -> detected_record d -> detected_record d'.
Proof.
  intros Hsame [[n Hn] Hfirst]. unfold detected_record, sweep_is_int, first_in_sweep,
    first_spike_nulls in *.
  rewrite !Hsame by discriminate. split; [exists n; exact Hn | exact Hfirst].
Qed.

Lemma analyze_spikes_records (polyfit : list Q -> list Q -> fit_outcome)
  (aV iV : string) (file : value) (dpms : Z) (dDict : detection) (type : string)
  (sweepNumber : Z) (sweepX vm fd sweepC : list Q)
  (errs : list (option errorDict)) (pw aw : Z) (spikeTimes : list Z) :
  forall (sd0 : list dict) (i : Z) (sd : list dict),
  Forall detected_record sd0 ->
  analyze_spikes polyfit aV iV file dpms dDict type sweepNumber sweepX vm fd sweepC
    errs pw aw sd0 i spikeTimes = Ok sd ->
  Forall detected_record sd.
Proof.
  induction spikeTimes as [|s r IH]; intros sd0 i sd Hinv H.
  - inversion H; subst. exact Hinv.
  - cbn [analyze_spikes] in H. bind_step H sd1 Hsd1.
    apply (IH sd1 (i + 1) sd); [|exact H].
    apply analyze_spike_record in Hsd1.
    destruct Hsd1 as [prev' [cur' [-> [Hprev [Hn [Hs Hnull]]]]]].
    apply Forall_app. split.
    + clear - Hinv Hprev. induction Hprev; [constructor|].
      inversion Hinv; subst. constructor;
        [eapply detected_record_same_but_errors; eassumption | auto].
    + constructor; [|constructor]. split; [exists sweepNumber; exact Hs|].
      intro Hfirst. unfold first_in_sweep in Hfirst. rewrite Hn in Hfirst.
      apply Hnull. inversion Hfirst; reflexivity.
Qed.

Lemma rebuildFiltered_spikeDict
  (medfilt : list Q -> Z -> result (list Q))
  (savgol_filter : list Q -> Z -> Z -> result (list Q))
  (self self' : bAnalysis) :
  rebuildFiltered medfilt savgol_filter self = Ok self' ->
  spikeDict self' = spikeDict self.
Proof.
  unfold rebuildFiltered, _getDerivative, _getBaselineSubtract. intro H.
  destruct (_recordingMode self); [|discriminate|inversion H; reflexivity].
  cbv zeta in H. bind_step H vm Hvm. bind_step H deriv Hderiv.
  destruct (len _ =? numSweeps self); [|discriminate].
  inversion H; reflexivity.
Qed.

Lemma spikeDetect_sweep_records
  (medfilt : list Q -> Z -> result (list Q))
  (savgol_filter : list Q -> Z -> Z -> result (list Q))
  (polyfit : list Q -> list Q -> fit_outcome) (aV iV : string)
  (clock : nat -> Q) (tick : nat) (self : bAnalysis) (sweepNumber : Z)
  (dDict : option detection) (tick' : nat) (self' : bAnalysis) :
  Forall detected_record (spikeDict self) ->
  spikeDetect__ medfilt savgol_filter polyfit aV iV clock tick self sweepNumber dDict
    = Ok (tick', self') ->
  Forall detected_record (spikeDict self').
Proof.
  intros Hinv H. unfold spikeDetect__ in H. cbv zeta in H.
  bind_step H self1 Hself1. apply rebuildFiltered_spikeDict in Hself1.
  cbn [set_detectionDict spikeDict] in Hself1.
  bind_step H det Hdet. destruct det as [[[self2 type] spikeTimes] errs].
  assert (Hself2 : spikeDict self2 = spikeDict self).
  { rewrite <- Hself1. clear - Hdet.
    destruct (dvdtThreshold _).
    - bind_step Hdet a Ha. bind_step Hdet b Hb. bind_step Hdet c Hc. destruct c.
      bind_step Hdet d Hd. inversion Hdet; reflexivity.
    - bind_step Hdet a Ha. bind_step Hdet b Hb. bind_step Hdet c Hc. destruct c.
      bind_step Hdet d Hd. inversion Hdet; reflexivity.
    - bind_step Hdet a Ha. bind_step Hdet b Hb. bind_step Hdet c Hc. destruct c.
      inversion Hdet; reflexivity. }
  bind_step H x Hx. bind_step H vm Hvm. bind_step H fd Hfd. bind_step H c Hc.
  bind_step H gated Hgated. destruct gated as [times errs'].
  bind_step H sd Hsd. bind_step H report Hreport.
  inversion H; subst. cbn [set_finished set_spikeDict spikeDict].
  rewrite Hself2 in Hsd.
  exact (analyze_spikes_records _ _ _ _ _ _ _ _ _ _ _ _ _ _ _ _ _ _ _ Hinv Hsd).
Qed.

Lemma spikeDetect_sweeps_records
  (medfilt : list Q -> Z -> result (list Q))
  (savgol_filter : list Q -> Z -> Z -> result (list Q))
  (polyfit : list Q -> list Q -> fit_outcome) (aV iV : string)
  (clock : nat -> Q) (dDict : option detection) (sweeps : list Z) :
  forall (tick : nat) (self : bAnalysis) (tick' : nat) (self' : bAnalysis),
  Forall detected_record (spikeDict self) ->
  spikeDetect_sweeps medfilt savgol_filter polyfit aV iV clock tick self sweeps dDict
    = Ok (tick', self') ->
  Forall detected_record (spikeDict self').
Proof.
  induction sweeps as [|sw r IH]; intros tick self tick' self' Hinv H.
  - inversion H; subst. exact Hinv.
  - cbn [spikeDetect_sweeps] in H. bind_step H ts Hts. destruct ts as [t1 self1].
    apply (IH t1 self1 tick' self'); [|exact H].
    exact (spikeDetect_sweep_records _ _ _ _ _ _ _ _ _ _ _ _ Hinv Hts).
Qed.

(** C5: in the spike collection a detection run returns, every record
    with intra-sweep index 0, the first spike of its sweep, has
    [preMinPnt] None and [preMinVal], [isi_pnts], [isi_ms],
    [spikeFreq_hz] and [cycleLength_ms] NaN. *)
Theorem spikeDetect_first_spike_nulls
  (medfilt : list Q -> Z -> result (list Q))
  (savgol_filter : list Q -> Z -> Z -> result (list Q))
  (polyfit : list Q -> list Q -> fit_outcome) (analysisVersion interfaceVersion : string)
  (clock : nat -> Q) (tick : nat) (self : bAnalysis) (dDict : option detection)
  (tick' : nat) (self' : bAnalysis) :
  spikeDetect medfilt savgol_filter polyfit analysisVersion interfaceVersion
    clock tick self dDict = Ok (tick', self') ->
  Forall (fun spike => first_in_sweep spike -> first_spike_nulls spike) (spikeDict self').
Proof.
  unfold spikeDetect. intro H. cbv zeta in H.
  bind_step H ts Hts. destruct ts as [t1 self1]. inversion H; subst.
  apply spikeDetect_sweeps_records in Hts; [|constructor].
  eapply Forall_impl; [|exact Hts]. intros d [_ Hd]. exact Hd.
Qed.

(** The records of a detection run all carry their sweep number, which
    is what the accessors ask of them. *)
Lemma spikeDetect_sweep_is_int
  (medfilt : list Q -> Z -> result (list Q))
  (savgol_filter : list Q -> Z -> Z -> result (list Q))
  (polyfit : list Q -> list Q -> fit_outcome) (analysisVersion interfaceVersion : string)
  (clock : nat -> Q) (tick : nat) (self : bAnalysis) (dDict : option detection)
  (tick' : nat) (self' : bAnalysis) :
  spikeDetect medfilt savgol_filter polyfit analysisVersion interfaceVersion
    clock tick self dDict = Ok (tick', self') ->
  Forall sweep_is_int (spikeDict self').
Proof.
  unfold spikeDetect. intro H. cbv zeta in H.
  bind_step H ts Hts. destruct ts as [t1 self1]. inversion H; subst.
  apply spikeDetect_sweeps_records in Hts; [|constructor].
  eapply Forall_impl; [|exact Hts]. intros d [Hd _]. exact Hd.
Qed.

(** The run on [fresh_recording] returns two spikes of sweep 0; the
    first has the null fields. *)
Lemma spikeDetect_first_spike_nulls_witness :
  Forall (fun spike => first_in_sweep spike -> first_spike_nulls spike)
    (spikeDict (snd analyzed_recording)).
Proof.
  apply (spikeDetect_first_spike_nulls no_medfilt no_savgol line_fit "1" "1"
           example_clock 0 fresh_recording (Some slow_rise_config)
           (fst analyzed_recording) (snd analyzed_recording)).
  vm_compute. reflexivity.
Defined.

Lemma analyzed_recording_spikes :
  map (fun spike => (dict_get spike "sweepSpikeNumber", dict_get spike "thresholdPnt",
                     dict_get spike "preMinPnt", dict_get spike "isi_pnts"))
    (spikeDict (snd analyzed_recording))
  = [ (Some (VInt 0), Some (VInt 3), Some VNone, Some (VFloat FNaN));
      (Some (VInt 1), Some (VInt 8), Some (VInt 8), Some (VInt 5)) ].
Proof. vm_compute. reflexivity. Qed.

(** ** Determinism *)

Lemma bind_assoc {A B C : Type} (m : result A) (f : A -> result B) (g : B -> result C) :
  bind (bind m f) g = bind m (fun a => bind (f a) g).
Proof. destruct m; reflexivity. Qed.

Lemma result_map_bind_ext {A B C : Type} (h : B -> C) (m : result A)
  (k1 k2 : A -> result B) :
  (forall a, result_map h (k1 a) = result_map h (k2 a)) ->
  result_map h (bind m k1) = result_map h (bind m k2).
Proof. intro H. destruct m as [a|e]; [apply H | reflexivity]. Qed.

Ltac unfold_run :=
  unfold computed, spikeDetect__, rebuildFiltered, _getDerivative, _getBaselineSubtract,
    dataPointsPerMs, numSweeps, sweepX, sweepY, sweepC, filteredVm, filteredDeriv,
    getFileName, filtered_arrays in *.

Ltac reduce_state :=
  cbn [_dataPointsPerMs _sweepList _sweepX _sweepY _sweepC _recordingMode _path
       detectionDict dateAnalyzed detectionType _filteredVm _filteredDeriv
       spikeDict spikeClips spikeClips_x spikeClips_x2 dfError _detectionDirty
       set_filtered set_detectionDict set_header set_spikeDict set_finished
       forget_date fst snd] in *.

Ltac same_step :=
  first
    [ reflexivity
    | rewrite !bind_assoc
    | progress cbn [bind result_map]
    | progress reduce_state
    | apply result_map_bind_ext; intro
    | match goal with x : (_ * _)%type |- _ => destruct x end
    | match goal with |- context [if ?c then _ else _] => destruct c end ].

(** One sweep: from two recordings with the same input and the same
    spike records so far, under any two clocks, the run leaves the same
    recording up to the date, or raises the same exception. *)
Lemma spikeDetect_sweep_deterministic
  (medfilt : list Q -> Z -> result (list Q))
  (savgol_filter : list Q -> Z -> Z -> result (list Q))
  (polyfit : list Q -> list Q -> fit_outcome) (aV iV : string)
  (clock1 clock2 : nat -> Q) (tick1 tick2 : nat) (s1 s2 : bAnalysis)
  (sweepNumber : Z) (dDict : detection) :
  same_input s1 s2 ->
  spikeDict s1 = spikeDict s2 ->
  computed (spikeDetect__ medfilt savgol_filter polyfit aV iV clock1 tick1 s1
              sweepNumber (Some dDict))
  = computed (spikeDetect__ medfilt savgol_filter polyfit aV iV clock2 tick2 s2
                sweepNumber (Some dDict)).
Proof.
  intros Hin Hsd. destruct s1, s2. unfold same_input, filtered_arrays in Hin.
  reduce_state. destruct Hin as [H1 [H2 [H3 [H4 [H5 [H6 [H7 H8]]]]]]]. subst.
  unfold_run. reduce_state.
  destruct _recordingMode1.
  - destruct (dvdtThreshold dDict); destruct (doBackupSpikeVm dDict);
      destruct (onlyPeaksAbove_mV dDict); repeat same_step.
  - reflexivity.
  - specialize (H8 eq_refl). inversion H8; subst.
    destruct (dvdtThreshold dDict); destruct (doBackupSpikeVm dDict);
      destruct (onlyPeaksAbove_mV dDict); repeat same_step.
Qed.

Lemma computed_eq (r1 r2 : result (nat * bAnalysis)) :
  computed r1 = computed r2 ->
  (exists e, r1 = Raise e /\ r2 = Raise e) \/
  (exists t1 s1 t2 s2, r1 = Ok (t1, s1) /\ r2 = Ok (t2, s2) /\
                       forget_date s1 = forget_date s2).
Proof.
  unfold computed. destruct r1 as [[t1 s1]|e1], r2 as [[t2 s2]|e2]; cbn [result_map snd];
    intro H; try discriminate.
  - right. exists t1, s1, t2, s2. repeat split. congruence.
  - left. exists e2. split; congruence.
Qed.

Lemma forget_date_same_input (s1 s2 : bAnalysis) :
  forget_date s1 = forget_date s2 -> same_input s1 s2 /\ spikeDict s1 = spikeDict s2.
Proof.
  intro H. unfold same_input, filtered_arrays.
  pose proof (f_equal _dataPointsPerMs H) as E1. pose proof (f_equal _sweepList H) as E2.
  pose proof (f_equal _sweepX H) as E3. pose proof (f_equal _sweepY H) as E4.
  pose proof (f_equal _sweepC H) as E5. pose proof (f_equal _recordingMode H) as E6.
  pose proof (f_equal _path H) as E7. pose proof (f_equal _filteredVm H) as E8.
  pose proof (f_equal _filteredDeriv H) as E9. pose proof (f_equal spikeDict H) as E10.
  cbn [forget_date _dataPointsPerMs _sweepList _sweepX _sweepY _sweepC _recordingMode
       _path _filteredVm _filteredDeriv spikeDict] in *.
  repeat split; try assumption. intros _. congruence.
Qed.

Lemma spikeDetect_sweeps_deterministic
  (medfilt : list Q -> Z -> result (list Q))
  (savgol_filter : list Q -> Z -> Z -> result (list Q))
  (polyfit : list Q -> list Q -> fit_outcome) (aV iV : string)
  (clock1 clock2 : nat -> Q) (dDict : detection) (sweeps : list Z) :
  forall (tick1 tick2 : nat) (s1 s2 : bAnalysis),
  same_input s1 s2 ->
  spikeDict s1 = spikeDict s2 ->
  spike_records (spikeDetect_sweeps medfilt savgol_filter polyfit aV iV clock1 tick1 s1
                   sweeps (Some dDict))
  = spike_records (spikeDetect_sweeps medfilt savgol_filter polyfit aV iV clock2 tick2 s2
                     sweeps (Some dDict)).
Proof.
  induction sweeps as [|sw r IH]; intros tick1 tick2 s1 s2 Hin Hsd.
  - cbn [spikeDetect_sweeps spike_records result_map snd]. rewrite Hsd. reflexivity.
  - cbn [spikeDetect_sweeps].
    destruct (computed_eq _ _
                (spikeDetect_sweep_deterministic medfilt savgol_filter polyfit aV iV
                   clock1 clock2 tick1 tick2 s1 s2 sw dDict Hin Hsd))
      as [[e [-> ->]] | [t1 [s1' [t2 [s2' [-> [-> Hsame]]]]]]].
    + reflexivity.
    + cbn [bind]. apply forget_date_same_input in Hsame. destruct Hsame as [Hin' Hsd'].
      exact (IH t1 t2 s1' s2' Hin' Hsd').
Qed.

(** C2: for a fixed input (raw sweep arrays, sampling rate, recording
    mode, file) and a fixed configuration, two runs of [spikeDetect]
    return the same spike records, or raise the same exception, whatever
    the wall clock reads during each and whatever an earlier analysis
    left cached on the recording. *)
Theorem spikeDetect_deterministic
  (medfilt : list Q -> Z -> result (list Q))
  (savgol_filter : list Q -> Z -> Z -> result (list Q))
  (polyfit : list Q -> list Q -> fit_outcome) (analysisVersion interfaceVersion : string)
  (clock1 clock2 : nat -> Q) (tick1 tick2 : nat) (s1 s2 : bAnalysis)
  (dDict : detection) :
  same_input s1 s2 ->
  spike_records (spikeDetect medfilt savgol_filter polyfit analysisVersion interfaceVersion
                   clock1 tick1 s1 (Some dDict))
  = spike_records (spikeDetect medfilt savgol_filter polyfit analysisVersion
                     interfaceVersion clock2 tick2 s2 (Some dDict)).
Proof.
  intro Hin. unfold spikeDetect. cbv zeta.
  assert (Hin' : same_input (set_spikeDict s1 []) (set_spikeDict s2 [])).
  { unfold same_input, filtered_arrays in *. cbn [set_spikeDict _dataPointsPerMs _sweepList
      _sweepX _sweepY _sweepC _recordingMode _path _filteredVm _filteredDeriv]. exact Hin. }
  assert (Hsweeps : sweepList (set_spikeDict s1 []) = sweepList (set_spikeDict s2 [])).
  { unfold sweepList. cbn [set_spikeDict _sweepList]. exact (proj1 (proj2 Hin)). }
  rewrite Hsweeps.
  pose proof (spikeDetect_sweeps_deterministic medfilt savgol_filter polyfit
                analysisVersion interfaceVersion clock1 clock2 dDict
                (sweepList (set_spikeDict s2 [])) (S tick1) (S tick2)
                (set_spikeDict s1 []) (set_spikeDict s2 []) Hin' eq_refl) as H.
  destruct (spikeDetect_sweeps _ _ _ _ _ clock1 _ _ _ _) as [[t1 r1]|e1];
    destruct (spikeDetect_sweeps _ _ _ _ _ clock2 _ _ _ _) as [[t2 r2]|e2];
    cbn [bind spike_records result_map snd] in *; exact H.
Qed.

(** The first run on [fresh_recording] and a second run, a day later, on
    the recording the first one left. *)
Lemma spikeDetect_deterministic_witness :
  spike_records example_run = spike_records second_run.
Proof.
  apply (spikeDetect_deterministic no_medfilt no_savgol line_fit "1" "1"
           example_clock later_clock 0 7 fresh_recording (snd analyzed_recording)
           slow_rise_config).
  unfold same_input. repeat split; try (vm_compute; reflexivity).
  intro H. vm_compute in H. discriminate.
Defined.

(** The wall clock is read, and kept as the date of the analysis only:
    the two runs differ in it. *)
Lemma dateAnalyzed_records_clock :
  result_map (fun ts => dateAnalyzed (snd ts)) example_run = Ok (Some 2) /\
  result_map (fun ts => dateAnalyzed (snd ts)) second_run = Ok (Some 86409).
Proof. split; vm_compute; reflexivity. Qed.

(** ** Threshold crossings are increasing sample indices *)

Lemma subsequence_refl {A : Type} (l : list A) : subsequence l l.
Proof. induction l; constructor; assumption. Qed.

Lemma subsequence_trans {A : Type} (a b c : list A) :
  subsequence a b -> subsequence b c -> subsequence a c.
Proof.
  intros Hab Hbc. revert a Hab. induction Hbc; intros a Hab.
  - exact Hab.
  - inversion Hab; subst.
    + constructor. apply IHHbc. assumption.
    + apply subsequence_drop. apply IHHbc. assumption.
  - apply subsequence_drop. apply IHHbc. assumption.
Qed.

Lemma subsequence_Forall {A : Type} (P : A -> Prop) (k l : list A) :
  subsequence k l -> Forall P l -> Forall P k.
Proof.
  induction 1; intro HF.
  - constructor.
  - inversion HF; subst. constructor; auto.
  - inversion HF; subst. auto.
Qed.

Lemma subsequence_In {A : Type} (k l : list A) (x : A) :
  subsequence k l -> In x k -> In x l.
Proof.
  induction 1; intro Hin.
  - exact Hin.
  - destruct Hin as [<- | Hin]; [left; reflexivity | right; auto].
  - right; auto.
Qed.

Lemma subsequence_filter {A : Type} (p : A -> bool) (l : list A) :
  subsequence (filter p l) l.
Proof.
  induction l as [|a r IH]; cbn [filter]; [constructor|].
  destruct (p a); constructor; exact IH.
Qed.

Lemma subsequence_length {A : Type} (k l : list A) :
  subsequence k l -> (List.length k <= List.length l)%nat.
Proof. induction 1; cbn [List.length]; lia. Qed.

(** For a transitive relation, neighbours in relation put the head in
    relation with every later element. *)
Lemma neighbours_above (R : Z -> Z -> Prop) (l : list Z) :
  (forall a b c, R a b -> R b c -> R a c) ->
  forall a, neighbours R (a :: l) -> Forall (R a) l.
Proof.
  intro Htrans. induction l as [|b r IH]; intros a H; [constructor|].
  destruct H as [Hab Hr]. constructor; [exact Hab|].
  eapply Forall_impl; [|exact (IH b Hr)]. cbv beta. intros c Hbc.
  exact (Htrans a b c Hab Hbc).
Qed.

Lemma neighbours_tail (R : Z -> Z -> Prop) (a : Z) (l : list Z) :
  neighbours R (a :: l) -> neighbours R l.
Proof. destruct l; [trivial|]. intros [_ H]. exact H. Qed.

Lemma neighbours_cons (R : Z -> Z -> Prop) (a : Z) (l : list Z) :
  Forall (R a) l -> neighbours R l -> neighbours R (a :: l).
Proof.
  destruct l as [|b r]; [trivial|]. intros HF Hl. inversion HF; subst.
  split; assumption.
Qed.

Lemma subsequence_neighbours (R : Z -> Z -> Prop) (k l : list Z) :
  (forall a b c, R a b -> R b c -> R a c) ->
  subsequence k l -> neighbours R l -> neighbours R k.
Proof.
  intro Htrans. induction 1; intro Hl.
  - exact I.
  - apply neighbours_cons.
    + eapply subsequence_Forall; [eassumption|]. apply neighbours_above; assumption.
    + apply IHsubsequence. eapply neighbours_tail. exact Hl.
  - apply IHsubsequence. eapply neighbours_tail. exact Hl.
Qed.

Lemma subsequence_increasing (k l : list Z) :
  subsequence k l -> increasing l -> increasing k.
Proof. apply subsequence_neighbours. intros; lia. Qed.

Lemma where_from_range {A : Type} (p : A -> bool) (l : list A) : forall i,
  Forall (fun k => i <= k < i + len l) (where_from p i l).
Proof.
  induction l as [|x r IH]; intro i; cbn [where_from]; [constructor|].
  rewrite len_cons. pose proof (len_nonneg r) as Hr.
  assert (Hrest : Forall (fun k => i <= k < i + (len r + 1)) (where_from p (i + 1) r)).
  { eapply Forall_impl; [|exact (IH (i + 1))]. cbv beta. intros; lia. }
  destruct (p x); [constructor; [lia|]|]; exact Hrest.
Qed.

Lemma where_from_increasing {A : Type} (p : A -> bool) (l : list A) : forall i,
  increasing (where_from p i l).
Proof.
  unfold increasing.
  induction l as [|x r IH]; intro i; cbn [where_from]; [exact I|].
  destruct (p x); [|apply IH].
  apply neighbours_cons; [|apply IH].
  eapply Forall_impl; [|exact (where_from_range p r (i + 1))]. cbv beta. intros; lia.
Qed.

Lemma starts_subsequence (Is : list Z) : forall prev, subsequence (starts prev Is) Is.
Proof.
  induction Is as [|x r IH]; intro prev; cbn [starts]; [constructor|].
  destruct (Znonzero _); constructor; apply IH.
Qed.

Lemma threshold_crossings_subsequence (signal : list Q) (threshold : Q) :
  subsequence (threshold_crossings signal threshold)
    (np_where (fun v => Qgtb v threshold) signal).
Proof. rewrite threshold_crossings_starts. apply starts_subsequence. Qed.

Lemma where_from_supra {A : Type} (p : A -> bool) (l : list A) : forall i,
  Forall (supra_at p i l) (where_from p i l).
Proof.
  induction l as [|x r IH]; intro i; cbn [where_from]; [constructor|].
  assert (Hrest : Forall (supra_at p i (x :: r)) (where_from p (i + 1) r)).
  { eapply Forall_impl; [|exact (IH (i + 1))]. intros k Hk.
    apply supra_at_cons. right. exact Hk. }
  destruct (p x) eqn:Hp; [constructor; [|exact Hrest] | exact Hrest].
  apply supra_at_cons. left. split; [reflexivity | exact Hp].
Qed.

Lemma threshold_crossings_facts (signal : list Q) (threshold : Q) :
  increasing (threshold_crossings signal threshold) /\
  Forall (fun k => 0 <= k < len signal) (threshold_crossings signal threshold) /\
  Forall (supra signal threshold) (threshold_crossings signal threshold).
Proof.
  pose proof (threshold_crossings_subsequence signal threshold) as Hsub.
  split; [|split].
  - eapply subsequence_increasing; [exact Hsub|]. apply where_from_increasing.
  - eapply subsequence_Forall; [exact Hsub|].
    exact (where_from_range _ signal 0).
  - eapply subsequence_Forall; [exact Hsub|]. apply where_from_supra.
Qed.

(** X1: the candidate crossings of a trace come out in strictly
    increasing order (so without repetition), and each one is a valid
    sample index of the trace. *)
Theorem threshold_crossings_increasing_in_range (signal : list Q) (threshold : Q) :
  increasing (threshold_crossings signal threshold) /\
  Forall (fun k => 0 <= k < len signal) (threshold_crossings signal threshold).
Proof.
  destruct (threshold_crossings_facts signal threshold) as [H1 [H2 _]].
  split; assumption.
Qed.

(** ** Refractory collapsing: what is kept *)

Lemma refractory_marks_subsequence (thr : Q) (rest : list Z) : forall lastGood,
  subsequence (filter Znonzero (refractory_marks thr lastGood rest)) rest.
Proof.
  induction rest as [|t r IH]; intro lastGood; cbn [refractory_marks filter]; [constructor|].
  destruct (Qltb _ thr); cbn [filter].
  - change (Znonzero 0) with false. cbv iota. constructor. apply IH.
  - destruct (Znonzero t); constructor; apply IH.
Qed.

Lemma refractory_marked_subsequence (dataPointsPerMs : Z) (refractory_ms : Q)
  (spikeTimes0 : list Z) :
  subsequence (filter Znonzero (refractory_marked dataPointsPerMs refractory_ms spikeTimes0))
    spikeTimes0.
Proof.
  destruct spikeTimes0 as [|t0 r]; cbn [refractory_marked filter]; [constructor|].
  destruct (Znonzero t0); constructor; apply refractory_marks_subsequence.
Qed.

Lemma filter_Znonzero_no_zero (l : list Z) : ~ In 0 (filter Znonzero l).
Proof. intro H. apply filter_In in H. destruct H as [_ H]. discriminate. Qed.

Lemma throwOutRefractory_no_errors {E : Type} (dataPointsPerMs : Z) (spikeTimes0 : list Z)
  (refractory_ms : Q) :
  _throwOutRefractory (E := E) dataPointsPerMs spikeTimes0 None refractory_ms
  = Ok (filter Znonzero (refractory_marked dataPointsPerMs refractory_ms spikeTimes0), None).
Proof. reflexivity. Qed.


(** *** The error list stays aligned *)

Definition timed_nonzero {E : Type} (te : Z * E) : bool := Znonzero (fst te).

Lemma py_index_app_len {A : Type} (pre : list A) (x : A) (post : list A) :
  py_index (pre ++ x :: post) (len pre) = Ok x.
Proof.
  unfold py_index. pose proof (len_nonneg pre) as Hp.
  destruct (len pre <? 0) eqn:E1; [apply Z.ltb_lt in E1; lia|].
  rewrite E1. unfold len. rewrite Nat2Z.id.
  rewrite nth_error_app2 by lia. rewrite Nat.sub_diag. reflexivity.
Qed.

Lemma len_app_one {A : Type} (pre : list A) (x : A) : len (pre ++ [x]) = len pre + 1.
Proof. unfold len. rewrite length_app. cbn [List.length]. lia. Qed.

Lemma pick_errors_combine {E : Type} (marked : list Z) : forall (pre es : list E),
  List.length es = List.length marked ->
  pick_errors (pre ++ es) (len pre) marked
  = Ok (map snd (filter timed_nonzero (combine marked es))).
Proof.
  induction marked as [|t r IH]; intros pre es Hlen.
  - reflexivity.
  - destruct es as [|e es']; [discriminate|]. cbn [List.length] in Hlen.
    cbn [pick_errors combine filter]. unfold timed_nonzero at 1. cbn [fst].
    assert (Hrec : pick_errors (pre ++ e :: es') (len pre + 1) r
                   = Ok (map snd (filter timed_nonzero (combine r es')))).
    { rewrite <- (len_app_one pre e).
      replace (pre ++ e :: es')%list with ((pre ++ [e]) ++ es')%list
        by (rewrite <- app_assoc; reflexivity).
      apply IH. lia. }
    destruct (Znonzero t).
    + rewrite py_index_app_len. cbn [bind]. rewrite Hrec. reflexivity.
    + exact Hrec.
Qed.

Lemma filter_combine_fst {E : Type} (marked : list Z) : forall (es : list E),
  List.length es = List.length marked ->
  map fst (filter timed_nonzero (combine marked es)) = filter Znonzero marked.
Proof.
  induction marked as [|t r IH]; intros es Hlen; [reflexivity|].
  destruct es as [|e es']; [discriminate|]. cbn [List.length] in Hlen.
  cbn [combine filter]. unfold timed_nonzero at 1. cbn [fst].
  destruct (Znonzero t); cbn [map fst]; rewrite IH by lia; reflexivity.
Qed.

Lemma combine_fst_snd {A B : Type} (l : list (A * B)) :
  combine (map fst l) (map snd l) = l.
Proof. induction l as [|[a b] r IH]; [reflexivity|]. cbn. rewrite IH. reflexivity. Qed.

Lemma refractory_marks_pairs {E : Type} (thr : Q) (rest : list Z) :
  forall (lastGood : Z) (es : list E),
  subsequence (filter timed_nonzero (combine (refractory_marks thr lastGood rest) es))
    (combine rest es).
Proof.
  induction rest as [|t r IH]; intros lastGood es; [constructor|].
  destruct es as [|e es'].
  - cbn [refractory_marks]. destruct (Qltb _ thr); constructor.
  - cbn [refractory_marks]. destruct (Qltb _ thr); cbn [combine filter];
      unfold timed_nonzero at 1; cbn [fst].
    + change (Znonzero 0) with false. cbv iota. constructor. apply IH.
    + destruct (Znonzero t); constructor; apply IH.
Qed.

Lemma refractory_marked_pairs {E : Type} (dataPointsPerMs : Z) (refractory_ms : Q)
  (spikeTimes0 : list Z) (es : list E) :
  subsequence
    (filter timed_nonzero
       (combine (refractory_marked dataPointsPerMs refractory_ms spikeTimes0) es))
    (combine spikeTimes0 es).
Proof.
  destruct spikeTimes0 as [|t0 r]; cbn [refractory_marked combine filter]; [constructor|].
  destruct es as [|e es']; cbn [combine filter]; [constructor|].
  unfold timed_nonzero at 1. cbn [fst].
  destruct (Znonzero t0); constructor; apply refractory_marks_pairs.
Qed.

Lemma refractory_marks_length (thr : Q) (rest : list Z) : forall lastGood,
  List.length (refractory_marks thr lastGood rest) = List.length rest.
Proof.
  induction rest as [|t r IH]; intro lastGood; cbn [refractory_marks]; [reflexivity|].
  destruct (Qltb _ thr); cbn [List.length]; rewrite IH; reflexivity.
Qed.

Lemma refractory_marked_length (dataPointsPerMs : Z) (refractory_ms : Q)
  (spikeTimes0 : list Z) :
  List.length (refractory_marked dataPointsPerMs refractory_ms spikeTimes0)
  = List.length spikeTimes0.
Proof.
  destruct spikeTimes0 as [|t0 r]; cbn [refractory_marked List.length]; [reflexivity|].
  rewrite refractory_marks_length. reflexivity.
Qed.

(** With one error slot per spike time the collapse returns, and the
    pairs (time, slot) it keeps are a selection of the given pairs. *)
Lemma throwOutRefractory_pairs {E : Type} (dataPointsPerMs : Z) (spikeTimes0 : list Z)
  (errs : list E) (refractory_ms : Q) :
  List.length errs = List.length spikeTimes0 ->
  exists kept es,
    _throwOutRefractory dataPointsPerMs spikeTimes0 (Some errs) refractory_ms
      = Ok (kept, Some es) /\
    kept = filter Znonzero (refractory_marked dataPointsPerMs refractory_ms spikeTimes0) /\
    List.length es = List.length kept /\
    subsequence (combine kept es) (combine spikeTimes0 errs).
Proof.
  intro Hlen. unfold _throwOutRefractory.
  set (marked := refractory_marked dataPointsPerMs refractory_ms spikeTimes0).
  assert (Hm : List.length errs = List.length marked)
    by (unfold marked; rewrite refractory_marked_length; exact Hlen).
  pose proof (pick_errors_combine marked [] errs Hm) as Hpick.
  cbn [app] in Hpick. change (len (@nil E)) with 0 in Hpick.
  rewrite Hpick. cbn [bind].
  eexists. eexists. split; [reflexivity|]. split; [reflexivity|].
  rewrite <- (filter_combine_fst marked errs Hm). split.
  - rewrite !length_map. reflexivity.
  - rewrite combine_fst_snd. apply refractory_marked_pairs.
Qed.

(** X3: given one error slot per spike time, the refractory collapse
    returns one slot per kept time, and every kept time still carries
    the slot it came with. *)
Theorem throwOutRefractory_errors_aligned (E : Type) (dataPointsPerMs : Z)
  (spikeTimes0 : list Z) (errs : list E) (refractory_ms : Q) :
  List.length errs = List.length spikeTimes0 ->
  exists kept es,
    _throwOutRefractory dataPointsPerMs spikeTimes0 (Some errs) refractory_ms
      = Ok (kept, Some es) /\
    List.length es = List.length kept /\
    subsequence (combine kept es) (combine spikeTimes0 errs).
Proof.
  intro Hlen.
  destruct (throwOutRefractory_pairs dataPointsPerMs spikeTimes0 errs refractory_ms Hlen)
    as [kept [es [H1 [_ [H2 H3]]]]].
  exists kept, es. repeat split; assumption.
Qed.

Lemma throwOutRefractory_errors_aligned_witness :
  exists kept es,
    _throwOutRefractory 1 [4; 7; 10] (Some ["a"; "b"; "c"]%string) 6
      = Ok (kept, Some es) /\
    List.length es = List.length kept /\
    subsequence (combine kept es) (combine [4; 7; 10] ["a"; "b"; "c"]%string).
Proof.
  apply (throwOutRefractory_errors_aligned string 1 [4; 7; 10] ["a"; "b"; "c"]%string 6).
  reflexivity.
Defined.

(** *** Collapsing twice *)

Lemma refractory_marks_clean (thr : Q) (rest : list Z) : forall lastGood,
  neighbours (fun a b => (thr <= inject_Z (b - a))%Q) (lastGood :: rest) ->
  refractory_marks thr lastGood rest = rest.
Proof.
  induction rest as [|t r IH]; intros lastGood H; [reflexivity|].
  cbn [refractory_marks]. destruct H as [Hgap Hr].
  apply Qltb_false in Hgap. rewrite Hgap. rewrite (IH t Hr). reflexivity.
Qed.

Lemma filter_Znonzero_id (l : list Z) : ~ In 0 l -> filter Znonzero l = l.
Proof.
  induction l as [|a r IH]; intro H; [reflexivity|]. cbn [filter].
  assert (Ha : Znonzero a = true)
    by (apply Znonzero_true; intro Hc; apply H; left; exact Hc).
  rewrite Ha. rewrite IH; [reflexivity|]. intro Hc. apply H. right. exact Hc.
Qed.

Lemma refractory_marked_clean (dataPointsPerMs : Z) (refractory_ms : Q) (l : list Z) :
  neighbours (fun a b => (float_mul (inject_Z dataPointsPerMs) refractory_ms
                          <= inject_Z (b - a))%Q) l ->
  refractory_marked dataPointsPerMs refractory_ms l = l.
Proof.
  destruct l as [|t0 r]; [reflexivity|]. intro H. cbn [refractory_marked].
  rewrite (refractory_marks_clean _ r t0 H). reflexivity.
Qed.

(** X4: for a refractory threshold (the float product of sampling rate
    and refractory period) that is not negative, collapsing a second
    time changes nothing: the kept spike times are all kept again. *)
Theorem throwOutRefractory_idempotent (E : Type) (dataPointsPerMs : Z)
  (spikeTimes0 : list Z) (refractory_ms : Q) (kept : list Z) :
  (0 <= float_mul (inject_Z dataPointsPerMs) refractory_ms)%Q ->
  _throwOutRefractory (E := E) dataPointsPerMs spikeTimes0 None refractory_ms
    = Ok (kept, None) ->
  _throwOutRefractory (E := E) dataPointsPerMs kept None refractory_ms = Ok (kept, None).
Proof.
  intros Hthr H. rewrite throwOutRefractory_no_errors in H. inversion H as [Hk]; clear H.
  rewrite throwOutRefractory_no_errors.
  pose proof (refractory_marked_gaps dataPointsPerMs refractory_ms spikeTimes0 Hthr) as Hgaps.
  rewrite (refractory_marked_clean _ _ _ Hgaps).
  rewrite filter_Znonzero_id at 1 by apply filter_Znonzero_no_zero. reflexivity.
Qed.

Lemma throwOutRefractory_idempotent_witness :
  _throwOutRefractory (E := unit) 1 [4; 10] None 6 = Ok ([4; 10], None).
Proof.
  apply (throwOutRefractory_idempotent unit 1 [4; 7; 10] 6 [4; 10]);
    [vm_compute; discriminate | reflexivity].
Defined.

(** ** Slices and extrema: lengths and positions *)

Lemma clip_bound_range (n i : Z) : 0 <= n -> 0 <= clip_bound n i <= n.
Proof.
  intro Hn. unfold clip_bound.
  destruct (i <? 0) eqn:E; [apply Z.ltb_lt in E | apply Z.ltb_ge in E]; lia.
Qed.

Lemma len_firstn_skipn {A : Type} (l : list A) (a n : nat) :
  (a <= List.length l)%nat ->
  List.length (firstn n (skipn a l)) = Nat.min n (List.length l - a).
Proof. intro Ha. rewrite length_firstn, length_skipn. reflexivity. Qed.

Lemma len_py_slice {A : Type} (l : list A) (start stop : Z) :
  len (py_slice l start stop)
  = Z.max 0 (clip_bound (len l) stop - clip_bound (len l) start).
Proof.
  unfold py_slice. pose proof (len_nonneg l) as Hl.
  pose proof (clip_bound_range (len l) start Hl) as Ha.
  pose proof (clip_bound_range (len l) stop Hl) as Hb.
  set (a := clip_bound (len l) start) in *. set (b := clip_bound (len l) stop) in *.
  unfold len in *. rewrite length_firstn, length_skipn. lia.
Qed.

(** The [k]-th element of a slice. *)
Lemma nth_error_py_slice {A : Type} (l : list A) (start stop : Z) (k : nat) :
  Z.of_nat k < len (py_slice l start stop) ->
  nth_error (py_slice l start stop) k
  = nth_error l (Z.to_nat (clip_bound (len l) start) + k).
Proof.
  rewrite len_py_slice. intro Hk. unfold py_slice.
  rewrite nth_error_firstn.
  destruct (Nat.ltb_spec k (Z.to_nat (clip_bound (len l) stop - clip_bound (len l) start)));
    [|lia].
  apply nth_error_skipn.
Qed.

Lemma arg_best_range (better : Q -> Q -> bool) (l : list Q) : forall best bi i,
  0 <= bi < i -> 0 <= arg_best better best bi i l < i + len l.
Proof.
  induction l as [|x r IH]; intros best bi i Hbi; cbn [arg_best].
  - change (len (@nil Q)) with 0. lia.
  - rewrite len_cons. destruct (better x best).
    + pose proof (IH x i (i + 1) ltac:(lia)). lia.
    + pose proof (IH best bi (i + 1) ltac:(lia)). lia.
Qed.

Lemma np_argmax_range (l : list Q) (p : Z) : np_argmax l = Ok p -> 0 <= p < len l.
Proof.
  destruct l as [|x r]; [discriminate|]. intro H. inversion H; subst.
  rewrite len_cons. pose proof (arg_best_range Qgtb r x 0 1 ltac:(lia)). lia.
Qed.

Lemma np_argmin_range (l : list Q) (p : Z) : np_argmin l = Ok p -> 0 <= p < len l.
Proof.
  destruct l as [|x r]; [discriminate|]. intro H. inversion H; subst.
  rewrite len_cons. pose proof (arg_best_range Qltb r x 0 1 ltac:(lia)). lia.
Qed.



Lemma py_index_in_range {A : Type} (l : list A) (i : Z) :
  0 <= i < len l -> exists x, py_index l i = Ok x /\ nth_error l (Z.to_nat i) = Some x.
Proof.
  intro Hi. unfold py_index.
  destruct (i <? 0) eqn:E1; [apply Z.ltb_lt in E1; lia|]. rewrite E1.
  destruct (nth_error l (Z.to_nat i)) as [x|] eqn:E2.
  - exists x. split; reflexivity.
  - apply nth_error_None in E2. unfold len in Hi. lia.
Qed.

Lemma py_index_Ok_range {A : Type} (l : list A) (i : Z) (x : A) :
  py_index l i = Ok x -> - len l <= i < len l.
Proof.
  unfold py_index. intro H. pose proof (len_nonneg l) as Hl.
  destruct (i <? 0) eqn:E1.
  - apply Z.ltb_lt in E1. destruct (i + len l <? 0) eqn:E2; [discriminate|].
    apply Z.ltb_ge in E2. lia.
  - rewrite E1 in H. apply Z.ltb_ge in E1.
    destruct (nth_error l (Z.to_nat i)) eqn:E2; [|discriminate].
    assert (Hs : nth_error l (Z.to_nat i) <> None) by congruence.
    apply nth_error_Some in Hs. unfold len. lia.
Qed.

Lemma py_index_empty {A : Type} (i : Z) : py_index (@nil A) i = Raise IndexError.
Proof.
  unfold py_index. destruct (_ <? 0); [reflexivity|].
  destruct (Z.to_nat _); reflexivity.
Qed.


(** A backward window from a sample that is not negative holds at most
    as many samples as there are before it, and at most its width. *)
Lemma backward_window (l : list Q) (s w : Z) :
  0 <= s ->
  len (py_slice l (s - w) s) <= s /\ (0 <= w -> len (py_slice l (s - w) s) <= w).
Proof.
  intro Hs. rewrite len_py_slice. pose proof (len_nonneg l) as Hl. unfold clip_bound.
  destruct (s <? 0) eqn:E1; [apply Z.ltb_lt in E1; lia|].
  destruct (s - w <? 0) eqn:E2; [apply Z.ltb_lt in E2 | apply Z.ltb_ge in E2]; lia.
Qed.

Lemma py_slice_empty_window {A : Type} (l : list A) (s : Z) : py_slice l s (s + 0) = [].
Proof.
  unfold py_slice. rewrite Z.add_0_r, Z.sub_diag. reflexivity.
Qed.

Lemma where_from_head_range {A : Type} (p : A -> bool) (l : list A) (k : Z) (more : list Z) :
  np_where p l = k :: more -> 0 <= k < len l.
Proof.
  intro H. pose proof (where_from_range p l 0) as HF. unfold np_where in H.
  rewrite H in HF. inversion HF; subst. lia.
Qed.

Lemma len_rev {A : Type} (l : list A) : len (rev l) = len l.
Proof. unfold len. rewrite length_rev. reflexivity. Qed.

(** ** Derivative detection: where the onsets lie *)

Lemma dvdt_backup_one_range (dataPointsPerMs : Z) (pct : Q) (fd : list Q)
  (window_pnts i s : Z) :
  0 <= s ->
  0 <= fst (dvdt_backup_one dataPointsPerMs pct fd window_pnts i s) <= s /\
  (0 <= window_pnts ->
   s - window_pnts <= fst (dvdt_backup_one dataPointsPerMs pct fd window_pnts i s)).
Proof.
  intro Hs. destruct (backward_window fd s window_pnts Hs) as [Hb1 Hb2].
  unfold dvdt_backup_one. cbv zeta.
  destruct (np_argmax _) as [p|e]; cbn [bind fst]; [|lia].
  destruct (py_index fd (p + s)) as [v|e]; cbn [bind fst]; [|lia].
  destruct (np_where _ (np_flip _)) as [|k more] eqn:Hw; cbn [fst]; [lia|].
  apply where_from_head_range in Hw. unfold np_flip in Hw. rewrite len_rev in Hw. lia.
Qed.

(** X5: the onset that the backward search returns for a crossing that
    is not negative is never negative and never after the crossing, and
    for a window that is not negative it is never before the window. *)
Theorem dvdt_backup_one_onset_range (dataPointsPerMs : Z) (pct : Q) (fd : list Q)
  (window_pnts i s : Z) :
  0 <= s ->
  0 <= fst (dvdt_backup_one dataPointsPerMs pct fd window_pnts i s) <= s /\
  (0 <= window_pnts ->
   s - window_pnts <= fst (dvdt_backup_one dataPointsPerMs pct fd window_pnts i s)).
Proof. apply dvdt_backup_one_range. Qed.

Lemma dvdt_backup_one_onset_range_witness :
  0 <= fst (dvdt_backup_one 1 (1 # 2) slow_rise_deriv 3 1 10) <= 10 /\
  (0 <= 3 -> 10 - 3 <= fst (dvdt_backup_one 1 (1 # 2) slow_rise_deriv 3 1 10)).
Proof. apply (dvdt_backup_one_onset_range 1 (1 # 2) slow_rise_deriv 3 1 10). lia. Defined.


Lemma dvdt_backup_one_no_window (dataPointsPerMs : Z) (pct : Q) (fd : list Q) (i s : Z) :
  dvdt_backup_one dataPointsPerMs pct fd 0 i s = (s, None).
Proof.
  unfold dvdt_backup_one. cbv zeta. rewrite py_slice_empty_window. reflexivity.
Qed.

Lemma dvdt_backup_no_window (dataPointsPerMs : Z) (pct : Q) (fd : list Q)
  (spikeTimes0 : list Z) : forall i,
  dvdt_backup dataPointsPerMs pct fd 0 i spikeTimes0 = (spikeTimes0, []).
Proof.
  induction spikeTimes0 as [|s r IH]; intro i; [reflexivity|].
  cbn [dvdt_backup]. rewrite dvdt_backup_one_no_window, IH. reflexivity.
Qed.



Lemma peak_gate_no_window (sweepY : list Q) (mv : Q) (s : Z) (r : list Z) :
  peak_gate sweepY 0 mv (s :: r) = Raise ValueError.
Proof. cbn [peak_gate]. rewrite py_slice_empty_window. reflexivity. Qed.



(** X7: with a peak window that rounds to no sample, the derivative
    detector raises [ValueError] as soon as the derivative crosses the
    threshold once. *)
Theorem spikeDetect_dvdt_empty_peak_window (dataPointsPerMs : Z) (dDict : detection)
  (filteredDeriv sweepY : list Q) (thr : Q) :
  dvdtThreshold dDict = Num thr ->
  py_round (inject_Z dataPointsPerMs * peakWindow_ms dDict)%Q = 0 ->
  threshold_crossings filteredDeriv thr <> [] ->
  _spikeDetect_dvdt dataPointsPerMs dDict filteredDeriv sweepY = Raise ValueError.
Proof.
  intros Hthr Hpw Hne. unfold _spikeDetect_dvdt. rewrite Hthr, Hpw. cbn [bind].
  destruct (threshold_crossings filteredDeriv thr) as [|s r]; [contradiction|].
  rewrite peak_gate_no_window. reflexivity.
Qed.

Lemma spikeDetect_dvdt_empty_peak_window_witness :
  _spikeDetect_dvdt 1 (with_windows slow_rise_config 0 3) slow_rise_deriv slow_rise_vm
  = Raise ValueError.
Proof.
  apply (spikeDetect_dvdt_empty_peak_window 1 (with_windows slow_rise_config 0 3)
           slow_rise_deriv slow_rise_vm 9);
    [reflexivity | reflexivity | vm_compute; discriminate].
Defined.

(** ** A backward derivative window of no sample *)

Lemma rebuildFiltered_set_filtered
  (medfilt : list Q -> Z -> result (list Q))
  (savgol_filter : list Q -> Z -> Z -> result (list Q))
  (self self' : bAnalysis) :
  rebuildFiltered medfilt savgol_filter self = Ok self' ->
  exists vm deriv, self' = set_filtered self vm deriv.
Proof.
  unfold rebuildFiltered, _getDerivative, _getBaselineSubtract. intro H.
  destruct (_recordingMode self); [|discriminate|].
  - cbv zeta in H. bind_step H vm Hvm. bind_step H deriv Hderiv.
    destruct (len _ =? numSweeps self); [|discriminate].
    inversion H. eexists. eexists. reflexivity.
  - inversion H; subst. exists (_filteredVm self'), (_filteredDeriv self').
    destruct self'. reflexivity.
Qed.

Lemma peaks_above_no_slots (filteredVm : list Q) (peakWindow_pnts : Z) (floor : Q)
  (spikeTimes : list Z) : forall (i : Z) (ts : list Z) (es : list (option errorDict)),
  peaks_above filteredVm peakWindow_pnts floor [] i spikeTimes = Ok (ts, es) ->
  ts = [] /\ es = [].
Proof.
  induction spikeTimes as [|s r IH]; intros i ts es H.
  - inversion H; subst. split; reflexivity.
  - cbn [peaks_above] in H. bind_step H p Hp. bind_step H m Hm.
    destruct (Qgtb m floor).
    + rewrite py_index_empty in H. discriminate.
    + exact (IH _ _ _ H).
Qed.

Lemma analyze_spike_needs_slot (polyfit : list Q -> list Q -> fit_outcome)
  (aV iV : string) (file : value) (dpms : Z) (dDict : detection) (type : string)
  (sweepNumber : Z) (sweepX vm fd sweepC : list Q) (pw aw : Z) (prev : list dict)
  (i s : Z) (sd : list dict) :
  analyze_spike polyfit aV iV file dpms dDict type sweepNumber sweepX vm fd sweepC
    [] pw aw prev i s <> Ok sd.
Proof.
  unfold analyze_spike. intro H.
  bind_step H peakPnt HpeakPnt. bind_step H peakVal HpeakVal.
  rewrite py_index_empty in H. discriminate.
Qed.

Lemma analyze_spikes_no_slots (polyfit : list Q -> list Q -> fit_outcome)
  (aV iV : string) (file : value) (dpms : Z) (dDict : detection) (type : string)
  (sweepNumber : Z) (sweepX vm fd sweepC : list Q) (pw aw : Z) (sd0 : list dict)
  (i : Z) (spikeTimes : list Z) (sd : list dict) :
  analyze_spikes polyfit aV iV file dpms dDict type sweepNumber sweepX vm fd sweepC
    [] pw aw sd0 i spikeTimes = Ok sd ->
  spikeTimes = [] /\ sd = sd0.
Proof.
  destruct spikeTimes as [|s r]; intro H.
  - inversion H; subst. split; reflexivity.
  - cbn [analyze_spikes] in H. bind_step H sd1 Hsd1.
    exfalso. exact (analyze_spike_needs_slot _ _ _ _ _ _ _ _ _ _ _ _ _ _ _ _ _ _ Hsd1).
Qed.

Lemma spikeDetect_dvdt_no_window (dataPointsPerMs : Z) (dDict : detection)
  (filteredDeriv sweepY : list Q) (spikeTimes : list Z) (errs : list (option errorDict)) :
  py_round (dvdtPreWindow_ms dDict * inject_Z dataPointsPerMs)%Q = 0 ->
  _spikeDetect_dvdt dataPointsPerMs dDict filteredDeriv sweepY = Ok (spikeTimes, errs) ->
  errs = [].
Proof.
  intros Hw H. unfold _spikeDetect_dvdt in H. rewrite Hw in H.
  bind_step H c Hc. bind_step H g Hg. bind_step H k Hk. destruct k as [kept ign].
  rewrite dvdt_backup_no_window in H. inversion H; reflexivity.
Qed.

(** X8: in derivative mode with a backward window that rounds to no
    sample, the detection of a sweep that returns has recorded no spike:
    no error slot is made for any onset, and the first spike to analyze
    raises. *)
Theorem spikeDetect_no_backward_window_records_nothing
  (medfilt : list Q -> Z -> result (list Q))
  (savgol_filter : list Q -> Z -> Z -> result (list Q))
  (polyfit : list Q -> list Q -> fit_outcome) (analysisVersion interfaceVersion : string)
  (clock : nat -> Q) (tick : nat) (self : bAnalysis) (sweepNumber : Z)
  (dDict : detection) (thr : Q) (tick' : nat) (self' : bAnalysis) :
  dvdtThreshold dDict = Num thr ->
  py_round (dvdtPreWindow_ms dDict * inject_Z (dataPointsPerMs self))%Q = 0 ->
  spikeDetect__ medfilt savgol_filter polyfit analysisVersion interfaceVersion
    clock tick self sweepNumber (Some dDict) = Ok (tick', self') ->
  spikeDict self' = spikeDict self.
Proof.
  intros Hthr Hw H. unfold spikeDetect__ in H. cbv zeta in H.
  bind_step H self1 Hself1.
  apply rebuildFiltered_set_filtered in Hself1. destruct Hself1 as [vm0 [deriv0 ->]].
  rewrite Hthr in H. bind_step H det Hdet.
  destruct det as [[[self2 type] spikeTimes] errs].
  bind_step Hdet deriv Hderiv. bind_step Hdet y Hy. bind_step Hdet found Hfound.
  destruct found as [times0 errs0]. inversion Hdet; subst; clear Hdet.
  apply spikeDetect_dvdt_no_window in Hfound; [|exact Hw]. subst errs.
  bind_step H x Hx. bind_step H vm Hvm. bind_step H fd Hfd. bind_step H c Hc.
  bind_step H gated Hgated. destruct gated as [times errs'].
  bind_step H sd Hsd. bind_step H report Hreport.
  inversion H; subst; clear H. cbn [set_finished set_spikeDict spikeDict].
  assert (Herrs : errs' = []).
  { destruct (onlyPeaksAbove_mV dDict).
    - apply peaks_above_no_slots in Hgated. apply Hgated.
    - inversion Hgated; reflexivity. }
  subst errs'. apply analyze_spikes_no_slots in Hsd. destruct Hsd as [_ ->].
  reflexivity.
Qed.

Lemma spikeDetect_no_backward_window_records_nothing_witness :
  spikeDict (snd quiet_analyzed) = spikeDict quiet_recording.
Proof.
  apply (spikeDetect_no_backward_window_records_nothing no_medfilt no_savgol line_fit
           "1" "1" example_clock 0 quiet_recording 0 (with_windows slow_rise_config 3 0) 9
           (fst quiet_analyzed) (snd quiet_analyzed));
    [reflexivity | reflexivity | vm_compute; reflexivity].
Defined.

(** On [fresh_recording], where two spikes are found, the same
    configuration makes the run raise. *)
Lemma spikeDetect_no_backward_window_raises :
  spikeDetect no_medfilt no_savgol line_fit "1" "1" example_clock 0 fresh_recording
    (Some (with_windows slow_rise_config 3 0)) = Raise IndexError.
Proof. vm_compute. reflexivity. Qed.

(** ** Amplitude detection always returns *)

Lemma py_index_repeat {A : Type} (x : A) (n : nat) (i : Z) :
  0 <= i < Z.of_nat n -> py_index (repeat x n) i = Ok x.
Proof.
  intro Hi.
  destruct (py_index_in_range (repeat x n) i) as [y [Hy Hn]].
  - unfold len. rewrite repeat_length. exact Hi.
  - rewrite Hy. f_equal. apply nth_error_In in Hn. apply repeat_spec in Hn. exact Hn.
Qed.

(** The upward gate on an error list of [n] empty slots: it returns, the
    kept times are a selection of the crossings with an empty slot each,
    and a kept time is at least [minISI_pnts] after the one kept before
    it. *)
Lemma upward_gate_facts (sweepY : list Q) (minISI_pnts : Z) (n : nat)
  (spikeTimes0 : list Z) : forall (last : option Z) (tmpIdx : Z),
  0 <= tmpIdx -> tmpIdx + len spikeTimes0 <= Z.of_nat n ->
  exists ts,
    upward_gate sweepY minISI_pnts (repeat None n) last tmpIdx spikeTimes0
      = Ok (ts, repeat None (List.length ts)) /\
    subsequence ts spikeTimes0 /\
    neighbours (fun a b => minISI_pnts <= b - a) ts /\
    (forall x t r, last = Some x -> ts = t :: r -> minISI_pnts <= t - x).
Proof.
  induction spikeTimes0 as [|s r IH]; intros last tmpIdx Hidx Hn.
  - exists []. repeat split; try constructor. intros; discriminate.
  - rewrite len_cons in Hn. pose proof (len_nonneg r) as Hr.
    cbn [upward_gate]. cbv zeta.
    destruct (IH last (tmpIdx + 1) ltac:(lia) ltac:(lia)) as [ts1 [G1 [S1 [N1 L1]]]].
    destruct (IH (Some s) (tmpIdx + 1) ltac:(lia) ltac:(lia)) as [ts2 [G2 [S2 [N2 L2]]]].
    destruct (nan_gtb _ _).
    + destruct last as [x|].
      * destruct (s - x <? minISI_pnts) eqn:Esoon.
        -- exists ts1. repeat split; try assumption. constructor. exact S1.
        -- apply Z.ltb_ge in Esoon.
           rewrite py_index_repeat by lia. cbn [bind]. rewrite G2. cbn [bind].
           exists (s :: ts2). split; [reflexivity|].
           split; [constructor; exact S2|]. split.
           ++ destruct ts2 as [|t2 r2]; [exact I|]. split; [|exact N2].
              exact (L2 s t2 r2 eq_refl eq_refl).
           ++ intros x' t' r' Hx Ht. inversion Hx; inversion Ht; subst. exact Esoon.
      * rewrite py_index_repeat by lia. cbn [bind]. rewrite G2. cbn [bind].
        exists (s :: ts2). split; [reflexivity|].
        split; [constructor; exact S2|]. split.
        -- destruct ts2 as [|t2 r2]; [exact I|]. split; [|exact N2].
           exact (L2 s t2 r2 eq_refl eq_refl).
        -- intros; discriminate.
    + exists ts1. repeat split; try assumption. constructor. exact S1.
Qed.

Lemma pairs_of_repeat {E : Type} (e : E) (kept : list Z) (es : list E) (l : list Z) (n : nat) :
  List.length es = List.length kept ->
  subsequence (combine kept es) (combine l (repeat e n)) ->
  es = repeat e (List.length kept).
Proof.
  intros Hlen Hsub.
  assert (HF : Forall (fun p => snd p = e) (combine kept es)).
  { eapply subsequence_Forall; [exact Hsub|]. apply Forall_forall.
    intros [t x] Hin. apply in_combine_r in Hin. apply repeat_spec in Hin. exact Hin. }
  clear Hsub. revert es Hlen HF. induction kept as [|k r IH]; intros es Hlen HF.
  - destruct es; [reflexivity | discriminate].
  - destruct es as [|x es']; [discriminate|]. cbn [combine] in HF.
    inversion HF as [|? ? Hx Hr]; subst. cbn [snd List.length repeat].
    f_equal. apply IH; [cbn [List.length] in Hlen; lia | exact Hr].
Qed.

Lemma spikeDetect_vm_facts (dataPointsPerMs : Z) (dDict : detection)
  (filteredVm sweepY : list Q) :
  exists onsets,
    _spikeDetect_vm dataPointsPerMs dDict filteredVm sweepY
      = Ok (onsets, repeat None (List.length onsets)) /\
    subsequence onsets (threshold_crossings filteredVm (mvThreshold dDict)) /\
    neighbours (fun a b => a < b /\ ms2Pnt_ dataPointsPerMs minISI_ms <= b - a) onsets /\
    ((0 <= float_mul (inject_Z dataPointsPerMs) (refractory_ms dDict))%Q ->
     neighbours (fun a b => (float_mul (inject_Z dataPointsPerMs) (refractory_ms dDict)
                             <= inject_Z (b - a))%Q) onsets).
Proof.
  unfold _spikeDetect_vm. cbv zeta.
  set (crossings := threshold_crossings filteredVm (mvThreshold dDict)).
  destruct (upward_gate_facts sweepY (ms2Pnt_ dataPointsPerMs minISI_ms)
              (List.length crossings) crossings None 0 ltac:(lia)
              ltac:(unfold len; lia)) as [ts [G [S [N _]]]].
  rewrite G. cbn [bind].
  destruct (throwOutRefractory_pairs dataPointsPerMs ts
              (repeat (@None errorDict) (List.length ts))
              (refractory_ms dDict) ltac:(apply repeat_length))
    as [kept [es [T1 [T2 [T3 T4]]]]].
  rewrite T1. cbn [bind].
  rewrite (pairs_of_repeat None kept es ts (List.length ts) T3 T4).
  exists kept. split; [reflexivity|].
  assert (Hsub : subsequence kept ts)
    by (rewrite T2; apply refractory_marked_subsequence).
  split; [exact (subsequence_trans _ _ _ Hsub S)|].
  split; [|intro Hthr; rewrite T2; apply refractory_marked_gaps; exact Hthr].
  apply (subsequence_neighbours _ kept ts); [intros; lia | exact Hsub |].
  assert (Hinc : increasing ts).
  { eapply subsequence_increasing; [exact S|].
    apply (threshold_crossings_facts filteredVm (mvThreshold dDict)). }
  clear - N Hinc. unfold increasing in Hinc.
  induction ts as [|a r IH]; [exact I|].
  destruct r as [|b r']; [exact I|].
  destruct N as [Nab Nr]. destruct Hinc as [Iab Ir].
  split; [split; assumption | exact (IH Nr Ir)].
Qed.


(** X10: the onsets of the amplitude detector are strictly increasing
    and any two neighbours are at least the minimal interval of 75 ms
    (in samples) apart. *)
Theorem spikeDetect_vm_min_interval (dataPointsPerMs : Z) (dDict : detection)
  (filteredVm sweepY : list Q) :
  exists onsets errs,
    _spikeDetect_vm dataPointsPerMs dDict filteredVm sweepY = Ok (onsets, errs) /\
    neighbours (fun a b => a < b /\ ms2Pnt_ dataPointsPerMs minISI_ms <= b - a) onsets.
Proof.
  destruct (spikeDetect_vm_facts dataPointsPerMs dDict filteredVm sweepY)
    as [onsets [H [_ [N _]]]].
  exists onsets. eexists. split; [exact H | exact N].
Qed.

(** ** The backward walk of amplitude onsets stays within bins *)

Lemma backup_realPnt_range (bin_pnts spikeTimePnts backupNumPnts : Z) :
  0 <= bin_pnts -> 0 <= backupNumPnts <= maxNumPntsToBackup ->
  spikeTimePnts - 15 * bin_pnts
  <= backup_realPnt bin_pnts spikeTimePnts backupNumPnts
  <= spikeTimePnts + bin_pnts.
Proof.
  unfold backup_realPnt, maxNumPntsToBackup, moveForwardPnts. intros Hb Hn. cbv zeta.
  destruct (backupNumPnts - 1 <? 4) eqn:E;
    [apply Z.ltb_lt in E | apply Z.ltb_ge in E]; nia.
Qed.

Lemma backup_walk_range (myVm : list Q) (bin_pnts half_bin_pnts spikeTimePnts : Z)
  (stepsLeft : nat) : forall (thisMean : option (option Q)) (atBinPnt : Z),
  0 <= bin_pnts -> Z.of_nat stepsLeft <= maxNumPntsToBackup ->
  spikeTimePnts - 15 * bin_pnts
  <= backup_walk stepsLeft myVm bin_pnts half_bin_pnts spikeTimePnts thisMean atBinPnt
  <= spikeTimePnts + bin_pnts.
Proof.
  induction stepsLeft as [|n IH]; intros thisMean atBinPnt Hb Hn.
  - cbn [backup_walk]. cbv zeta.
    destruct (_ || _); apply backup_realPnt_range; unfold maxNumPntsToBackup in *; lia.
  - cbn [backup_walk]. cbv zeta.
    destruct (_ || _).
    + apply backup_realPnt_range; unfold maxNumPntsToBackup in *; lia.
    + apply IH; [exact Hb | lia].
Qed.

Lemma Forall2_map_each {A B : Type} (R : A -> B -> Prop) (f : A -> B) (l : list A) :
  (forall a, R a (f a)) -> Forall2 R l (map f l).
Proof. intro H. induction l; cbn [map]; constructor; auto. Qed.

Lemma Ok_inj {A : Type} (a b : A) : Ok a = Ok b -> a = b.
Proof. intro H. injection H as H. exact H. Qed.

(** X11: when the median filter returns, the amplitude back-up returns
    one onset per given onset, and for a sampling rate that is not
    negative each one lies at most fifteen bins of one ms before the
    given onset and at most one bin after it. *)
Theorem backupSpikeVm_moves_within_bins (medfilt : list Q -> Z -> result (list Q))
  (dataPointsPerMs : Z) (spikeTimes : list Z) (sweepY : list Q) (medianFilter : Z)
  (realSpikeTimePnts : list Z) :
  0 <= dataPointsPerMs ->
  _backupSpikeVm medfilt dataPointsPerMs spikeTimes sweepY medianFilter
    = Ok realSpikeTimePnts ->
  Forall2 (fun s t => s - 15 * dataPointsPerMs <= t <= s + dataPointsPerMs)
    spikeTimes realSpikeTimePnts.
Proof.
  intros Hd H. unfold _backupSpikeVm in H. cbv zeta in H.
  apply bind_Ok in H. destruct H as [myVm [_ H]].
  apply Ok_inj in H. subst realSpikeTimePnts.
  apply Forall2_map_each. intro s.
  assert (Hsteps : Z.of_nat (Z.to_nat maxNumPntsToBackup) <= maxNumPntsToBackup)
    by (unfold maxNumPntsToBackup; lia).
  assert (Hbin : 0 <= 1 * dataPointsPerMs) by lia.
  generalize (backup_walk_range myVm (1 * dataPointsPerMs) (1 * dataPointsPerMs / 2) s
                (Z.to_nat maxNumPntsToBackup) None s Hbin Hsteps).
  generalize (backup_walk (Z.to_nat maxNumPntsToBackup) myVm (1 * dataPointsPerMs)
                (1 * dataPointsPerMs / 2) s None s).
  intros w Hw. lia.
Qed.

Lemma backupSpikeVm_moves_within_bins_witness :
  Forall2 (fun s t => s - 15 * 2 <= t <= s + 2) [100; 260] [100; 230].
Proof.
  apply (backupSpikeVm_moves_within_bins median_filter 2 [100; 260] walk_sweep 0 [100; 230]);
    [lia | vm_compute; reflexivity].
Defined.

(** ** Spike records: number, onset and peak are written once *)

Ltac each_onset_key Hk :=
  cbn [In onset_keys] in Hk;
  repeat (destruct Hk as [<- | Hk]); [.. | contradiction].

Lemma onset_key_plain (k : string) : In k onset_keys -> plain_key k.
Proof. intro Hk. each_onset_key Hk; repeat split; discriminate. Qed.

Lemma onset_key_not_errors (k : string) : In k onset_keys -> k <> "errors"%string.
Proof. intro Hk. each_onset_key Hk; discriminate. Qed.

Lemma spike_defaults_onset (d d' : dict) (hs : list Z) (k : string) :
  spike_defaults d hs = Ok d' -> In k onset_keys -> dict_get d' k = dict_get d k.
Proof.
  unfold spike_defaults. intros H Hk.
  rewrite (default_widths_frame hs _ _ k H (onset_key_plain k Hk)).
  each_onset_key Hk; frame_sets.
Qed.

Lemma preSpike_dvdt_block_onset (dataPointsPerMs : Z) (vm fd : list Q)
  (i s peakPnt : Z) (cur cur' : dict) (k : string) :
  preSpike_dvdt_block dataPointsPerMs vm fd i s peakPnt cur = Ok cur' ->
  In k onset_keys -> dict_get cur' k = dict_get cur k.
Proof.
  unfold preSpike_dvdt_block. intros H Hk.
  destruct (np_argmax _) as [p|e].
  - apply bind_Ok in H. destruct H as [v [_ H]].
    apply bind_Ok in H. destruct H as [v2 [_ H]]. inversion H; subst.
    each_onset_key Hk; frame_sets.
  - apply dict_append_error_frame in H. apply H. apply onset_key_not_errors. exact Hk.
Qed.

Lemma postSpike_dvdt_block_onset (dataPointsPerMs : Z) (vm fd : list Q)
  (peakPnt : Z) (cur cur' : dict) (k : string) :
  postSpike_dvdt_block dataPointsPerMs vm fd peakPnt cur = Ok cur' ->
  In k onset_keys -> dict_get cur' k = dict_get cur k.
Proof.
  unfold postSpike_dvdt_block. intros H Hk.
  apply bind_Ok in H. destruct H as [p [_ H]].
  apply bind_Ok in H. destruct H as [v [_ H]].
  apply bind_Ok in H. destruct H as [v2 [_ H]]. inversion H; subst.
  each_onset_key Hk; frame_sets.
Qed.

Lemma pre_spike_block_onset (polyfit : list Q -> list Q -> fit_outcome)
  (dataPointsPerMs : Z) (dDict : detection) (avgWindow_pnts : Z)
  (sweepX vm : list Q) (i s : Z) (cur cur' : dict) (p : Z) (k : string) :
  pre_spike_block polyfit dataPointsPerMs dDict avgWindow_pnts sweepX vm i s cur
    = Ok (cur', p) ->
  In k onset_keys -> dict_get cur' k = dict_get cur k.
Proof.
  unfold pre_spike_block. intros H Hk.
  pose proof (onset_key_not_errors k Hk) as Hne.
  apply bind_Ok in H. destruct H as [m [_ H]].
  apply bind_Ok in H. destruct H as [[c1 p1] [H1 H]].
  assert (Hc1 : dict_get c1 k = dict_get cur k).
  { destruct (match np_mean _ with Some _ => _ | None => _ end) as [[pm v]|].
    - inversion H1; subst. each_onset_key Hk; frame_sets.
    - apply bind_Ok in H1. destruct H1 as [c [Hc H1]]. inversion H1; subst.
      apply dict_append_error_frame in Hc. apply Hc. exact Hne. }
  cbv zeta in H.
  apply bind_Ok in H. destruct H as [v0 [_ H]].
  apply bind_Ok in H. destruct H as [v1 [_ H]].
  apply bind_Ok in H. destruct H as [c2 [H2 H]]. inversion H; subst.
  rewrite <- Hc1.
  destruct (polyfit _ _).
  - inversion H2; subst. each_onset_key Hk; frame_sets.
  - apply dict_append_error_frame in H2. rewrite H2 by exact Hne.
    each_onset_key Hk; frame_sets.
  - apply dict_append_error_frame in H2. rewrite H2 by exact Hne.
    each_onset_key Hk; frame_sets.
  - inversion H2; subst. each_onset_key Hk; frame_sets.
Qed.

Lemma isi_block_onset (dataPointsPerMs : Z) (prev : list dict) (i s : Z)
  (preMinPnt : option Z) (cur cur' : dict) (k : string) :
  isi_block dataPointsPerMs prev i s preMinPnt cur = Ok cur' ->
  In k onset_keys -> dict_get cur' k = dict_get cur k.
Proof.
  unfold isi_block. intros H Hk.
  pose proof (onset_key_not_errors k Hk) as Hne.
  apply bind_Ok in H. destruct H as [c1 [H1 H]].
  assert (Hc1 : dict_get c1 k = dict_get cur k).
  { destruct (i >? 0); [|inversion H1; reflexivity].
    destruct preMinPnt; [|discriminate]. inversion H1; subst.
    each_onset_key Hk; frame_sets. }
  rewrite <- Hc1. cbv zeta in H.
  destruct (i >? 0); [|inversion H; subst; each_onset_key Hk; frame_sets].
  repeat (apply bind_Ok in H; destruct H as [? [_ H]]).
  destruct (as_optint _) as [a|]; [destruct (as_optint _) as [b|]|].
  - inversion H; subst. each_onset_key Hk; frame_sets.
  - apply dict_append_error_frame in H. rewrite H by exact Hne.
    each_onset_key Hk; frame_sets.
  - apply dict_append_error_frame in H. rewrite H by exact Hne.
    each_onset_key Hk; frame_sets.
Qed.

(** One iteration of the spike loop: the record it appends has the
    number, onset and peak fields of its header, computed from the peak
    window of the filtered sweep. *)
Lemma analyze_spike_onset (polyfit : list Q -> list Q -> fit_outcome)
  (aV iV : string) (file : value) (dpms : Z) (dDict : detection) (type : string)
  (sweepNumber : Z) (sweepX vm fd sweepC : list Q)
  (errs : list (option errorDict)) (pw aw : Z) (prev : list dict) (i s : Z)
  (sd : list dict) :
  analyze_spike polyfit aV iV file dpms dDict type sweepNumber sweepX vm fd sweepC
    errs pw aw prev i s = Ok sd ->
  exists prev' cur' peakPnt peakVal thresholdVal,
    sd = (prev' ++ [cur'])%list /\
    Forall2 same_but_errors prev prev' /\
    np_argmax (py_slice vm s (s + pw)) = Ok peakPnt /\
    np_max (py_slice vm s (s + pw)) = Ok peakVal /\
    py_index vm s = Ok thresholdVal /\
    dict_get cur' "spikeNumber" = Some (VInt (len prev)) /\
    dict_get cur' "thresholdPnt" = Some (VInt s) /\
    dict_get cur' "thresholdVal" = Some (VF thresholdVal) /\
    dict_get cur' "peakPnt" = Some (VInt (peakPnt + s)) /\
    dict_get cur' "peakVal" = Some (VF peakVal) /\
    dict_get cur' "peakHeight" = Some (VF (peakVal - thresholdVal)%Q).
Proof.
  unfold analyze_spike. intro H.
  bind_step H peakPnt HpeakPnt. bind_step H peakVal HpeakVal.
  bind_step H tmpError HtmpError. bind_step H dac Hdac.
  bind_step H thr Hthr. bind_step H thr_dvdt Hthr_dvdt.
  bind_step H cur1 Hcur1.
  bind_step H cp2 Hcp2. destruct cp2 as [cur2 preMinPnt].
  bind_step H cur3 Hcur3. bind_step H cur4 Hcur4. bind_step H cur5 Hcur5.
  bind_step H pc Hpc. destruct pc as [prev' cur']. inversion H; subst sd; clear H.
  destruct (half_widths_frame _ _ _ _ _ _ _ _ _ _ _ _ _ _ _ _ _ Hpc) as [Hprev Hplain].
  exists prev', cur', peakPnt, peakVal, thr.
  split; [reflexivity|]. split; [exact Hprev|].
  split; [exact HpeakPnt|]. split; [exact HpeakVal|]. split; [exact Hthr|].
  assert (Hhead : forall k, In k onset_keys ->
            dict_get cur' k
            = dict_get (spike_header aV iV file dpms dDict type sweepNumber i (len prev)
                          tmpError dac thr thr_dvdt s (peakPnt + s) peakVal) k).
  { intros k Hk. rewrite (Hplain k (onset_key_plain k Hk)).
    rewrite (isi_block_onset _ _ _ _ _ _ _ k Hcur5 Hk).
    rewrite (postSpike_dvdt_block_onset _ _ _ _ _ _ k Hcur4 Hk).
    rewrite (preSpike_dvdt_block_onset _ _ _ _ _ _ _ _ k Hcur3 Hk).
    rewrite <- (spike_defaults_onset _ _ _ k Hcur1 Hk).
    destruct (i =? 0).
    - inversion Hcp2; reflexivity.
    - bind_step Hcp2 cp Hcp. destruct cp as [c p]. inversion Hcp2; subst.
      exact (pre_spike_block_onset _ _ _ _ _ _ _ _ _ _ _ k Hcp Hk). }
  repeat split; (rewrite Hhead by (cbn; auto 10)); reflexivity.
Qed.

Lemma Forall2_same_but_errors_trans (a b c : list dict) :
  Forall2 same_but_errors a b -> Forall2 same_but_errors b c ->
  Forall2 same_but_errors a c.
Proof.
  intro Hab. revert c. induction Hab; intros c Hbc.
  - exact Hbc.
  - inversion Hbc; subst. constructor;
      [eapply same_but_errors_trans; eassumption | apply IHHab; assumption].
Qed.

(** The loop over the spikes of a sweep appends one record per spike
    time, in order, each with its spike time as [thresholdPnt] and with
    the sweep number; older records change at most in their
    annotations. *)
Lemma analyze_spikes_onsets (polyfit : list Q -> list Q -> fit_outcome)
  (aV iV : string) (file : value) (dpms : Z) (dDict : detection) (type : string)
  (sweepNumber : Z) (sweepX vm fd sweepC : list Q)
  (errs : list (option errorDict)) (pw aw : Z) (spikeTimes : list Z) :
  forall (sd0 : list dict) (i : Z) (sd : list dict),
  analyze_spikes polyfit aV iV file dpms dDict type sweepNumber sweepX vm fd sweepC
    errs pw aw sd0 i spikeTimes = Ok sd ->
  exists old new,
    sd = (old ++ new)%list /\
    Forall2 same_but_errors sd0 old /\
    Forall2 (fun spike t => dict_get spike "thresholdPnt" = Some (VInt t) /\
                            dict_get spike "sweep" = Some (VInt sweepNumber))
      new spikeTimes.
Proof.
  induction spikeTimes as [|s r IH]; intros sd0 i sd H.
  - inversion H; subst. exists sd, []. rewrite app_nil_r.
    split; [reflexivity|]. split; [apply Forall2_same_but_errors_refl | constructor].
  - cbn [analyze_spikes] in H. bind_step H sd1 Hsd1.
    pose proof (analyze_spike_record _ _ _ _ _ _ _ _ _ _ _ _ _ _ _ _ _ _ _ Hsd1)
      as [q' [c' [Hq [_ [_ [Hsweep _]]]]]].
    apply analyze_spike_onset in Hsd1.
    destruct Hsd1 as [prev' [cur' [pp [pv [tv [-> [Hprev [_ [_ [_ [_ [Hon _]]]]]]]]]]]].
    apply app_inj_tail in Hq. destruct Hq as [_ <-].
    destruct (IH _ _ _ H) as [old1 [new1 [-> [Hold1 Hnew1]]]].
    apply Forall2_app_inv_l in Hold1.
    destruct Hold1 as [p2 [c2 [Hp2 [Hc2 ->]]]].
    inversion Hc2 as [|x y l l' Hxy Hnil]; subst. inversion Hnil; subst.
    exists p2, (y :: new1). split; [rewrite <- app_assoc; reflexivity|].
    split; [exact (Forall2_same_but_errors_trans _ _ _ Hprev Hp2)|].
    constructor; [|exact Hnew1].
    rewrite !(Hxy _) by discriminate. split; assumption.
Qed.

(** ** Read access: what the accessors return *)

Lemma stat_values_lengths (k1 k2 : string) (sweepNumber : sweepArg) (sd : list dict) :
  forall x y,
  stat_values k1 sweepNumber sd = Ok x -> stat_values k2 sweepNumber sd = Ok y ->
  List.length x = List.length y.
Proof.
  induction sd as [|spike r IH]; intros x y Hx Hy.
  - inversion Hx; inversion Hy; reflexivity.
  - cbn [stat_values] in Hx, Hy.
    destruct (in_sweep sweepNumber spike) as [keep|e]; [|discriminate].
    cbn [bind] in Hx, Hy. destruct keep.
    + bind_step Hx v1 Hv1. bind_step Hx r1 Hr1. inversion Hx; subst.
      bind_step Hy v2 Hv2. bind_step Hy r2 Hr2. inversion Hy; subst.
      cbn [List.length]. f_equal. exact (IH _ _ Hr1 Hr2).
    + exact (IH _ _ Hx Hy).
Qed.

Lemma clean_not_None (v : value) : clean v <> VNone.
Proof. destruct v; discriminate. Qed.

Lemma stat_values_cleaned (k : string) (sweepNumber : sweepArg) (sd : list dict) :
  forall x, stat_values k sweepNumber sd = Ok x -> ~ In VNone x.
Proof.
  induction sd as [|spike r IH]; intros x Hx.
  - inversion Hx; subst. intros [].
  - cbn [stat_values] in Hx.
    destruct (in_sweep sweepNumber spike) as [keep|e]; [|discriminate].
    cbn [bind] in Hx. destruct keep.
    + bind_step Hx v Hv. bind_step Hx r1 Hr1. inversion Hx; subst.
      intros [Hc | Hc]; [exact (clean_not_None v Hc) | exact (IH _ Hr1 Hc)].
    + exact (IH _ Hx).
Qed.

(** X12: the two lists that [getStat] returns for two statistic names
    have the same length, one entry per spike of the sweep, and hold no
    [None]: a field that is [None] is returned as NaN. *)
Theorem getStat_pair_aligned (self : bAnalysis) (statName1 statName2 : string)
  (sweepNumber : sweepArg) (x y : list value) :
  getStat self statName1 (Some statName2) sweepNumber = Ok (StatPair x y) ->
  List.length x = List.length y /\ ~ In VNone x /\ ~ In VNone y.
Proof.
  unfold getStat.
  set (error := match spikeDict self with [] => true | _ => _ end).
  set (sw := match sweepNumber with SweepNone => _ | _ => sweepNumber end).
  cbv zeta. intro H. destruct error.
  - cbn [bind] in H. inversion H; subst. repeat split; intros [].
  - bind_step H x0 Hx. bind_step H y0 Hy. inversion H; subst.
    split; [exact (stat_values_lengths _ _ _ _ _ _ Hx Hy)|].
    split; [exact (stat_values_cleaned _ _ _ _ Hx) | exact (stat_values_cleaned _ _ _ _ Hy)].
Qed.

Lemma getStat_pair_aligned_witness :
  List.length [VInt 1; VInt 8] = List.length [VFloat FNaN; VInt 6] /\
  ~ In VNone [VInt 1; VInt 8] /\ ~ In VNone [VFloat FNaN; VInt 6].
Proof.
  apply (getStat_pair_aligned two_spike_recording "thresholdPnt" "preMinPnt" SweepAll).
  reflexivity.
Defined.

Lemma getStat1_default_sweep (self : bAnalysis) (statName : string) :
  Forall sweep_is_int (spikeDict self) -> getStat1 self statName SweepNone = Ok [].
Proof.
  intro Hsweep. unfold getStat1, getStat.
  set (error := match spikeDict self with [] => true | _ => _ end).
  cbv zeta. destruct error; cbn [bind];
    rewrite ?stat_values_no_sweep by exact Hsweep; reflexivity.
Qed.

(** X13: on records that carry their sweep number, as those of a
    detection run do, [getSpikeSeconds] returns the empty list whatever
    sweep is asked for, ['All'] included: its argument is not handed on.
    [api_getSpikeStat] returns the empty list for every statistic. *)
Theorem getSpikeSeconds_always_empty (self : bAnalysis) (sweepNumber : sweepArg)
  (stat : string) :
  Forall sweep_is_int (spikeDict self) ->
  getSpikeSeconds self sweepNumber = Ok [] /\ api_getSpikeStat self stat = Ok [].
Proof.
  intro Hsweep. unfold getSpikeSeconds, api_getSpikeStat.
  split; apply getStat1_default_sweep; exact Hsweep.
Qed.

Lemma getSpikeSeconds_always_empty_witness :
  getSpikeSeconds two_spike_recording SweepAll = Ok [] /\
  api_getSpikeStat two_spike_recording "thresholdPnt" = Ok [].
Proof.
  apply (getSpikeSeconds_always_empty two_spike_recording SweepAll "thresholdPnt").
  repeat constructor; eexists; reflexivity.
Defined.

Lemma spikes_in_sweep_All (sd : list dict) : spikes_in_sweep SweepAll sd = Ok sd.
Proof.
  induction sd as [|spike r IH]; [reflexivity|].
  cbn [spikes_in_sweep in_sweep is_All bind]. rewrite IH. reflexivity.
Qed.

Lemma spikes_in_sweep_stat (k : string) (sweepNumber : sweepArg) (sd : list dict) :
  forall ds,
  spikes_in_sweep sweepNumber sd = Ok ds ->
  stat_values k sweepNumber sd
  = mapM (fun spike => v <- dict_item spike k ;; Ok (clean v)) ds.
Proof.
  induction sd as [|spike r IH]; intros ds H.
  - inversion H; subst. reflexivity.
  - cbn [spikes_in_sweep] in H. cbn [stat_values].
    destruct (in_sweep sweepNumber spike) as [keep|e]; [|discriminate].
    cbn [bind] in H |- *. bind_step H rest Hrest. inversion H; subst; clear H.
    rewrite (IH _ Hrest). destruct keep; [|reflexivity].
    cbn [mapM]. destruct (dict_item spike k); reflexivity.
Qed.

(** X14: [getSpikeDictionaries] with the default sweep returns every
    record, as with ['All'], and never raises; and for any sweep
    argument but the default, when the first record has the statistic,
    [getStat] returns the cleaned field of exactly the records that
    [getSpikeDictionaries] returns, in their order. *)
Theorem getSpikeDictionaries_selects (self : bAnalysis) :
  getSpikeDictionaries self SweepNone = Ok (spikeDict self) /\
  getSpikeDictionaries self SweepAll = Ok (spikeDict self) /\
  (forall (statName : string) (sweepNumber : sweepArg) (spike0 : dict) (rest ds : list dict),
     spikeDict self = spike0 :: rest ->
     dict_has spike0 statName = true ->
     sweepNumber <> SweepNone ->
     getSpikeDictionaries self sweepNumber = Ok ds ->
     getStat1 self statName sweepNumber
     = mapM (fun spike => v <- dict_item spike statName ;; Ok (clean v)) ds).
Proof.
  unfold getSpikeDictionaries. split; [apply spikes_in_sweep_All|].
  split; [apply spikes_in_sweep_All|].
  intros statName sweepNumber spike0 rest ds Hsd Hhas Hsw Hds.
  unfold getStat1, getStat. rewrite Hsd, Hhas. cbn [negb]. cbv zeta.
  rewrite <- Hsd.
  destruct sweepNumber as [| |n]; [contradiction | |];
    rewrite (spikes_in_sweep_stat statName _ _ _ Hds);
    destruct (mapM _ ds); reflexivity.
Qed.

(** On [two_spike_recording]: all records by default, and the onsets of
    sweep 0 read either way. *)
Lemma getSpikeDictionaries_example :
  getSpikeDictionaries two_spike_recording SweepNone = Ok two_spikes /\
  getSpikeDictionaries two_spike_recording (SweepNum 0) = Ok two_spikes /\
  getSpikeDictionaries two_spike_recording (SweepNum 1) = Ok [] /\
  getStat1 two_spike_recording "thresholdPnt" (SweepNum 0) = Ok [VInt 1; VInt 8].
Proof. repeat split; reflexivity. Qed.

(** *** Clips in a time window *)

Lemma py_index_raises {A : Type} (l : list A) (i : Z) (e : exn) :
  py_index l i = Raise e -> e = IndexError.
Proof.
  unfold py_index. destruct (_ <? 0); [intro H; inversion H; reflexivity|].
  destruct (nth_error _ _); intro H; inversion H; reflexivity.
Qed.

Lemma makeSpikeClips_state (self self' : bAnalysis) (clipWidth_ms : option Q)
  (theseTime_sec : option (list Q)) (sweepNumber : sweepArg) (x2 clips : list (list Q)) :
  _makeSpikeClips self clipWidth_ms theseTime_sec sweepNumber = Ok (self', (x2, clips)) ->
  exists x, self' = set_clips self x x2 clips.
Proof.
  unfold _makeSpikeClips. intro H.
  bind_step H w Hw. bind_step H times Htimes. bind_step H data Hdata.
  bind_step H sweepNum HsweepNum. bind_step H clips0 Hclips0.
  inversion H; subst. eexists. reflexivity.
Qed.

(** X15: on records that carry their sweep number, [getSpikeClips] with
    the default sweep raises [IndexError] whenever a clip is built: the
    clips are made for all sweeps, but the spike times they are matched
    with are read with the default sweep and are none. *)
Theorem getSpikeClips_default_sweep_raises (self self' : bAnalysis)
  (theMin theMax clipWidth_ms : option Q) (x2 : list (list Q))
  (clip : list Q) (clips : list (list Q)) :
  Forall sweep_is_int (spikeDict self) ->
  _makeSpikeClips self clipWidth_ms None SweepNone = Ok (self', (x2, clip :: clips)) ->
  getSpikeClips self theMin theMax clipWidth_ms SweepNone = Raise IndexError.
Proof.
  intros Hsweep Hclips. unfold getSpikeClips.
  destruct (numSpikes self =? 0) eqn:Hn.
  - exfalso. apply Z.eqb_eq in Hn. unfold numSpikes, len in Hn.
    destruct (spikeDict self) as [|d r] eqn:Hsd; [|cbn [List.length] in Hn; lia].
    unfold _makeSpikeClips in Hclips.
    bind_step Hclips w Hw. bind_step Hclips times Htimes. bind_step Hclips data Hdata.
    bind_step Hclips sweepNum HsweepNum. bind_step Hclips clips0 Hclips0.
    unfold getSpikeTimes, getStat1, getStat in Htimes. rewrite Hsd in Htimes.
    cbn [bind] in Htimes. inversion Htimes; subst.
    cbn [clip_loop] in Hclips0. inversion Hclips0; subst. discriminate.
  - assert (Hwin : exists r,
               match theMin, theMax with
               | Some a, Some b => Ok (a, b)
               | _, _ => dur <- recordingDur self ;; Ok (0%Q, dur)
               end = r /\
               (forall e, r = Raise e -> e = IndexError)).
    { eexists. split; [reflexivity|]. intros e He.
      assert (Hdur : forall e', (dur <- recordingDur self ;; Ok (0%Q, dur)) = Raise e' ->
                                e' = IndexError).
      { intros e' H'. unfold recordingDur in H'.
        destruct (py_index (_sweepX self) 0) as [col|e0] eqn:Hcol.
        - cbn [bind] in H'. destruct (py_index col (-1)) as [v|e1] eqn:Hv.
          + discriminate.
          + cbn [bind] in H'. inversion H'; subst. exact (py_index_raises _ _ _ Hv).
        - cbn [bind] in H'. inversion H'; subst. exact (py_index_raises _ _ _ Hcol). }
      destruct theMin; [destruct theMax|]; try discriminate; exact (Hdur e He). }
    destruct Hwin as [r [Hr Hraise]]. rewrite Hr.
    destruct r as [[a b]|e]; [|rewrite (Hraise e eq_refl); reflexivity].
    cbn [bind]. rewrite Hclips. cbn [bind].
    destruct (makeSpikeClips_state _ _ _ _ _ _ _ Hclips) as [x ->].
    rewrite (getStat1_default_sweep (set_clips self x x2 (clip :: clips)) "thresholdPnt"
               Hsweep : getSpikeTimes _ SweepNone = Ok []).
    cbn [bind set_clips spikeClips spikeClips_x spikeClips_x2 window_clips].
    rewrite py_index_empty. reflexivity.
Qed.

Lemma getSpikeClips_default_sweep_raises_witness :
  getSpikeClips two_spike_recording None None None SweepNone = Raise IndexError.
Proof.
  apply (getSpikeClips_default_sweep_raises two_spike_recording
           (set_clips two_spike_recording [-2; -1; 0; 1]%Q [[-2; -1; 0; 1]%Q]
              [[1; 6; 12; 22]%Q])
           None None None [[-2; -1; 0; 1]%Q] [1; 6; 12; 22]%Q []).
  - repeat constructor; eexists; reflexivity.
  - vm_compute. reflexivity.
Defined.

(** With ['All'] the same call returns the clip, its axis and the mean
    clip. *)
Lemma getSpikeClips_all_sweeps :
  result_map snd (getSpikeClips two_spike_recording None None None SweepAll)
  = Ok (Some ([[1; 6; 12; 22]%Q], [[-2; -1; 0; 1]%Q], [1; 6; 12; 22]%Q)).
Proof. vm_compute. reflexivity. Qed.

(** ** Spike records: number, peak and annotations *)

Lemma numbered_from_same_but_errors (l l' : list dict) :
  Forall2 same_but_errors l l' -> forall n, numbered_from n l -> numbered_from n l'.
Proof.
  induction 1 as [|d d' r r' Hd Hr IH]; intros n H; [exact I|].
  destruct H as [Hn Hrest]. split; [|exact (IH _ Hrest)].
  rewrite (Hd "spikeNumber"%string) by discriminate. exact Hn.
Qed.

Lemma numbered_from_app (l : list dict) (d : dict) : forall n,
  numbered_from n l -> dict_get d "spikeNumber" = Some (VInt (n + len l)) ->
  numbered_from n (l ++ [d]).
Proof.
  induction l as [|a r IH]; intros n Hl Hd.
  - change (len (@nil dict)) with 0 in Hd. rewrite Z.add_0_r in Hd.
    split; [exact Hd | exact I].
  - destruct Hl as [Ha Hr]. split; [exact Ha|]. apply IH; [exact Hr|].
    rewrite len_cons in Hd. rewrite Hd. do 2 f_equal. lia.
Qed.

Lemma numbered_from_nth (l : list dict) : forall n k d,
  numbered_from n l -> nth_error l k = Some d ->
  dict_get d "spikeNumber" = Some (VInt (n + Z.of_nat k)).
Proof.
  induction l as [|a r IH]; intros n k d Hl Hk; [destruct k; discriminate|].
  destruct Hl as [Ha Hr]. destruct k as [|k].
  - inversion Hk; subst. rewrite Z.add_0_r. exact Ha.
  - cbn [nth_error] in Hk. rewrite (IH _ _ _ Hr Hk). do 2 f_equal. lia.
Qed.

Lemma Forall2_len {A B : Type} (R : A -> B -> Prop) (l : list A) (l' : list B) :
  Forall2 R l l' -> len l' = len l.
Proof. intro H. unfold len. rewrite (Forall2_length H). reflexivity. Qed.

Lemma analyze_spikes_numbered (polyfit : list Q -> list Q -> fit_outcome)
  (aV iV : string) (file : value) (dpms : Z) (dDict : detection) (type : string)
  (sweepNumber : Z) (sweepX vm fd sweepC : list Q)
  (errs : list (option errorDict)) (pw aw : Z) (spikeTimes : list Z) :
  forall (sd0 : list dict) (i : Z) (sd : list dict),
  numbered_from 0 sd0 ->
  analyze_spikes polyfit aV iV file dpms dDict type sweepNumber sweepX vm fd sweepC
    errs pw aw sd0 i spikeTimes = Ok sd ->
  numbered_from 0 sd.
Proof.
  induction spikeTimes as [|s r IH]; intros sd0 i sd Hinv H.
  - inversion H; subst. exact Hinv.
  - cbn [analyze_spikes] in H. bind_step H sd1 Hsd1.
    apply (IH sd1 (i + 1) sd); [|exact H].
    apply analyze_spike_onset in Hsd1.
    destruct Hsd1 as [prev' [cur' [pp [pv [tv [-> [Hprev [_ [_ [_ [Hnum _]]]]]]]]]]].
    apply numbered_from_app.
    + exact (numbered_from_same_but_errors _ _ Hprev 0 Hinv).
    + rewrite (Forall2_len _ _ _ Hprev). exact Hnum.
Qed.

(** The detection of a sweep is the spike loop run on the collection it
    found. *)
Lemma spikeDetect_sweep_analysis
  (medfilt : list Q -> Z -> result (list Q))
  (savgol_filter : list Q -> Z -> Z -> result (list Q))
  (polyfit : list Q -> list Q -> fit_outcome) (aV iV : string)
  (clock : nat -> Q) (tick : nat) (self : bAnalysis) (sweepNumber : Z)
  (dDict : option detection) (tick' : nat) (self' : bAnalysis) :
  spikeDetect__ medfilt savgol_filter polyfit aV iV clock tick self sweepNumber dDict
    = Ok (tick', self') ->
  exists file dpms d type sweepX vm fd sweepC errs pw aw spikeTimes,
    analyze_spikes polyfit aV iV file dpms d type sweepNumber sweepX vm fd sweepC
      errs pw aw (spikeDict self) 0 spikeTimes = Ok (spikeDict self').
Proof.
  intro H. unfold spikeDetect__ in H. cbv zeta in H.
  bind_step H self1 Hself1. apply rebuildFiltered_spikeDict in Hself1.
  cbn [set_detectionDict spikeDict] in Hself1.
  bind_step H det Hdet. destruct det as [[[self2 type] spikeTimes] errs].
  assert (Hself2 : spikeDict self2 = spikeDict self).
  { rewrite <- Hself1. clear - Hdet.
    destruct (dvdtThreshold _).
    - bind_step Hdet a Ha. bind_step Hdet b Hb. bind_step Hdet c Hc. destruct c.
      bind_step Hdet d Hd. inversion Hdet; reflexivity.
    - bind_step Hdet a Ha. bind_step Hdet b Hb. bind_step Hdet c Hc. destruct c.
      bind_step Hdet d Hd. inversion Hdet; reflexivity.
    - bind_step Hdet a Ha. bind_step Hdet b Hb. bind_step Hdet c Hc. destruct c.
      inversion Hdet; reflexivity. }
  bind_step H x Hx. bind_step H vm Hvm. bind_step H fd Hfd. bind_step H c Hc.
  bind_step H gated Hgated. destruct gated as [times errs'].
  bind_step H sd Hsd. bind_step H report Hreport.
  inversion H; subst. cbn [set_finished set_spikeDict spikeDict].
  rewrite Hself2 in Hsd. repeat eexists. exact Hsd.
Qed.

Lemma spikeDetect_sweeps_numbered
  (medfilt : list Q -> Z -> result (list Q))
  (savgol_filter : list Q -> Z -> Z -> result (list Q))
  (polyfit : list Q -> list Q -> fit_outcome) (aV iV : string)
  (clock : nat -> Q) (dDict : option detection) (sweeps : list Z) :
  forall (tick : nat) (self : bAnalysis) (tick' : nat) (self' : bAnalysis),
  numbered_from 0 (spikeDict self) ->
  spikeDetect_sweeps medfilt savgol_filter polyfit aV iV clock tick self sweeps dDict
    = Ok (tick', self') ->
  numbered_from 0 (spikeDict self').
Proof.
  induction sweeps as [|sw r IH]; intros tick self tick' self' Hinv H.
  - inversion H; subst. exact Hinv.
  - cbn [spikeDetect_sweeps] in H. bind_step H ts Hts. destruct ts as [t1 self1].
    apply (IH t1 self1 tick' self'); [|exact H].
    apply spikeDetect_sweep_analysis in Hts.
    destruct Hts as [file [dpms [d [type [sx [vm [fd [sc [errs [pw [aw [times Hts]]]]]]]]]]]].
    exact (analyze_spikes_numbered _ _ _ _ _ _ _ _ _ _ _ _ _ _ _ _ _ _ _ Hinv Hts).
Qed.

(** X16: in the spike collection that a detection run over all sweeps
    returns, the record at position [k] has [spikeNumber] [k]; so
    [api_getSpikeInfo(k)], for [k] that is not negative, returns the one
    record whose [spikeNumber] is [k]. *)
Theorem spikeDetect_spikeNumber_is_position
  (medfilt : list Q -> Z -> result (list Q))
  (savgol_filter : list Q -> Z -> Z -> result (list Q))
  (polyfit : list Q -> list Q -> fit_outcome) (analysisVersion interfaceVersion : string)
  (clock : nat -> Q) (tick : nat) (self : bAnalysis) (dDict : option detection)
  (tick' : nat) (self' : bAnalysis) :
  spikeDetect medfilt savgol_filter polyfit analysisVersion interfaceVersion
    clock tick self dDict = Ok (tick', self') ->
  (forall (k : nat) (spike : dict),
     nth_error (spikeDict self') k = Some spike ->
     dict_get spike "spikeNumber" = Some (VInt (Z.of_nat k))) /\
  (forall (k : Z) (spikes : list dict),
     0 <= k -> api_getSpikeInfo self' (Some k) = Ok spikes ->
     exists spike, spikes = [spike] /\ dict_get spike "spikeNumber" = Some (VInt k)).
Proof.
  unfold spikeDetect. intro H. cbv zeta in H.
  bind_step H ts Hts. destruct ts as [t1 self1]. inversion H; subst; clear H.
  apply spikeDetect_sweeps_numbered in Hts; [|exact I].
  split.
  - intros k spike Hk. exact (numbered_from_nth _ 0 k spike Hts Hk).
  - intros k spikes Hk Hget. unfold api_getSpikeInfo in Hget.
    bind_step Hget d Hd. inversion Hget; subst. exists d. split; [reflexivity|].
    apply py_index_nth in Hd.
    destruct (k <? 0) eqn:E; [apply Z.ltb_lt in E; lia|].
    rewrite (numbered_from_nth _ 0 _ d Hts Hd). rewrite Z2Nat.id by lia. reflexivity.
Qed.

Lemma spikeDetect_spikeNumber_is_position_witness :
  (forall (k : nat) (spike : dict),
     nth_error (spikeDict (snd analyzed_recording)) k = Some spike ->
     dict_get spike "spikeNumber" = Some (VInt (Z.of_nat k))) /\
  (forall (k : Z) (spikes : list dict),
     0 <= k -> api_getSpikeInfo (snd analyzed_recording) (Some k) = Ok spikes ->
     exists spike, spikes = [spike] /\ dict_get spike "spikeNumber" = Some (VInt k)).
Proof.
  apply (spikeDetect_spikeNumber_is_position no_medfilt no_savgol line_fit "1" "1"
           example_clock 0 fresh_recording (Some slow_rise_config)
           (fst analyzed_recording)).
  vm_compute. reflexivity.
Defined.

(** *** The peak of a spike *)

Lemma fold_max_ge (r : list Q) : forall x,
  (x <= fold_left (fun m y => if Qgtb y m then y else m) r x)%Q.
Proof.
  induction r as [|y r IH]; intro x; cbn [fold_left]; [apply Qle_refl|].
  destruct (Qgtb y x) eqn:E.
  - apply Qgtb_true in E. eapply Qle_trans; [apply Qlt_le_weak; exact E | apply IH].
  - apply IH.
Qed.

Lemma np_max_ge_head (x : Q) (r : list Q) (m : Q) :
  np_max (x :: r) = Ok m -> (x <= m)%Q.
Proof. intro H. inversion H; subst. apply fold_max_ge. Qed.

(** X17: the record that the spike loop appends for an onset that is
    not negative, with a peak window that is not negative, has its peak
    inside the window, [thresholdPnt <= peakPnt < thresholdPnt +
    peakWindow_pnts], and a peak height, [peakVal - thresholdVal], that
    is not negative. *)
Theorem analyze_spike_peak_in_window (polyfit : list Q -> list Q -> fit_outcome)
  (analysisVersion interfaceVersion : string) (file : value) (dataPointsPerMs : Z)
  (dDict : detection) (detectionType : string) (sweepNumber : Z)
  (sweepX filteredVm filteredDeriv sweepC : list Q)
  (spikeErrorList : list (option errorDict)) (peakWindow_pnts avgWindow_pnts : Z)
  (prev : list dict) (i spikeTime : Z) (sd : list dict) :
  0 <= spikeTime -> 0 <= peakWindow_pnts ->
  analyze_spike polyfit analysisVersion interfaceVersion file dataPointsPerMs dDict
    detectionType sweepNumber sweepX filteredVm filteredDeriv sweepC spikeErrorList
    peakWindow_pnts avgWindow_pnts prev i spikeTime = Ok sd ->
  exists prev' spike peakPnt peakVal thresholdVal,
    sd = (prev' ++ [spike])%list /\
    dict_get spike "thresholdPnt" = Some (VInt spikeTime) /\
    dict_get spike "peakPnt" = Some (VInt peakPnt) /\
    spikeTime <= peakPnt < spikeTime + peakWindow_pnts /\
    dict_get spike "thresholdVal" = Some (VF thresholdVal) /\
    dict_get spike "peakVal" = Some (VF peakVal) /\
    dict_get spike "peakHeight" = Some (VF (peakVal - thresholdVal)%Q) /\
    (thresholdVal <= peakVal)%Q.
Proof.
  intros Hs Hpw H. apply analyze_spike_onset in H.
  destruct H as [prev' [cur' [pp [pv [tv [-> [_ [Hpp [Hpv [Htv [_ [F1 [F2 [F3 [F4 F5]]]]]]]]]]]]]]].
  exists prev', cur', (pp + spikeTime), pv, tv.
  split; [reflexivity|]. split; [exact F1|]. split; [exact F3|].
  pose proof (np_argmax_range _ _ Hpp) as Hrange.
  pose proof (py_index_Ok_range _ _ _ Htv) as Hin.
  assert (Hlen : len (py_slice filteredVm spikeTime (spikeTime + peakWindow_pnts))
                 <= peakWindow_pnts).
  { rewrite len_py_slice. pose proof (len_nonneg filteredVm). unfold clip_bound.
    destruct (spikeTime <? 0) eqn:E1; [apply Z.ltb_lt in E1; lia|].
    destruct (spikeTime + peakWindow_pnts <? 0) eqn:E2;
      [apply Z.ltb_lt in E2; lia|]. lia. }
  split; [lia|]. split; [exact F2|]. split; [exact F4|]. split; [exact F5|].
  assert (Hhead : nth_error (py_slice filteredVm spikeTime (spikeTime + peakWindow_pnts)) 0
                  = Some tv).
  { rewrite nth_error_py_slice by (cbn [Z.of_nat]; lia).
    apply py_index_nth in Htv.
    destruct (spikeTime <? 0) eqn:E1; [apply Z.ltb_lt in E1; lia|].
    unfold clip_bound. rewrite E1. rewrite Nat.add_0_r.
    rewrite Z.min_l by lia. exact Htv. }
  destruct (py_slice filteredVm spikeTime (spikeTime + peakWindow_pnts)) as [|x r];
    [discriminate|].
  inversion Hhead; subst. exact (np_max_ge_head _ _ _ Hpv).
Qed.

Lemma analyze_spike_peak_in_window_witness :
  exists prev' spike peakPnt peakVal thresholdVal,
    spikeDict (snd analyzed_recording) = (prev' ++ [spike])%list /\
    dict_get spike "thresholdPnt" = Some (VInt 8) /\
    dict_get spike "peakPnt" = Some (VInt peakPnt) /\
    8 <= peakPnt < 8 + 3 /\
    dict_get spike "thresholdVal" = Some (VF thresholdVal) /\
    dict_get spike "peakVal" = Some (VF peakVal) /\
    dict_get spike "peakHeight" = Some (VF (peakVal - thresholdVal)%Q) /\
    (thresholdVal <= peakVal)%Q.
Proof.
  apply (analyze_spike_peak_in_window line_fit "1" "1" (VStr "cell.abf") 1 slow_rise_config
           "dvdt" 0
           (map (fun z => inject_Z z / 1000)%Q (py_range 16))
           [0; 0; 0; 0; 10; 20; 10; 2; 6; 12; 22; 30; 12; 0; 0; 0]%Q
           [0; 0; 0; 0; 10; 10; -10; -8; 4; 6; 10; 8; -18; -12; 0; 0]%Q
           (map (fun _ => 0%Q) (py_range 16))
           [None; None] 3 1
           (removelast (spikeDict (snd analyzed_recording))) 1 8);
    [lia | lia | vm_compute; reflexivity].
Defined.

(** ** The refractory period between the onsets of a sweep *)

Lemma peaks_above_selects (filteredVm : list Q) (peakWindow_pnts : Z) (floor : Q)
  (spikeErrorList : list (option errorDict)) (spikeTimes : list Z) :
  forall (i : Z) (ts : list Z) (es : list (option errorDict)),
  peaks_above filteredVm peakWindow_pnts floor spikeErrorList i spikeTimes = Ok (ts, es) ->
  subsequence ts spikeTimes.
Proof.
  induction spikeTimes as [|s r IH]; intros i ts es H.
  - inversion H; subst. constructor.
  - cbn [peaks_above] in H. bind_step H p Hp. bind_step H m Hm.
    destruct (Qgtb m floor).
    + bind_step H e He. bind_step H rest Hrest. destruct rest as [ts' es'].
      inversion H; subst. constructor. exact (IH _ _ _ Hrest).
    + constructor. exact (IH _ _ _ H).
Qed.

Lemma neighbours_conj (P R : Z -> Z -> Prop) (l : list Z) :
  neighbours P l -> neighbours R l -> neighbours (fun a b => P a b /\ R a b) l.
Proof.
  induction l as [|a r IH]; [trivial|]. destruct r as [|b r']; [trivial|].
  intros [HP HPr] [HR HRr]. split; [split; assumption | exact (IH HPr HRr)].
Qed.

(** Increasing onsets that are a threshold apart stay so when some are
    left out. *)
Lemma subsequence_gaps (thr : Q) (k l : list Z) :
  subsequence k l ->
  neighbours (fun a b => a < b /\ (thr <= inject_Z (b - a))%Q) l ->
  neighbours (fun a b => (thr <= inject_Z (b - a))%Q) k.
Proof.
  intros Hsub Hl.
  apply (neighbours_impl (fun a b => a < b /\ (thr <= inject_Z (b - a))%Q)); [tauto|].
  apply (subsequence_neighbours _ k l); [|exact Hsub|exact Hl].
  intros a b c [Hab Gab] [Hbc Gbc]. split; [lia|].
  eapply Qle_trans; [exact Gab|]. rewrite <- Zle_Qle. lia.
Qed.

(** The onsets of the amplitude detector are increasing and, for a
    threshold that is not negative, a threshold apart. *)
Lemma spikeDetect_vm_gaps (dataPointsPerMs : Z) (dDict : detection)
  (filteredVm sweepY : list Q) (spikeTimes : list Z) (errs : list (option errorDict)) :
  (0 <= float_mul (inject_Z dataPointsPerMs) (refractory_ms dDict))%Q ->
  _spikeDetect_vm dataPointsPerMs dDict filteredVm sweepY = Ok (spikeTimes, errs) ->
  neighbours (fun a b => a < b /\
                (float_mul (inject_Z dataPointsPerMs) (refractory_ms dDict)
                 <= inject_Z (b - a))%Q) spikeTimes.
Proof.
  intros Hthr H.
  destruct (spikeDetect_vm_facts dataPointsPerMs dDict filteredVm sweepY)
    as [onsets [Hrun [_ [N G]]]].
  rewrite Hrun in H. inversion H; subst.
  apply neighbours_conj; [|exact (G Hthr)].
  eapply neighbours_impl; [|exact N]. cbv beta. tauto.
Qed.

(** C1, as amended.  For a positive sampling rate, a refractory period
    that is not negative and a float product of the two that is not
    rounded down (exact, or rounded up):
    the crossings that the refractory collapse keeps respect the
    refractory period, [(t[i] - t[i-1]) / dataPointsPerMs >=
    refractory_ms], in both modes; and in amplitude mode without the
    back-up of the onsets, so do the onsets ([thresholdPnt]) of the
    records that the detection of a sweep appends to the spike
    collection. *)
Theorem onsets_refractory_clean
  (medfilt : list Q -> Z -> result (list Q))
  (savgol_filter : list Q -> Z -> Z -> result (list Q))
  (polyfit : list Q -> list Q -> fit_outcome) (analysisVersion interfaceVersion : string)
  (clock : nat -> Q) (tick : nat) (self : bAnalysis) (sweepNumber : Z)
  (dDict : detection) :
  0 < dataPointsPerMs self ->
  (0 <= refractory_ms dDict)%Q ->
  (inject_Z (dataPointsPerMs self) * refractory_ms dDict
   <= float_mul (inject_Z (dataPointsPerMs self)) (refractory_ms dDict))%Q ->
  (forall (E : Type) (spikeTimes0 : list Z) (goodSpikeErrors : option (list E))
          (kept : list Z) (errors : option (list E)),
     _throwOutRefractory (dataPointsPerMs self) spikeTimes0 goodSpikeErrors
       (refractory_ms dDict) = Ok (kept, errors) ->
     refractory_clean (dataPointsPerMs self) (refractory_ms dDict) kept) /\
  (forall (tick' : nat) (self' : bAnalysis),
     dvdtThreshold dDict = NumNone \/ dvdtThreshold dDict = NumNaN ->
     doBackupSpikeVm dDict = false ->
     spikeDetect__ medfilt savgol_filter polyfit analysisVersion interfaceVersion
       clock tick self sweepNumber (Some dDict) = Ok (tick', self') ->
     exists old new onsets,
       spikeDict self' = (old ++ new)%list /\
       Forall2 same_but_errors (spikeDict self) old /\
       Forall2 (fun spike t => dict_get spike "thresholdPnt" = Some (VInt t) /\
                               dict_get spike "sweep" = Some (VInt sweepNumber))
         new onsets /\
       refractory_clean (dataPointsPerMs self) (refractory_ms dDict) onsets).
Proof.
  intros Hd Hr Hexact.
  pose proof (exact_product_nonneg _ _ Hd Hr Hexact) as Hthr.
  split.
  - intros E spikeTimes0 goodSpikeErrors kept errors Hrun.
    apply (gaps_refractory_clean _ _ _ Hd Hexact).
    rewrite (throwOutRefractory_kept _ _ _ _ _ _ Hrun).
    apply refractory_marked_gaps. exact Hthr.
  - intros tick' self' Hmode Hbackup H.
    unfold spikeDetect__ in H. cbv zeta in H.
    bind_step H self1 Hself1.
    apply rebuildFiltered_set_filtered in Hself1. destruct Hself1 as [vm0 [deriv0 ->]].
    bind_step H det Hdet. destruct det as [[[self2 type] spikeTimes] errs].
    assert (Hfound : spikeDict self2 = spikeDict self /\
                     dataPointsPerMs self2 = dataPointsPerMs self /\
                     neighbours (fun a b => a < b /\
                        (float_mul (inject_Z (dataPointsPerMs self)) (refractory_ms dDict)
                         <= inject_Z (b - a))%Q) spikeTimes).
    { destruct Hmode as [Hm|Hm]; rewrite Hm in Hdet;
        bind_step Hdet vm Hvm; bind_step Hdet y Hy; bind_step Hdet found Hfound;
        destruct found as [times0 errs0]; rewrite Hbackup in Hdet;
        cbn [bind] in Hdet; inversion Hdet; subst; clear Hdet;
        (split; [reflexivity|]); (split; [reflexivity|]);
        exact (spikeDetect_vm_gaps _ _ _ _ _ _ Hthr Hfound). }
    destruct Hfound as [Hsd2 [Hdp2 Hgaps]].
    bind_step H x Hx. bind_step H vm Hvm. bind_step H fd Hfd. bind_step H c Hc.
    bind_step H gated Hgated. destruct gated as [times errs'].
    bind_step H sd Hsd. bind_step H report Hreport.
    inversion H; subst; clear H. cbn [set_finished set_spikeDict spikeDict].
    assert (Hsub : subsequence times spikeTimes).
    { destruct (onlyPeaksAbove_mV dDict).
      - exact (peaks_above_selects _ _ _ _ _ _ _ _ Hgated).
      - inversion Hgated; subst. apply subsequence_refl. }
    apply analyze_spikes_onsets in Hsd. destruct Hsd as [old [new [-> [Hold Hnew]]]].
    rewrite Hsd2 in Hold.
    exists old, new, times. split; [reflexivity|]. split; [exact Hold|].
    split; [exact Hnew|].
    apply (gaps_refractory_clean _ _ _ Hd Hexact).
    exact (subsequence_gaps _ _ _ Hsub Hgaps).
Qed.

Lemma onsets_refractory_clean_witness :
  exists old new onsets,
    spikeDict (snd amplitude_analyzed) = (old ++ new)%list /\
    Forall2 same_but_errors (spikeDict amplitude_recording) old /\
    Forall2 (fun spike t => dict_get spike "thresholdPnt" = Some (VInt t) /\
                            dict_get spike "sweep" = Some (VInt 0))
      new onsets /\
    refractory_clean (dataPointsPerMs amplitude_recording) (refractory_ms amplitude_config)
      onsets.
Proof.
  refine (proj2 (onsets_refractory_clean no_medfilt no_savgol line_fit "1" "1"
                   example_clock 0 amplitude_recording 0 amplitude_config _ _ _)
            (fst amplitude_analyzed) (snd amplitude_analyzed) _ _ _).
  - reflexivity.
  - vm_compute. discriminate.
  - vm_compute. discriminate.
  - left. reflexivity.
  - reflexivity.
  - vm_compute. reflexivity.
Defined.

(** The run of the witness: two records, with onsets at samples 50 and
    150, 100 ms apart. *)
Lemma amplitude_run_onsets :
  result_map (fun ts => map (fun spike => dict_get spike "thresholdPnt") (spikeDict (snd ts)))
    amplitude_run
  = Ok [Some (VInt 50); Some (VInt 150)].
Proof. vm_compute. reflexivity. Qed.

(** C1 fails as stated, in three ways.  In derivative mode: on
    [slow_rise_deriv] the crossings 4 and 10 survive the collapse with a
    refractory period of 6 ms at one sample per ms, and the
    percent-of-max back-up moves them to 3 and 7.  In amplitude mode
    with the back-up of the onsets: on [walk_sweep], at two samples per
    ms, the crossings 100 and 260 are 80 ms apart, the refractory
    period, and the walk leaves the first where it is and moves the
    second to 230.  And with a product that is rounded down: at three
    samples per ms and a refractory period of 0.6666666666666667 ms the
    product is 2.0, so that the crossings 5 and 7 are both kept. *)
Lemma refined_onsets_break_refractory :
  (_spikeDetect_dvdt 1 slow_rise_config slow_rise_deriv slow_rise_vm
     = Ok ([3; 7], [None; None]) /\
   ~ refractory_clean 1 (refractory_ms slow_rise_config) [3; 7]) /\
  (_spikeDetect_vm 2 walk_config walk_sweep walk_sweep = Ok ([100; 260], [None; None]) /\
   refractory_clean 2 (refractory_ms walk_config) [100; 260] /\
   _backupSpikeVm median_filter 2 [100; 260] walk_sweep (medianFilter walk_config)
     = Ok [100; 230] /\
   ~ refractory_clean 2 (refractory_ms walk_config) [100; 230]) /\
  ((float_mul 3 (3002399751580331 # 4503599627370496) == 2)%Q /\
   _throwOutRefractory (E := unit) 3 [5; 7] None (3002399751580331 # 4503599627370496)
     = Ok ([5; 7], None) /\
   ~ refractory_clean 3 (3002399751580331 # 4503599627370496) [5; 7]).
Proof.
  split; [|split].
  - split; [vm_compute; reflexivity|].
    unfold refractory_clean. cbn [neighbours slow_rise_config refractory_ms].
    intros [H _]. vm_compute in H. apply H. reflexivity.
  - split; [vm_compute; reflexivity|]. split.
    + unfold refractory_clean. cbn [neighbours walk_config refractory_ms].
      split; [|exact I]. vm_compute. discriminate.
    + split; [vm_compute; reflexivity|].
      unfold refractory_clean. cbn [neighbours walk_config refractory_ms].
      intros [H _]. vm_compute in H. apply H. reflexivity.
  - split; [vm_compute; reflexivity|]. split; [vm_compute; reflexivity|].
    unfold refractory_clean. cbn [neighbours].
    intros [H _]. vm_compute in H. apply H. reflexivity.
Qed.

(** ** Width annotations of the spikes of a later sweep *)








(** In the example the search for the falling point fails: the record
    under construction gets the NaN width and no annotation, the record
    of the earlier sweep gets the annotation. *)
Lemma later_sweep_records_errors :
  dict_get (snd later_sweep_records) "errors" = Some (VErrors []) /\
  dict_get (snd later_sweep_records) "widths_20" = Some (VFloat FNaN) /\
  map (fun spike => result_map (map eType) (spike_errors spike)) (fst later_sweep_records)
  = [Ok ["spikeWidth"%string]].
Proof. vm_compute. repeat split; reflexivity. Qed.

(** ** The end of the detection of a sweep *)

Lemma rebuildFiltered_detectionDict
  (medfilt : list Q -> Z -> result (list Q))
  (savgol_filter : list Q -> Z -> Z -> result (list Q))
  (self self' : bAnalysis) :
  rebuildFiltered medfilt savgol_filter self = Ok self' ->
  detectionDict self' = detectionDict self.
Proof.
  intro H. apply rebuildFiltered_set_filtered in H. destruct H as [vm [deriv ->]].
  reflexivity.
Qed.

(** X19: when the detection of a sweep returns, the error table it
    caches holds the annotations of all records of the collection, in
    spike order: it is what [errorReport] returns, and [numErrors] is
    its length; the spike clips are cleared and the recording is marked
    as changed. *)
Theorem spikeDetect_sweep_error_table
  (medfilt : list Q -> Z -> result (list Q))
  (savgol_filter : list Q -> Z -> Z -> result (list Q))
  (polyfit : list Q -> list Q -> fit_outcome) (analysisVersion interfaceVersion : string)
  (clock : nat -> Q) (tick : nat) (self : bAnalysis) (sweepNumber : Z)
  (dDict : option detection) (tick' : nat) (self' : bAnalysis) :
  spikeDetect__ medfilt savgol_filter polyfit analysisVersion interfaceVersion
    clock tick self sweepNumber dDict = Ok (tick', self') ->
  exists rows,
    errorReport self' = Ok rows /\
    dfError self' = Some rows /\
    numErrors self' = VInt (len rows) /\
    spikeClips self' = None /\ spikeClips_x self' = None /\ spikeClips_x2 self' = None /\
    _detectionDirty self' = true.
Proof.
  intro H. unfold spikeDetect__ in H. cbv zeta in H.
  bind_step H self1 Hself1. apply rebuildFiltered_detectionDict in Hself1.
  cbn [set_detectionDict detectionDict] in Hself1.
  bind_step H det Hdet. destruct det as [[[self2 type] spikeTimes] errs].
  assert (Hself2 : detectionDict self2 = detectionDict self1).
  { clear - Hdet.
    destruct (match dDict with Some d => d | None => _ end) as [thr].
    destruct thr.
    - bind_step Hdet a Ha. bind_step Hdet b Hb. bind_step Hdet c Hc. destruct c.
      bind_step Hdet d Hd. inversion Hdet; reflexivity.
    - bind_step Hdet a Ha. bind_step Hdet b Hb. bind_step Hdet c Hc. destruct c.
      bind_step Hdet d Hd. inversion Hdet; reflexivity.
    - bind_step Hdet a Ha. bind_step Hdet b Hb. bind_step Hdet c Hc. destruct c.
      inversion Hdet; reflexivity. }
  bind_step H x Hx. bind_step H vm Hvm. bind_step H fd Hfd. bind_step H c Hc.
  bind_step H gated Hgated. destruct gated as [times errs'].
  bind_step H sd Hsd. bind_step H report Hreport.
  inversion H; subst; clear H.
  exists report. unfold errorReport, numErrors.
  cbn [set_finished set_spikeDict spikeDict detectionDict dfError spikeClips spikeClips_x
       spikeClips_x2 _detectionDirty] in *.
  rewrite Hreport. cbn [bind]. rewrite Hself2, Hself1.
  repeat split; reflexivity.
Qed.

Lemma spikeDetect_sweep_error_table_witness :
  exists rows,
    errorReport (snd amplitude_analyzed) = Ok rows /\
    dfError (snd amplitude_analyzed) = Some rows /\
    numErrors (snd amplitude_analyzed) = VInt (len rows) /\
    spikeClips (snd amplitude_analyzed) = None /\
    spikeClips_x (snd amplitude_analyzed) = None /\
    spikeClips_x2 (snd amplitude_analyzed) = None /\
    _detectionDirty (snd amplitude_analyzed) = true.
Proof.
  apply (spikeDetect_sweep_error_table no_medfilt no_savgol line_fit "1" "1" example_clock 0
           amplitude_recording 0 (Some amplitude_config) (fst amplitude_analyzed)).
  vm_compute. reflexivity.
Defined.

(** The run of the witness leaves four annotations. *)
Lemma amplitude_run_numErrors : numErrors (snd amplitude_analyzed) = VInt 4.
Proof. vm_compute. reflexivity. Qed.

(** ** The shape of the filtered arrays *)

Lemma mapM_Forall2 {A B : Type} (f : A -> result B) (l : list A) : forall l',
  mapM f l = Ok l' -> Forall2 (fun a b => f a = Ok b) l l'.
Proof.
  induction l as [|a r IH]; intros l' H.
  - inversion H; subst. constructor.
  - cbn [mapM] in H. bind_step H b Hb. bind_step H bs Hbs. inversion H; subst.
    constructor; [exact Hb | exact (IH _ Hbs)].
Qed.

Lemma len_zip_with {A B C : Type} (f : A -> B -> C) (l : list A) : forall (m : list B),
  len (zip_with f l m) = Z.min (len l) (len m).
Proof.
  induction l as [|a r IH]; intro m.
  - cbn [zip_with]. pose proof (len_nonneg m). change (len (@nil A)) with 0.
    change (len (@nil C)) with 0. lia.
  - destruct m as [|b m']; cbn [zip_with].
    + pose proof (len_nonneg (a :: r)). change (len (@nil B)) with 0.
      change (len (@nil C)) with 0. lia.
    + rewrite !len_cons, IH. lia.
Qed.

Lemma len_np_diff (l : list Q) : len (np_diff l) = Z.max 0 (len l - 1).
Proof.
  unfold np_diff. rewrite len_zip_with. destruct l as [|a r]; cbn [tl].
  - reflexivity.
  - rewrite len_cons. pose proof (len_nonneg r). lia.
Qed.

(** X20: in current-clamp mode, with a Savitzky-Golay filter that
    returns as many samples as it is given, the rebuilt arrays have the
    shape of the raw recording: one filtered column per raw column, of
    the same length, and one derivative column per sweep, which starts
    with the inserted 0 and is as long as the raw column (one sample
    for an empty column). *)
Theorem rebuildFiltered_shape
  (medfilt : list Q -> Z -> result (list Q))
  (savgol_filter : list Q -> Z -> Z -> result (list Q))
  (self self' : bAnalysis) :
  (forall x n p y, savgol_filter x n p = Ok y -> len y = len x) ->
  _recordingMode self = IClamp ->
  rebuildFiltered medfilt savgol_filter self = Ok self' ->
  len (_filteredDeriv self') = numSweeps self /\
  Forall2 (fun raw v => len v = len raw) (_sweepY self) (_filteredVm self') /\
  Forall2 (fun raw d => hd_error d = Some 0%Q /\ len d = Z.max 1 (len raw))
    (_sweepY self) (_filteredDeriv self').
Proof.
  intros Hsg Hmode Hrun. unfold rebuildFiltered in Hrun. rewrite Hmode in Hrun.
  unfold _getDerivative in Hrun. cbn [getDefaultDetection medianFilter SavitzkyGolay_pnts
    SavitzkyGolay_poly Z.gtb Z.compare andb] in Hrun.
  apply bind_Ok in Hrun. destruct Hrun as [vm [Hvm Hrun]].
  apply bind_Ok in Hrun. destruct Hrun as [deriv [Hderiv Hrun]].
  destruct (len _ =? numSweeps self) eqn:Hn; [|discriminate].
  apply Z.eqb_eq in Hn. apply Ok_inj in Hrun. subst self'.
  cbn [set_filtered _filteredVm _filteredDeriv].
  apply mapM_Forall2 in Hvm. apply mapM_Forall2 in Hderiv.
  split; [rewrite !len_map in *; exact Hn|].
  assert (Hv : Forall2 (fun raw v => len v = len raw) (_sweepY self) vm).
  { eapply Forall2_impl; [|exact Hvm]. intros a b Hab. exact (Hsg _ _ _ _ Hab). }
  split; [exact Hv|].
  clear Hn Hvm. revert deriv Hderiv.
  induction Hv as [|raw v raws vs Hlen Hrest IH]; intros deriv Hderiv.
  - inversion Hderiv; subst. constructor.
  - cbn [map] in Hderiv. inversion Hderiv as [|? d ? ds Hd Hds]; subst.
    cbn [map]. constructor; [|exact (IH _ Hds)].
    split; [reflexivity|].
    rewrite len_cons, len_map, (Hsg _ _ _ _ Hd), len_np_diff, Hlen.
    pose proof (len_nonneg raw). lia.
Qed.

Lemma rebuildFiltered_shape_witness :
  len (_filteredDeriv amplitude_filtered) = numSweeps amplitude_recording /\
  Forall2 (fun raw v => len v = len raw) (_sweepY amplitude_recording)
    (_filteredVm amplitude_filtered) /\
  Forall2 (fun raw d => hd_error d = Some 0%Q /\ len d = Z.max 1 (len raw))
    (_sweepY amplitude_recording) (_filteredDeriv amplitude_filtered).
Proof.
  apply (rebuildFiltered_shape no_medfilt no_savgol amplitude_recording).
  - intros x n p y H. inversion H; reflexivity.
  - reflexivity.
  - vm_compute. reflexivity.
Defined.
